(** * TaskuOpe, materials/views/api.py: game completion, autosave, generation

    A shallow embedding of three Django views of [materials/views/api.py]
    and of the helpers they call:

    - [complete_game_ajax_view]  (scoring state machine of a game assignment),
    - [assignment_autosave_view] (draft autosave),
    - [generate_game_ajax_view]  with [generate_game_content] and
      [generate_game_metadata] (AI generated game payloads).

    A view is a function from a request and a database to a response (or an
    exception that leaves the view) and the database it leaves behind.
    Every write is committed when it is made (Django's autocommit).

    Scope of the embedding.  JSON numbers are integers: Python floats are
    not represented.  A Python [str] is represented by its UTF-8 encoding,
    a Rocq string of bytes; a character is one to four of these.  Primary
    keys are integers.  The console [print] of the completion view is not
    represented.  models.py, settings and the libraries ([json], the clock,
    the OpenAI client) are not among the sources: the models are records
    with the fields the views use, the rest is the class [Runtime]. *)

From Stdlib Require Import ZArith String Ascii List Bool Lia.
From stdpp Require Import base option list gmap strings.
Import ListNotations.

Set Warnings "-register-all".
Local Open Scope string_scope.

(** ** Python values *)

(** What [json.loads] can return and what a [JsonResponse] can carry. *)
Inductive pyval : Type :=
| PyNone
| PyBool (b : bool)
| PyInt (z : Z)
| PyStr (s : string)
| PyList (l : list pyval)
| PyDict (d : list (string * pyval)).

(** Exceptions, with the text [str(e)] gives. *)
Inductive exn : Type :=
| Http404
| AttributeError (msg : string)
| TypeError (msg : string)
| ValueError (msg : string)
| JSONDecodeError (msg : string)
| OtherError (msg : string).

Definition exn_str (e : exn) : string :=
  match e with
  | Http404 => "No Assignment matches the given query."
  | AttributeError m | TypeError m | ValueError m
  | JSONDecodeError m | OtherError m => m
  end.

Inductive result (A : Type) : Type :=
| Ok (a : A)
| Raise (e : exn).
Arguments Ok {A} a.
Arguments Raise {A} e.

Module Py.

(** [type(v).__name__] *)
Definition type_name (v : pyval) : string :=
  match v with
  | PyNone => "NoneType"
  | PyBool _ => "bool"
  | PyInt _ => "int"
  | PyStr _ => "str"
  | PyList _ => "list"
  | PyDict _ => "dict"
  end.

(** [bool(v)] *)
Definition truthy (v : pyval) : bool :=
  match v with
  | PyNone => false
  | PyBool b => b
  | PyInt z => negb (z =? 0)%Z
  | PyStr s => negb (s =? EmptyString)
  | PyList l => match l with [] => false | _ => true end
  | PyDict d => match d with [] => false | _ => true end
  end.

(** The integer a value stands for in arithmetic: [int], and [bool] as
    its subclass. *)
Definition as_int (v : pyval) : option Z :=
  match v with
  | PyInt z => Some z
  | PyBool b => Some (if b then 1 else 0)%Z
  | _ => None
  end.

(** [v >= n] for an integer literal [n] *)
Definition ge_int (v : pyval) (n : Z) : result bool :=
  match as_int v with
  | Some z => Ok (n <=? z)%Z
  | None => Raise (TypeError ("'>=' not supported between instances of '"
                                ++ type_name v ++ "' and 'int'"))
  end.

(** [n < v] for an integer [n] *)
Definition int_lt (n : Z) (v : pyval) : result bool :=
  match as_int v with
  | Some z => Ok (n <? z)%Z
  | None => Raise (TypeError ("'<' not supported between instances of 'int' and '"
                                ++ type_name v ++ "'"))
  end.

(** [k in d] for a dict [d] *)
Definition dict_contains (k : string) (d : list (string * pyval)) : bool :=
  existsb (fun kv => fst kv =? k) d.

Fixpoint dict_lookup (k : string) (d : list (string * pyval)) : option pyval :=
  match d with
  | [] => None
  | (k', v) :: r => if k' =? k then Some v else dict_lookup k r
  end.

(** [d.get(k, default)] for a dict [d] *)
Definition dict_get (k : string) (d : list (string * pyval)) (default : pyval) : pyval :=
  match dict_lookup k d with
  | Some x => x
  | None => default
  end.

(** [v.get(k, default)]: only a dict has the method. *)
Definition get (v : pyval) (k : string) (default : pyval) : result pyval :=
  match v with
  | PyDict d => Ok (dict_get k d default)
  | _ => Raise (AttributeError ("'" ++ type_name v ++ "' object has no attribute 'get'"))
  end.

(** [v == s] for a string literal [s] *)
Definition eq_str (v : pyval) (s : string) : bool :=
  match v with
  | PyStr t => t =? s
  | _ => false
  end.

(** The whitespace characters of one byte: TAB, LF, VT, FF, CR, FS, GS,
    RS, US and space. *)
Definition isspace_ascii (c : ascii) : bool :=
  let n := nat_of_ascii c in
  ((9 <=? n) && (n <=? 13) || (28 <=? n) && (n <=? 32))%nat.

(** The whitespace characters of two bytes, U+0085 and U+00A0. *)
Definition isspace_2 (b0 b1 : nat) : bool :=
  ((b0 =? 194) && ((b1 =? 133) || (b1 =? 160)))%nat.

(** The whitespace characters of three bytes: U+1680, U+2000 to U+200A,
    U+2028, U+2029, U+202F, U+205F and U+3000. *)
Definition isspace_3 (b0 b1 b2 : nat) : bool :=
  ((b0 =? 225) && (b1 =? 154) && (b2 =? 128)
   || (b0 =? 226) && (b1 =? 128)
      && ((128 <=? b2) && (b2 <=? 138) || (b2 =? 168) || (b2 =? 169) || (b2 =? 175))
   || (b0 =? 226) && (b1 =? 129) && (b2 =? 159)
   || (b0 =? 227) && (b1 =? 128) && (b2 =? 128))%nat.

(** The number of bytes of the whitespace character [s] starts with, 0
    when it starts with none.  Whitespace is what [str.isspace], hence
    [str.strip()] and the [\s] of a pattern on [str], take for it. *)
Definition space_width (s : string) : nat :=
  match s with
  | EmptyString => 0
  | String c r =>
      if isspace_ascii c then 1
      else
        match r with
        | EmptyString => 0
        | String d r' =>
            if isspace_2 (nat_of_ascii c) (nat_of_ascii d) then 2
            else
              match r' with
              | EmptyString => 0
              | String e _ =>
                  if isspace_3 (nat_of_ascii c) (nat_of_ascii d) (nat_of_ascii e)
                  then 3 else 0
              end
        end
  end.

(** [s] is one whitespace character. *)
Definition isspace (s : string) : bool :=
  match space_width s with
  | O => false
  | S n => (S n =? String.length s)%nat
  end.

(** [s.lstrip()], [skip] bytes of a whitespace character being still to
    drop. *)
Fixpoint lstrip_from (skip : nat) (s : string) : string :=
  match s with
  | EmptyString => EmptyString
  | String c r =>
      match skip with
      | S k => lstrip_from k r
      | O =>
          match space_width s with
          | S k => lstrip_from k r
          | O => s
          end
      end
  end.

Definition lstrip (s : string) : string := lstrip_from 0 s.

(** [s.rstrip()], from the end: what is left of [s] is dropped as long as
    it is one whitespace character after the whitespace already dropped. *)
Fixpoint rstrip (s : string) : string :=
  match s with
  | EmptyString => EmptyString
  | String c r =>
      let kept := String c (rstrip r) in
      if isspace kept then EmptyString else kept
  end.

(** [s.strip()] *)
Definition strip (s : string) : string := rstrip (lstrip s).

(** A byte that continues a character. *)
Definition is_continuation (c : ascii) : bool :=
  let n := nat_of_ascii c in ((128 <=? n) && (n <? 192))%nat.

(** [s[:n]]: the first [n] characters. *)
Fixpoint take_chars (n : nat) (s : string) : string :=
  match s with
  | EmptyString => EmptyString
  | String c r =>
      if is_continuation c then String c (take_chars n r)
      else
        match n with
        | O => EmptyString
        | S k => String c (take_chars k r)
        end
  end.

End Py.

(** ** The world outside the module *)

(** The text of a prompt is fixed by its template and the values formatted
    into it; a prompt is represented by these. *)
Inductive Prompt : Type :=
| QuizPrompt (num_questions : Z) (topic difficulty : pyval)
| HangmanPrompt (topic : pyval)
| MemoryPrompt (topic : pyval)
| MetadataPrompt (game_name topic : pyval).

(** Library functions, settings and collaborators the views call. *)
Class Runtime : Type := {
  (** [json.loads] *)
  json_loads : string -> result pyval;
  (** the [n]-th reading of [timezone.now()] while a request is served *)
  timezone_now : nat -> Z;
  (** [datetime.isoformat] *)
  isoformat : Z -> string;
  (** [settings.LOGIN_URL] *)
  LOGIN_URL : string;
  (** [str.capitalize] *)
  capitalize : string -> string;
  (** [str(v)], the text an f-string puts for a value *)
  format : pyval -> string;
  (** [client.chat.completions.create(...).choices[0].message.content]
      for a prompt: a [str], [None], or an exception of the client *)
  chat_completion : Prompt -> result pyval;
  (** Modelled from the spec: [Submission.score] is "numeric, nullable";
      models.py declares the column and is not part of the sources.  This
      is what saving a value in the column stores ([None] is NULL), or the
      exception the column raises for it.  A number is stored as it is. *)
  score_get_prep_value : pyval -> result (option Z);
  score_get_prep_value_int :
    forall z, score_get_prep_value (PyInt z) = Ok (Some z)
}.

(** ** Models *)

(** Modelled from the spec: [Assignment.Status] has the four values of
    section 3 of the specification; models.py is not part of the sources. *)
Inductive Status : Type := ASSIGNED | IN_PROGRESS | SUBMITTED | GRADED.

Definition Status_eqb (a b : Status) : bool :=
  match a, b with
  | ASSIGNED, ASSIGNED | IN_PROGRESS, IN_PROGRESS
  | SUBMITTED, SUBMITTED | GRADED, GRADED => true
  | _, _ => false
  end.

(** Modelled from the spec: a Material carries [structured_content], a JSON
    object told apart by the keys it has, or no content at all. *)
Record Material : Type := {
  structured_content : option (list (string * pyval))
}.

(** Modelled from the spec: the fields of an Assignment the views read and
    write.  [a_material] is [None] for an assignment without a material. *)
Record Assignment : Type := {
  a_student : Z;
  a_status : Status;
  a_draft_response : string;
  a_material : option Material
}.

(** Modelled from the spec: the fields of a Submission set by the views. *)
Record Submission : Type := {
  s_assignment : Z;
  s_student : Z;
  s_status : string;
  s_submitted_at : Z;
  s_graded_at : Z;
  s_score : option Z;
  s_feedback : string
}.

Definition set_status (st : Status) (a : Assignment) : Assignment :=
  {| a_student := a_student a; a_status := st;
     a_draft_response := a_draft_response a; a_material := a_material a |}.

Definition set_draft_response (d : string) (a : Assignment) : Assignment :=
  {| a_student := a_student a; a_status := a_status a;
     a_draft_response := d; a_material := a_material a |}.

Definition set_score (c : option Z) (s : Submission) : Submission :=
  {| s_assignment := s_assignment s; s_student := s_student s;
     s_status := s_status s; s_submitted_at := s_submitted_at s;
     s_graded_at := s_graded_at s; s_score := c; s_feedback := s_feedback s |}.

(** The database: assignments by primary key, and the submissions.
    Modelled from the spec: the "latest" submission of an assignment is the
    one most recently created, so the table is kept in creation order. *)
Record DB : Type := {
  assignments : gmap Z Assignment;
  submissions : list Submission
}.

Definition with_assignments (t : gmap Z Assignment) (db : DB) : DB :=
  {| assignments := t; submissions := submissions db |}.

Definition with_submissions (l : list Submission) (db : DB) : DB :=
  {| assignments := assignments db; submissions := l |}.

(** ** Requests and responses *)

Record User : Type := {
  u_id : Z;
  username : string;
  (** [None] when the user object has no attribute [role] *)
  role : option string
}.

Record HttpRequest : Type := {
  method : string;
  (** [None] for an anonymous (not authenticated) user *)
  user : option User;
  body : string;
  (** the form fields, in the order sent *)
  POST : list (string * string)
}.

Inductive HttpResponse : Type :=
| JsonResponse (data : list (string * pyval)) (status : Z)
| HttpResponseNotAllowed (permitted_methods : list string)
| HttpResponseRedirect (login_url : string).

(** [JsonResponse(data)] answers 200. *)
Definition JsonResponse200 (data : list (string * pyval)) : HttpResponse :=
  JsonResponse data 200.

(** A computation on the database that returns or raises. *)
Definition M (A : Type) : Type := DB -> result A * DB.

Definition ret {A : Type} (a : A) : M A := fun db => (Ok a, db).

Definition raise {A : Type} (e : exn) : M A := fun db => (Raise e, db).

Definition lift {A : Type} (r : result A) : M A := fun db => (r, db).

Definition bind {A B : Type} (m : M A) (k : A -> M B) : M B :=
  fun db =>
    match m db with
    | (Ok a, db') => k a db'
    | (Raise e, db') => (Raise e, db')
    end.

Definition get_db : M DB := fun db => (Ok db, db).

Definition modify_db (f : DB -> DB) : M unit := fun db => (Ok tt, f db).

Notation "'do' x <- m ; k" := (bind m (fun x => k))
  (at level 10, x pattern, m at level 100, k at level 200).
Notation "'run' m ; k" := (bind m (fun _ => k))
  (at level 10, m at level 100, k at level 200).

(** The same for a computation that does not touch the database. *)
Definition and_then {A B : Type} (r : result A) (k : A -> result B) : result B :=
  match r with
  | Ok a => k a
  | Raise e => Raise e
  end.

Notation "'check' x <- r ; k" := (and_then r (fun x => k))
  (at level 10, x pattern, r at level 100, k at level 200).

Definition View : Type := HttpRequest -> M HttpResponse.

(** [QueryDict.get(key)]: the last value sent for the key. *)
Fixpoint querydict_get (key : string) (q : list (string * string)) : option string :=
  match q with
  | [] => None
  | (k, v) :: r =>
      match querydict_get key r with
      | Some x => Some x
      | None => if k =? key then Some v else None
      end
  end.

(** ** Decorators and shortcuts *)

(** [@require_POST] *)
Definition require_POST (view : View) : View :=
  fun request =>
    if method request =? "POST" then view request
    else ret (HttpResponseNotAllowed ["POST"]).

(** [@login_required] and [@login_required(login_url=...)]: an anonymous
    user is sent to the login page (the [next] parameter of the redirect
    is not represented). *)
Definition login_required `{Runtime} (login_url : option string) (view : View) : View :=
  fun request =>
    match user request with
    | Some _ => view request
    | None => ret (HttpResponseRedirect (default LOGIN_URL login_url))
    end.

(** [get_object_or_404(Assignment, id=id, **filters)] *)
Definition get_object_or_404 (filters : Assignment -> bool) (id : Z) : M Assignment :=
  do db <- get_db;
  match assignments db !! id with
  | Some a => if filters a then ret a else raise Http404
  | None => raise Http404
  end.

(** [assignment.save(update_fields=['status'])] *)
Definition save_status (id : Z) (assignment : Assignment) : M unit :=
  modify_db (fun db =>
    with_assignments (alter (set_status (a_status assignment)) id (assignments db)) db).

(** [assignment.save(update_fields=["draft_response", "status"])] *)
Definition save_draft_response_status (id : Z) (assignment : Assignment) : M unit :=
  modify_db (fun db =>
    with_assignments
      (alter (fun row => set_status (a_status assignment)
                           (set_draft_response (a_draft_response assignment) row))
             id (assignments db)) db).

(** The last row of [l] that belongs to the assignment, with its place in
    the table when [l] starts at place [i]. *)
Fixpoint last_from (i : nat) (assignment_id : Z) (l : list Submission)
  : option (nat * Submission) :=
  match l with
  | [] => None
  | s :: r =>
      match last_from (S i) assignment_id r with
      | Some found => Some found
      | None => if (s_assignment s =? assignment_id)%Z then Some (i, s) else None
      end
  end.

(** [assignment.submissions.last()]: the latest submission of the
    assignment with its place in the table, [None] when it has none. *)
Definition submissions_last (assignment_id : Z) : M (option (nat * Submission)) :=
  do db <- get_db;
  ret (last_from 0 assignment_id (submissions db)).

(** [Submission.objects.create(assignment=..., student=request.user,
    status=SUBMITTED, submitted_at=timezone.now(), graded_at=timezone.now(),
    score=score, feedback="Peli suoritettu.")] *)
Definition Submission_create `{Runtime} (assignment_id : Z) (student : User)
    (score : pyval) : M unit :=
  do c <- lift (score_get_prep_value score);
  modify_db (fun db =>
    with_submissions
      (submissions db ++
         [ {| s_assignment := assignment_id;
              s_student := u_id student;
              s_status := "SUBMITTED";
              s_submitted_at := timezone_now 0;
              s_graded_at := timezone_now 1;
              s_score := c;
              s_feedback := "Peli suoritettu." |} ]) db).

(** [existing_sub.score = score; existing_sub.save(update_fields=['score'])] *)
Definition save_score `{Runtime} (i : nat) (score : pyval) : M unit :=
  do c <- lift (score_get_prep_value score);
  modify_db (fun db => with_submissions (alter (set_score c) i (submissions db)) db).

(** A stored score as a Python value. *)
Definition score_value (c : option Z) : pyval :=
  match c with
  | Some z => PyInt z
  | None => PyNone
  end.

(** ** complete_game_ajax_view *)

Inductive GameType : Type := quiz | hangman | memory.

(** The dispatch on the keys of the structured content (the [if]/[elif]
    chain of the view); [None] is its [else] branch. *)
Definition game_type_of (game_data : list (string * pyval)) : option GameType :=
  if Py.dict_contains "levels" game_data then Some quiz
  else if Py.dict_contains "word" game_data || Py.dict_contains "words" game_data
       then Some hangman
  else if Py.dict_contains "pairs" game_data then Some memory
  else None.

Definition error_response (message : string) : HttpResponse :=
  JsonResponse [("status", PyStr "error"); ("message", PyStr message)] 400.

(** [existing_sub and existing_sub.score and existing_sub.score >= 80] *)
Definition has_passing_score (existing_sub : option (nat * Submission)) : bool :=
  match existing_sub with
  | Some (_, sub) =>
      match s_score sub with
      | Some z => negb (z =? 0)%Z && (80 <=? z)%Z
      | None => false
      end
  | None => false
  end.

(** [existing_sub.score or 0] *)
Definition score_or_0 (sub : Submission) : Z :=
  match s_score sub with
  | Some z => if (z =? 0)%Z then 0%Z else z
  | None => 0%Z
  end.

(** The branch [if assignment.status == Assignment.Status.GRADED:] *)
Definition already_graded `{Runtime} (assignment_id : Z) (assignment : Assignment)
    (student : User) (game_type : GameType) (score : pyval) : M HttpResponse :=
  match game_type with
  | quiz =>
      do existing_sub <- submissions_last assignment_id;
      if has_passing_score existing_sub then
        ret (JsonResponse200
               [("status", PyStr "already_completed");
                ("completed", PyBool true);
                ("score", match existing_sub with
                          | Some (_, sub) => score_value (s_score sub)
                          | None => PyNone
                          end)])
      else
        do improved <- match existing_sub with
                       | None => ret true
                       | Some (_, sub) => lift (Py.int_lt (score_or_0 sub) score)
                       end;
        run (if improved : bool then
               match existing_sub with
               | Some (i, _) => save_score i score
               | None => Submission_create assignment_id student score
               end
             else ret tt);
        do passed <- lift (Py.ge_int score 80);
        if passed : bool then
          let assignment := set_status GRADED assignment in
          run save_status assignment_id assignment;
          ret (JsonResponse200
                 [("status", PyStr "success");
                  ("score", score);
                  ("completed", PyBool true)])
        else
          ret (JsonResponse200
                 [("status", PyStr "retry");
                  ("score", score);
                  ("completed", PyBool false)])
  | _ =>
      do existing_sub <- submissions_last assignment_id;
      ret (JsonResponse200
             [("status", PyStr "already_completed");
              ("completed", PyBool true);
              ("score", match existing_sub with
                        | Some (_, sub) => score_value (s_score sub)
                        | None => PyInt 0
                        end)])
  end.

(** The first attempt: everything after the GRADED branch. *)
Definition first_attempt `{Runtime} (assignment_id : Z) (assignment : Assignment)
    (student : User) (game_type : GameType) (score : pyval) : M HttpResponse :=
  do completed <-
    match game_type with
    | quiz =>
        do passed <- lift (Py.ge_int score 80);
        if passed : bool then
          let assignment := set_status GRADED assignment in
          run save_status assignment_id assignment;
          ret true
        else ret false
    | _ =>
        let assignment := set_status GRADED assignment in
        run save_status assignment_id assignment;
        ret true
    end;
  run Submission_create assignment_id student score;
  ret (JsonResponse200
         [("status", PyStr "success");
          ("score", score);
          ("completed", PyBool completed)]).

(** The body of the view, below its decorators. *)
Definition complete_game `{Runtime} (assignment_id : Z) : View :=
  fun request =>
    match user request with
    | None => raise (TypeError "Field 'id' expected a number but got AnonymousUser")
    | Some student =>
        do assignment <-
          get_object_or_404 (fun a => (a_student a =? u_id student)%Z) assignment_id;
        match a_material assignment with
        | None => ret (error_response "Virheellinen pelisisältö")
        | Some material =>
            let game_data := default [] (structured_content material) in
            match game_type_of game_data with
            | None => ret (error_response "Tuntematon pelityyppi")
            | Some game_type =>
                match json_loads (body request) with
                | Raise (JSONDecodeError _) => ret (error_response "Virheellinen JSON")
                | Raise e => raise e
                | Ok data =>
                    do score <- lift (Py.get data "score" (PyInt 0));
                    if Status_eqb (a_status assignment) GRADED then
                      already_graded assignment_id assignment student game_type score
                    else
                      first_attempt assignment_id assignment student game_type score
                end
            end
        end
    end.

Definition complete_game_ajax_view `{Runtime} (assignment_id : Z) : View :=
  require_POST (login_required None (complete_game assignment_id)).

(** ** assignment_autosave_view *)

(** The body of the view, below its decorators. *)
Definition assignment_autosave `{Runtime} (assignment_id : Z) : View :=
  fun request =>
    do assignment <- get_object_or_404 (fun _ => true) assignment_id;
    (* assignment.student_id != request.user.id; an anonymous user has id None *)
    if negb (match user request with
             | Some u => (a_student assignment =? u_id u)%Z
             | None => false
             end)
    then ret (JsonResponse [("ok", PyBool false); ("error", PyStr "forbidden")] 403)
    else if Status_eqb (a_status assignment) SUBMITTED
            || Status_eqb (a_status assignment) GRADED
    then ret (JsonResponse [("ok", PyBool false); ("error", PyStr "locked")] 400)
    else
      let draft :=
        Py.strip (default EmptyString (querydict_get "response" (POST request))) in
      let assignment := set_draft_response draft assignment in
      let assignment :=
        if negb (draft =? EmptyString) && Status_eqb (a_status assignment) ASSIGNED
        then set_status IN_PROGRESS assignment
        else assignment in
      run save_draft_response_status assignment_id assignment;
      ret (JsonResponse200
             [("ok", PyBool true);
              ("saved_at", PyStr (isoformat (timezone_now 0)))]).

Definition assignment_autosave_view `{Runtime} (assignment_id : Z) : View :=
  login_required (Some "kirjaudu") (require_POST (assignment_autosave assignment_id)).

(** ** generate_game_content, generate_game_metadata, generate_game_ajax_view *)

(** [json.loads(content)] for the content of a completion *)
Definition loads_content `{Runtime} (content : pyval) : result pyval :=
  match content with
  | PyStr s => json_loads s
  | _ => Raise (TypeError ("the JSON object must be str, bytes or bytearray, not "
                             ++ Py.type_name content))
  end.

(** [question_counts.get(difficulty, 10)] *)
Definition question_count (difficulty : pyval) : result Z :=
  match difficulty with
  | PyStr d =>
      Ok (if d =? "easy" then 5%Z
          else if d =? "medium" then 10%Z
          else if d =? "hard" then 15%Z
          else 10%Z)
  | PyList _ | PyDict _ =>
      Raise (TypeError ("unhashable type: '" ++ Py.type_name difficulty ++ "'"))
  | _ => Ok 10%Z
  end.

Definition generate_game_content `{Runtime} (topic game_type difficulty : pyval)
  : result pyval :=
  check prompt <-
    (if Py.eq_str game_type "quiz" then
       check num_questions <- question_count difficulty;
       Ok (QuizPrompt num_questions topic difficulty)
     else if Py.eq_str game_type "hangman" then Ok (HangmanPrompt topic)
     else if Py.eq_str game_type "memory" then Ok (MemoryPrompt topic)
     else Raise (ValueError "Tuntematon pelityyppi"));
  check content <- chat_completion prompt;
  loads_content content.

Definition VALID_SUBJECTS : list string :=
  [ "Äidinkieli ja kirjallisuus"; "Matematiikka"; "Ympäristöoppi"; "Ruotsi";
    "Englanti"; "Fysiikka"; "Kemia"; "Maantieto"; "Kotitalous"; "Terveystieto";
    "Liikunta"; "Musiikki"; "Kuvataide"; "Käsityö";
    "Uskonto tai elämänkatsomustieto"; "Historia"; "Yhteiskuntaoppi" ].

(** [v[:n]]: a slice of a string or of a list; a dict takes the slice for
    a key, which cannot be hashed (from Python 3.12 on it can, and the
    lookup raises KeyError instead); the other values have no subscript. *)
Definition slice_to (n : nat) (v : pyval) : result pyval :=
  match v with
  | PyStr s => Ok (PyStr (Py.take_chars n s))
  | PyList l => Ok (PyList (firstn n l))
  | PyDict _ => Raise (TypeError "unhashable type: 'slice'")
  | _ => Raise (TypeError ("'" ++ Py.type_name v ++ "' object is not subscriptable"))
  end.

(** [f'{game_name.capitalize()}: {topic[:40]}'] *)
Definition default_title `{Runtime} (game_name topic : pyval) : result string :=
  match game_name with
  | PyStr g =>
      check t <- slice_to 40 topic;
      Ok (capitalize g ++ ": " ++ match t with PyStr s => s | _ => format t end)
  | _ => Raise (AttributeError ("'" ++ Py.type_name game_name
                                  ++ "' object has no attribute 'capitalize'"))
  end.

(** The body of [generate_game_metadata] inside its [try]. *)
Definition ask_metadata `{Runtime} (game_name topic : pyval) : result pyval :=
  check content <- chat_completion (MetadataPrompt game_name topic);
  check result <- loads_content content;
  check returned_subject <- Py.get result "subject" (PyStr "Ympäristöoppi");
  let returned_subject :=
    if existsb (Py.eq_str returned_subject) VALID_SUBJECTS
    then returned_subject
    else PyStr "Ympäristöoppi" in
  check fallback <- default_title game_name topic;
  check title <- Py.get result "title" (PyStr fallback);
  Ok (PyDict [("title", title); ("subject", returned_subject)]).

Definition generate_game_metadata `{Runtime} (game_name topic : pyval) : result pyval :=
  match ask_metadata game_name topic with
  | Ok metadata => Ok metadata
  | Raise _ =>
      check fallback <- default_title game_name topic;
      Ok (PyDict [("title", PyStr fallback); ("subject", PyStr "Ympäristöoppi")])
  end.

(** The [try] block of [generate_game_ajax_view]. *)
Definition generate `{Runtime} (request : HttpRequest) : result HttpResponse :=
  check data <- json_loads (body request);
  check topic <- Py.get data "topic" PyNone;
  check game_type <- Py.get data "game_type" PyNone;
  check difficulty <- Py.get data "difficulty" (PyStr "medium");
  if negb (Py.truthy topic) || negb (Py.truthy game_type) then
    Ok (JsonResponse [("error", PyStr "Aihe ja pelityyppi ovat pakollisia.")] 400)
  else
    check game_data <- generate_game_content topic game_type difficulty;
    check metadata <- generate_game_metadata topic game_type;
    Ok (JsonResponse200
          [("success", PyBool true);
           ("game_data", game_data);
           ("metadata", metadata)]).

(** The body of the view, below its decorators. *)
Definition generate_game `{Runtime} : View :=
  fun request =>
    (* not hasattr(request.user, "role") or request.user.role != "TEACHER" *)
    if negb (match user request with
             | Some u => match role u with
                         | Some r => r =? "TEACHER"
                         | None => false
                         end
             | None => false
             end)
    then ret (JsonResponse [("error", PyStr "Vain opettajat voivat luoda pelejä.")] 403)
    else
      match generate request with
      | Ok response => ret response
      | Raise e => ret (JsonResponse [("error", PyStr (exn_str e))] 500)
      end.

Definition generate_game_ajax_view `{Runtime} : View :=
  require_POST (login_required None generate_game).

(** ** Vocabulary of the statements *)

(** The dict has the key. *)
Definition has_key (k : string) (d : list (string * pyval)) : Prop :=
  In k (map fst d).

(** The status an assignment has in the database. *)
Definition status_of (db : DB) (assignment_id : Z) : option Status :=
  a_status <$> assignments db !! assignment_id.

(** A field of the JSON object a view answered with. *)
Definition response_field (k : string) (r : result HttpResponse) : option pyval :=
  match r with
  | Ok (JsonResponse data _) => Py.dict_lookup k data
  | _ => None
  end.

(** The three shapes of a game payload (section 3 of the specification):
    a JSON object with the key [levels], [word] or [words], or [pairs]. *)
Definition recognized_shape (payload : pyval) : bool :=
  match payload with
  | PyDict d =>
      Py.dict_contains "levels" d || Py.dict_contains "word" d
      || Py.dict_contains "words" d || Py.dict_contains "pairs" d
  | _ => false
  end.

(** The generation endpoint answered with a success. *)
Definition is_success (r : result HttpResponse) : bool :=
  match r with
  | Ok (JsonResponse data 200) =>
      match Py.dict_lookup "success" data with
      | Some (PyBool true) => true
      | _ => false
      end
  | _ => false
  end.

(** ** A runtime and a database to run the views on *)

Module Sample.

(** The double quote. *)
Definition dq : string := String (ascii_of_nat 34) EmptyString.

(** The text of the JSON object with the one field [score]. *)
Definition score_body (digits : string) : string :=
  "{" ++ dq ++ "score" ++ dq ++ ": " ++ digits ++ "}".

(** The body of a generation request for a memory game about birds. *)
Definition memory_body : string :=
  "{" ++ dq ++ "topic" ++ dq ++ ": " ++ dq ++ "linnut" ++ dq ++ ", "
      ++ dq ++ "game_type" ++ dq ++ ": " ++ dq ++ "memory" ++ dq ++ "}".

(** [json.loads] on the texts used below; any other text does not decode. *)
Definition loads (text : string) : result pyval :=
  if text =? score_body "85" then Ok (PyDict [("score", PyInt 85)])
  else if text =? score_body "80" then Ok (PyDict [("score", PyInt 80)])
  else if text =? score_body "79" then Ok (PyDict [("score", PyInt 79)])
  else if text =? score_body "70" then Ok (PyDict [("score", PyInt 70)])
  else if text =? memory_body then
    Ok (PyDict [("topic", PyStr "linnut"); ("game_type", PyStr "memory")])
  else if text =? "{}" then Ok (PyDict [])
  else if text =? "[]" then Ok (PyList [])
  else Raise (JSONDecodeError "Expecting value: line 1 column 1 (char 0)").

(** A numeric column: integers and booleans as numbers, [None] as NULL. *)
Definition prep_value (v : pyval) : result (option Z) :=
  match v with
  | PyNone => Ok None
  | PyInt z => Ok (Some z)
  | PyBool b => Ok (Some (if b then 1 else 0)%Z)
  | _ => Raise (TypeError "Field 'score' expected a number")
  end.

Definition upper (c : ascii) : ascii :=
  let n := nat_of_ascii c in
  if ((97 <=? n) && (n <=? 122))%nat then ascii_of_nat (n - 32) else c.

Definition lower (c : ascii) : ascii :=
  let n := nat_of_ascii c in
  if ((65 <=? n) && (n <=? 90))%nat then ascii_of_nat (n + 32) else c.

Fixpoint map_string (f : ascii -> ascii) (s : string) : string :=
  match s with
  | EmptyString => EmptyString
  | String c r => String (f c) (map_string f r)
  end.

(** [str.capitalize] on ASCII letters. *)
Definition ascii_capitalize (s : string) : string :=
  match s with
  | EmptyString => EmptyString
  | String c r => String (upper c) (map_string lower r)
  end.

(** A model that answers every prompt with an empty JSON object. *)
#[export] Instance runtime : Runtime := {|
  json_loads := loads;
  timezone_now := fun n => (1700000000 + Z.of_nat n)%Z;
  isoformat := fun _ => "2023-11-14T22:13:20+00:00";
  LOGIN_URL := "/accounts/login/";
  capitalize := ascii_capitalize;
  format := fun _ => EmptyString;
  chat_completion := fun _ => Ok (PyStr "{}");
  score_get_prep_value := prep_value;
  score_get_prep_value_int := fun z => eq_refl
|}.

Definition student : User :=
  {| u_id := 7; username := "oppilas"; role := Some "STUDENT" |}.

Definition teacher : User :=
  {| u_id := 1; username := "ope"; role := Some "TEACHER" |}.

Definition post (u : User) (text : string) (form : list (string * string))
  : HttpRequest :=
  {| method := "POST"; user := Some u; body := text; POST := form |}.

Definition material (keys : list string) : Material :=
  {| structured_content := Some (map (fun k => (k, PyList [])) keys) |}.

Definition assignment (st : Status) (keys : list string) : Assignment :=
  {| a_student := 7; a_status := st; a_draft_response := EmptyString;
     a_material := Some (material keys) |}.

Definition submission (assignment_id : Z) (score : option Z) : Submission :=
  {| s_assignment := assignment_id; s_student := 7; s_status := "SUBMITTED";
     s_submitted_at := 1600000000; s_graded_at := 1600000000;
     s_score := score; s_feedback := "Peli suoritettu." |}.

(** Assignment 1 is a quiz, 2 a hangman game, 3 a memory game, 4 has a
    content of unknown shape, 5 has the keys of a quiz and of a memory
    game; assignments 11, 12 and 13 are graded games with submissions. *)
Definition db : DB :=
  {| assignments :=
       list_to_map
         [ (1, assignment ASSIGNED ["difficulty"; "levels"]);
           (2, assignment IN_PROGRESS ["topic"; "words"]);
           (3, assignment ASSIGNED ["pairs"]);
           (4, assignment ASSIGNED ["cards"]);
           (5, assignment ASSIGNED ["pairs"; "levels"]);
           (11, assignment GRADED ["levels"]);
           (12, assignment GRADED ["levels"]);
           (13, assignment GRADED ["pairs"]);
           (14, assignment SUBMITTED ["levels"]) ]%Z;
     submissions :=
       [ submission 11 (Some 90%Z);
         submission 12 (Some 40%Z);
         submission 13 (Some 55%Z);
         submission 12 (Some 60%Z) ] |}.

End Sample.

(** ** Vocabulary of the further properties *)

(** What one request can write in the table of submissions. *)
Inductive SubmissionWrite : Type :=
| NoWrite
| UpdateScore (i : nat) (c : option Z)
| CreateRow (row : Submission).

Definition apply_write (w : SubmissionWrite) (l : list Submission) : list Submission :=
  match w with
  | NoWrite => l
  | UpdateScore i c => alter (set_score c) i l
  | CreateRow row => l ++ [row]
  end.

(** A database after the assignment was graded or not, and one write. *)
Definition apply_effect (assignment_id : Z) (grade : bool) (w : SubmissionWrite)
    (db : DB) : DB :=
  {| assignments :=
       if grade then alter (set_status GRADED) assignment_id (assignments db)
       else assignments db;
     submissions := apply_write w (submissions db) |}.

(** The place of a status in the life of an assignment. *)
Definition status_rank (st : Status) : nat :=
  match st with
  | ASSIGNED => 0
  | IN_PROGRESS => 1
  | SUBMITTED => 2
  | GRADED => 3
  end.

(** A call of one of the three endpoints. *)
Inductive Call : Type :=
| CompleteGame (assignment_id : Z) (request : HttpRequest)
| Autosave (assignment_id : Z) (request : HttpRequest)
| GenerateGame (request : HttpRequest).

Definition call `{Runtime} (c : Call) : M HttpResponse :=
  match c with
  | CompleteGame assignment_id request => complete_game_ajax_view assignment_id request
  | Autosave assignment_id request => assignment_autosave_view assignment_id request
  | GenerateGame request => generate_game_ajax_view request
  end.

(** The database after a sequence of calls, served one after the other. *)
Fixpoint serve `{Runtime} (calls : list Call) (db : DB) : DB :=
  match calls with
  | [] => db
  | c :: rest => serve rest (snd (call c db))
  end.

(** The whitespace characters of Python, by code point: those for which
    [str.isspace] holds. *)
Definition unicode_whitespace : list N :=
  [ 9; 10; 11; 12; 13; 28; 29; 30; 31; 32; 133; 160; 5760;
    8192; 8193; 8194; 8195; 8196; 8197; 8198; 8199; 8200; 8201; 8202;
    8232; 8233; 8239; 8287; 12288 ]%N.

(** The UTF-8 encoding of a code point. *)
Definition utf8 (cp : N) : string :=
  if (cp <? 128)%N then
    String (ascii_of_N cp) EmptyString
  else if (cp <? 2048)%N then
    String (ascii_of_N (192 + cp / 64))
      (String (ascii_of_N (128 + cp mod 64)) EmptyString)
  else if (cp <? 65536)%N then
    String (ascii_of_N (224 + cp / 4096))
      (String (ascii_of_N (128 + (cp / 64) mod 64))
         (String (ascii_of_N (128 + cp mod 64)) EmptyString))
  else
    String (ascii_of_N (240 + cp / 262144))
      (String (ascii_of_N (128 + (cp / 4096) mod 64))
         (String (ascii_of_N (128 + (cp / 64) mod 64))
            (String (ascii_of_N (128 + cp mod 64)) EmptyString))).

(** The string of the characters of these code points. *)
Fixpoint utf8_string (cps : list N) : string :=
  match cps with
  | [] => EmptyString
  | cp :: rest => utf8 cp ++ utf8_string rest
  end.

(** A string of whitespace characters only. *)
Definition whitespace (cps : list N) : Prop :=
  Forall (fun cp => In cp unicode_whitespace) cps.

(** Every character of [s] is whitespace, [skip] bytes of a whitespace
    character being still to pass. *)
Fixpoint all_space_from (skip : nat) (s : string) : bool :=
  match s with
  | EmptyString => (skip =? 0)%nat
  | String c r =>
      match skip with
      | S k => all_space_from k r
      | O =>
          match Py.space_width s with
          | S k => all_space_from k r
          | O => false
          end
      end
  end.

(** Every character is whitespace for [str.strip]. *)
Definition all_space (s : string) : bool := all_space_from 0 s.

(** [s] starts with a whitespace character. *)
Definition starts_with_space (s : string) : bool :=
  negb (Py.space_width s =? 0)%nat.

(** [s] ends with a whitespace character. *)
Fixpoint ends_with_space (s : string) : bool :=
  match s with
  | EmptyString => false
  | String c r => Py.isspace s || ends_with_space r
  end.

(** The writes a completion request makes: it creates a row of the
    assignment, or sets the score of the assignment's latest row. *)
Definition write_of (assignment_id : Z) (db : DB) (w : SubmissionWrite) : Prop :=
  match w with
  | NoWrite => True
  | UpdateScore i _ =>
      exists sub, last_from 0 assignment_id (submissions db) = Some (i, sub)
  | CreateRow row => s_assignment row = assignment_id
  end.

(** ** assignment_tts_view and generate_image_view *)

(** The collaborators of the two media views: [ai_service], [uuid] and
    the default file storage are not among the sources. *)
Class Media : Type := {
  (** [generate_speech(text)]: the audio, [None], or an exception *)
  generate_speech : string -> result (option string);
  (** [generate_image_bytes(prompt=prompt, size="1024x1024")] *)
  generate_image_bytes : string -> result (option string);
  (** [uuid.uuid4().hex] for the request *)
  uuid4_hex : string;
  (** [bytes.decode("utf-8")] *)
  decode_utf8 : string -> result string;
  (** the name [default_storage.save] gives a file of this name, by the
      names that are taken *)
  get_available_name : string -> list string -> string;
  (** [default_storage.url] *)
  storage_url : string -> string
}.

(** The answers of the media views, beside those of [HttpResponse]. *)
Inductive MediaResponse : Type :=
| Plain (response : HttpResponse)
| HttpResponseForbidden (content : string)
| HttpResponseOf (content : string) (content_type : string).

Definition MediaView : Type := HttpRequest -> M MediaResponse.

(** [@require_POST] on a media view *)
Definition require_POST_media (view : MediaView) : MediaView :=
  fun request =>
    if method request =? "POST" then view request
    else ret (Plain (HttpResponseNotAllowed ["POST"])).

(** [@login_required(login_url=...)] on a media view *)
Definition login_required_media (login_url : string) (view : MediaView) : MediaView :=
  fun request =>
    match user request with
    | Some _ => view request
    | None => ret (Plain (HttpResponseRedirect login_url))
    end.

(** The characters of [s] up to its first [stop]: how many they are, [stop]
    included, and what follows; [None] when [s] has no [stop]. *)
Fixpoint up_to (stop : ascii) (s : string) : option (nat * string) :=
  match s with
  | EmptyString => None
  | String c r =>
      if Ascii.eqb c stop then Some (1%nat, r)
      else match up_to stop r with
           | Some (n, rest) => Some (S n, rest)
           | None => None
           end
  end.

(** The length in bytes of the whitespace [s] starts with, what [\s*]
    matches. *)
Definition leading_space (s : string) : nat :=
  String.length s - String.length (Py.lstrip s).

(** The length of the match of [r'!\[[^\]]*\]\([^\)]*\)\s*'] at the start
    of [s], [None] when it does not match there.  Each part of the pattern
    can match in one way only, so there is nothing to backtrack. *)
Definition image_length (s : string) : option nat :=
  match s with
  | String "!" (String "[" r) =>
      match up_to "]" r with
      | Some (n1, String "(" r2) =>
          match up_to ")" r2 with
          | Some (n2, r3) => Some (2 + n1 + 1 + n2 + leading_space r3)%nat
          | None => None
          end
      | _ => None
      end
  | _ => None
  end.

(** [re.sub(pattern, '', s)] from left to right, [skip] characters of a
    match being still to drop. *)
Fixpoint remove_images_from (skip : nat) (s : string) : string :=
  match s with
  | EmptyString => EmptyString
  | String c r =>
      match skip with
      | S k => remove_images_from k r
      | O =>
          match image_length s with
          | Some (S n) => remove_images_from n r
          | _ => String c (remove_images_from 0 r)
          end
      end
  end.

(** [re.sub(r'!\[[^\]]*\]\([^\)]*\)\s*', '', raw_text)] *)
Definition remove_images (raw_text : string) : string :=
  remove_images_from 0 raw_text.

(** The body of [assignment_tts_view], below its decorators.
    Modelled from the spec: a Material has a [content]; [contents] gives the
    content of the material of an assignment, [None] for a NULL. *)
Definition assignment_tts `{Media} (contents : Z -> option string)
    (assignment_id : Z) : MediaView :=
  fun request =>
    do assignment <- get_object_or_404 (fun _ => true) assignment_id;
    (* assignment.student != request.user *)
    if negb (match user request with
             | Some u => (a_student assignment =? u_id u)%Z
             | None => false
             end)
    then ret (HttpResponseForbidden "Sinulla ei ole oikeuksia tähän.")
    else
      match a_material assignment with
      | None => raise (AttributeError "'NoneType' object has no attribute 'content'")
      | Some _ =>
          let raw_text := default EmptyString (contents assignment_id) in
          if raw_text =? EmptyString then
            ret (Plain (JsonResponse [("Virhe", PyStr "Ei sisältöä luettavaksi.")] 400))
          else
            let clean_text := remove_images raw_text in
            if Py.strip clean_text =? EmptyString then
              ret (Plain (JsonResponse
                            [("Virhe",
                              PyStr "Ei luettavaa tekstiä löytynyt siivouksen jälkeen.")]
                            400))
            else
              do audio_bytes <- lift (generate_speech clean_text);
              match audio_bytes with
              | Some (String c r) => ret (HttpResponseOf (String c r) "audio/mpeg")
              | _ =>
                  ret (Plain (JsonResponse
                                [("Virhe", PyStr "Äänitiedoston luonti epäonnistui.")]
                                500))
              end
      end.

Definition assignment_tts_view `{Media} (contents : Z -> option string)
    (assignment_id : Z) : MediaView :=
  login_required_media "kirjaudu"
    (require_POST_media (assignment_tts contents assignment_id)).

(** A request with the media type of its body, [request.content_type]. *)
Record TypedRequest : Type := {
  http : HttpRequest;
  content_type : string
}.

(** The files of the default storage, by name, in the order saved. *)
Definition Storage : Type := list (string * string).

(** [default_storage.save(name, content)]: the name the file got, and the
    storage with the file. *)
Definition storage_save `{Media} (name content : string) (storage : Storage)
  : string * Storage :=
  let saved_path := get_available_name name (map fst storage) in
  (saved_path, (storage ++ [(saved_path, content)])%list).

(** [needle in text] for two strings *)
Definition contains (needle text : string) : bool :=
  match String.index 0 needle text with
  | Some _ => true
  | None => false
  end.

(** The payload of [generate_image_view]: a decoded JSON value, or the
    form fields. *)
Inductive Payload : Type :=
| JsonPayload (v : pyval)
| FormPayload (q : list (string * string)).

(** The [if]/[else] that reads the payload. *)
Definition read_payload `{Runtime} `{Media} (request : TypedRequest) : result Payload :=
  if negb (content_type request =? EmptyString)
     && contains "application/json" (content_type request)
  then
    (* (request.body or b"").decode("utf-8") or "{}" *)
    check text <- (if body (http request) =? EmptyString then Ok EmptyString
                   else decode_utf8 (body (http request)));
    match json_loads (if text =? EmptyString then "{}" else text) with
    | Ok v => Ok (JsonPayload v)
    | Raise (JSONDecodeError _) => Ok (JsonPayload (PyDict []))
    | Raise e => Raise e
    end
  else Ok (FormPayload (POST (http request))).

(** [payload.get("prompt")] *)
Definition payload_get_prompt (payload : Payload) : result pyval :=
  match payload with
  | JsonPayload v => Py.get v "prompt" PyNone
  | FormPayload q =>
      Ok (match querydict_get "prompt" q with
          | Some s => PyStr s
          | None => PyNone
          end)
  end.

(** [(v or "").strip()]: only a string has the method. *)
Definition or_empty_strip (v : pyval) : result string :=
  if Py.truthy v then
    match v with
    | PyStr s => Ok (Py.strip s)
    | _ => Raise (AttributeError ("'" ++ Py.type_name v
                                    ++ "' object has no attribute 'strip'"))
    end
  else Ok EmptyString.

(** The body of [generate_image_view], below its decorator.  An error of
    the storage is not represented. *)
Definition generate_image `{Runtime} `{Media} (request : TypedRequest)
    (storage : Storage) : result HttpResponse * Storage :=
  match (check payload <- read_payload request;
         check v <- payload_get_prompt payload;
         or_empty_strip v) with
  | Raise e => (Raise e, storage)
  | Ok prompt =>
      if prompt =? EmptyString then
        (Ok (JsonResponse [("error", PyStr "Tyhjä prompt")] 400), storage)
      else
        match generate_image_bytes prompt with
        | Raise e => (Ok (JsonResponse [("error", PyStr (exn_str e))] 502), storage)
        | Ok (Some (String c r)) =>
            let image_bytes := String c r in
            let filename := uuid4_hex ++ ".png" in
            let file_path := "ai_images/" ++ filename in
            let '(saved_path, storage') := storage_save file_path image_bytes storage in
            (Ok (JsonResponse [("image_url", PyStr (storage_url saved_path))] 201),
             storage')
        | Ok _ =>
            (Ok (JsonResponse
                   [("error", PyStr "Generointi palautti tyhjän tuloksen.")] 502),
             storage)
        end
  end.

Definition generate_image_view `{Runtime} `{Media} (request : TypedRequest)
    (storage : Storage) : result HttpResponse * Storage :=
  if method (http request) =? "POST" then generate_image request storage
  else (Ok (HttpResponseNotAllowed ["POST"]), storage).

(** One Markdown image, as the pattern of the speech view sees it: an
    alternative text without a closing bracket, an address without a
    closing parenthesis, and the whitespace after it. *)
Record Image : Type := {
  alt : string;
  address : string;
  space_after : string
}.

Definition image_text (i : Image) : string :=
  "![" ++ alt i ++ "](" ++ address i ++ ")" ++ space_after i.

Fixpoint has_char (c : ascii) (s : string) : bool :=
  match s with
  | EmptyString => false
  | String c' r => Ascii.eqb c' c || has_char c r
  end.

Definition well_formed (i : Image) : bool :=
  negb (has_char "]" (alt i)) && negb (has_char ")" (address i))
  && all_space (space_after i).

Fixpoint concat_strings (l : list string) : string :=
  match l with
  | [] => EmptyString
  | s :: r => s ++ concat_strings r
  end.

Module SampleMedia.

(** A speech service that answers with a fixed audio, an image service with
    a fixed image, a storage where no name is taken twice. *)
#[export] Instance media : Media := {|
  generate_speech := fun _ => Ok (Some "ID3-audio");
  generate_image_bytes := fun _ => Ok (Some "PNG-image");
  uuid4_hex := "3f2b8c1e9d4a4c6f8e7a1b2c3d4e5f60";
  decode_utf8 := fun b => Ok b;
  get_available_name := fun name _ => name;
  storage_url := fun name => "https://cdn.example/" ++ name
|}.

(** The content of the material of assignment 2, and of assignment 3, which
    is made of images only. *)
Definition contents (assignment_id : Z) : option string :=
  if (assignment_id =? 2)%Z then Some "Lue teksti. ![kuva](a.png) Vastaa sitten."
  else if (assignment_id =? 3)%Z then Some "![yksi](a.png)  ![kaksi](b.png)"
  else None.

Definition json_request (text : string) : TypedRequest :=
  {| http := {| method := "POST"; user := None; body := text; POST := [] |};
     content_type := "application/json" |}.

Definition form_request (form : list (string * string)) : TypedRequest :=
  {| http := {| method := "POST"; user := None; body := EmptyString; POST := form |};
     content_type := "application/x-www-form-urlencoded" |}.

End SampleMedia.

(** A text with images: the text before the first image, then each image
    with the text that follows it. *)
Definition with_images (before : string) (parts : list (Image * string)) : string :=
  before ++ concat_strings (map (fun p => image_text (fst p) ++ snd p) parts).

(** A text with images as the author meant it: the texts have no
    exclamation mark, each image is well formed and is followed by all the
    whitespace there is (the text after it does not start with more). *)
Definition plain (t : string) : bool := negb (has_char "!" t).

Definition well_separated (parts : list (Image * string)) : bool :=
  forallb (fun p => well_formed (fst p) && plain (snd p)
                    && negb (starts_with_space (snd p))) parts.

Module SampleMore.

(** The body of a completion request whose score is a string. *)
Definition string_score_body : string :=
  Sample.score_body (Sample.dq ++ "paljon" ++ Sample.dq).

(** The body of a generation request for a game type that does not exist. *)
Definition bingo_body : string :=
  "{" ++ Sample.dq ++ "topic" ++ Sample.dq ++ ": " ++ Sample.dq ++ "linnut"
      ++ Sample.dq ++ ", " ++ Sample.dq ++ "game_type" ++ Sample.dq ++ ": "
      ++ Sample.dq ++ "bingo" ++ Sample.dq ++ "}".

(** The body of a generation request for a memory game with a list as
    difficulty. *)
Definition hard_memory_body : string :=
  "{" ++ Sample.dq ++ "topic" ++ Sample.dq ++ ": " ++ Sample.dq ++ "linnut"
      ++ Sample.dq ++ ", " ++ Sample.dq ++ "game_type" ++ Sample.dq ++ ": "
      ++ Sample.dq ++ "memory" ++ Sample.dq ++ ", " ++ Sample.dq ++ "difficulty"
      ++ Sample.dq ++ ": []}".

Definition loads (text : string) : result pyval :=
  if text =? string_score_body then Ok (PyDict [("score", PyStr "paljon")])
  else if text =? bingo_body then
    Ok (PyDict [("topic", PyStr "linnut"); ("game_type", PyStr "bingo")])
  else if text =? hard_memory_body then
    Ok (PyDict [("topic", PyStr "linnut"); ("game_type", PyStr "memory");
                ("difficulty", PyList [])])
  else Sample.loads text.

(** A runtime whose model answers the prompts of the games with an empty
    object and fails on the prompt of the metadata. *)
#[export] Instance runtime : Runtime := {|
  json_loads := loads;
  timezone_now := fun n => (1700000000 + Z.of_nat n)%Z;
  isoformat := fun _ => "2023-11-14T22:13:20+00:00";
  LOGIN_URL := "/accounts/login/";
  capitalize := Sample.ascii_capitalize;
  format := fun _ => EmptyString;
  chat_completion := fun prompt =>
    match prompt with
    | MetadataPrompt _ _ => Raise (OtherError "Request timed out.")
    | _ => Ok (PyStr "{}")
    end;
  score_get_prep_value := Sample.prep_value;
  score_get_prep_value_int := fun z => eq_refl
|}.

(** Assignment 20 has no material. *)
Definition bare_assignment : Assignment :=
  {| a_student := 7; a_status := ASSIGNED; a_draft_response := EmptyString;
     a_material := None |}.

Definition db : DB :=
  with_assignments (<[20%Z := bare_assignment]> (assignments Sample.db)) Sample.db.

Definition two_calls (assignment_id : Z) : list Call :=
  [ Autosave assignment_id (Sample.post Sample.student EmptyString [("response", "luonnos")]);
    CompleteGame assignment_id (Sample.post Sample.student (Sample.score_body "85") []) ].

(** NO-BREAK SPACE, U+00A0. *)
Definition nbsp : string := utf8 160.

Definition first_image : Image :=
  {| alt := "yksi"; address := "a.png"; space_after := "  " |}.

Definition second_image : Image :=
  {| alt := "kaksi"; address := "b.png"; space_after := EmptyString |}.

(** An image followed by a NO-BREAK SPACE and a line break. *)
Definition third_image : Image :=
  {| alt := "kolme"; address := "c.png";
     space_after := nbsp ++ String (ascii_of_nat 10) EmptyString |}.

(** A response between a NO-BREAK SPACE and an IDEOGRAPHIC SPACE. *)
Definition padded_response : string :=
  nbsp ++ " uusi vastaus" ++ utf8 12288 ++ " ".

End SampleMore.

(** * Properties *)

(** ** Helpers *)

Ltac unfold_monad :=
  unfold bind, ret, raise, lift, get_db, modify_db, and_then in *.

Ltac by_computation := vm_compute; first [reflexivity | discriminate | lia].

Lemma decorators_pass `{Runtime} (login_url : option string) (view : View)
    (request : HttpRequest) (u : User) :
  method request = "POST" ->
  user request = Some u ->
  require_POST (login_required login_url view) request = view request
  /\ login_required login_url (require_POST view) request = view request.
Proof.
  intros Hm Hu. unfold require_POST, login_required.
  rewrite Hm, Hu. simpl. split; reflexivity.
Qed.

Example sample_first_attempt :
  @complete_game_ajax_view Sample.runtime 1
    (Sample.post Sample.student (Sample.score_body "85") []) Sample.db
  = (Ok (JsonResponse200 [("status", PyStr "success"); ("score", PyInt 85);
                          ("completed", PyBool true)]),
     with_submissions (submissions Sample.db ++
        [ {| s_assignment := 1; s_student := 7; s_status := "SUBMITTED";
             s_submitted_at := 1700000000; s_graded_at := 1700000001;
             s_score := Some 85%Z; s_feedback := "Peli suoritettu." |} ])
       (with_assignments (<[1%Z := Sample.assignment GRADED ["difficulty"; "levels"]]>
                            (assignments Sample.db)) Sample.db)).
Proof. vm_compute. reflexivity. Qed.

Lemma alter_found (f : Assignment -> Assignment) (t : gmap Z Assignment)
    (k : Z) (a : Assignment) :
  t !! k = Some a -> alter f k t = <[k := f a]> t.
Proof.
  intros Ha. apply map_eq. intros j.
  destruct (decide (k = j)) as [->|Hne].
  - rewrite lookup_alter_eq, lookup_insert_eq, Ha. reflexivity.
  - rewrite lookup_alter_ne, lookup_insert_ne by assumption. reflexivity.
Qed.

Lemma set_status_same (a : Assignment) : set_status (a_status a) a = a.
Proof. destruct a; reflexivity. Qed.

Lemma Status_eqb_eq (a b : Status) : Status_eqb a b = true <-> a = b.
Proof. destruct a, b; simpl; split; intros E; congruence. Qed.

Lemma Status_eqb_neq (a b : Status) : Status_eqb a b = false <-> a <> b.
Proof. destruct a, b; simpl; split; intros E; congruence. Qed.

(** What the first attempt does with an integer score. *)
Lemma first_attempt_int `{Runtime} (assignment_id : Z) (a : Assignment) (u : User)
    (g : GameType) (score : Z) (db : DB) :
  assignments db !! assignment_id = Some a ->
  let completed := match g with quiz => (80 <=? score)%Z | _ => true end in
  first_attempt assignment_id a u g (PyInt score) db
  = (Ok (JsonResponse200 [("status", PyStr "success"); ("score", PyInt score);
                          ("completed", PyBool completed)]),
     {| assignments :=
          if completed then <[assignment_id := set_status GRADED a]> (assignments db)
          else assignments db;
        submissions :=
          submissions db ++
            [ {| s_assignment := assignment_id; s_student := u_id u;
                 s_status := "SUBMITTED";
                 s_submitted_at := timezone_now 0; s_graded_at := timezone_now 1;
                 s_score := Some score; s_feedback := "Peli suoritettu." |} ] |}).
Proof.
  intros Ha completed. subst completed.
  unfold first_attempt, Submission_create, save_status. unfold_monad.
  rewrite score_get_prep_value_int.
  destruct g; simpl.
  - destruct (80 <=? score)%Z; simpl.
    + rewrite (alter_found _ _ _ _ Ha). reflexivity.
    + destruct db; reflexivity.
  - rewrite (alter_found _ _ _ _ Ha). reflexivity.
  - rewrite (alter_found _ _ _ _ Ha). reflexivity.
Qed.

(** The completion view up to the point where the score is read. *)
Lemma complete_game_reaches_score `{Runtime} (request : HttpRequest) (assignment_id : Z)
    (db : DB) (u : User) (a : Assignment) (m : Material) (g : GameType)
    (d : list (string * pyval)) :
  method request = "POST" ->
  user request = Some u ->
  assignments db !! assignment_id = Some a ->
  a_student a = u_id u ->
  a_material a = Some m ->
  game_type_of (default [] (structured_content m)) = Some g ->
  json_loads (body request) = Ok (PyDict d) ->
  complete_game_ajax_view assignment_id request db
  = let score := Py.dict_get "score" d (PyInt 0) in
    if Status_eqb (a_status a) GRADED
    then already_graded assignment_id a u g score db
    else first_attempt assignment_id a u g score db.
Proof.
  intros Hm Hu Ha Hs Hmat Hg Hj.
  unfold complete_game_ajax_view.
  destruct (decorators_pass None (complete_game assignment_id) request u Hm Hu) as [-> _].
  unfold complete_game, get_object_or_404. rewrite Hu. unfold_monad.
  rewrite Ha, Hs, Z.eqb_refl, Hmat, Hg, Hj. simpl.
  destruct (Status_eqb (a_status a) GRADED); reflexivity.
Qed.

(** ** The completion endpoint *)

(** C1. On a first attempt (the assignment is not GRADED) with a submitted
    integer score, the endpoint answers success and creates one Submission
    that records the score.  For a quiz the answer has completed = true and
    the assignment becomes GRADED exactly when the score is at least 80,
    otherwise completed = false and the status is left as it was; for any
    other game the assignment becomes GRADED and completed = true whatever
    the score. *)
Theorem first_attempt_grades_by_threshold `{Runtime} (request : HttpRequest)
    (assignment_id : Z) (db : DB) (u : User) (a : Assignment) (m : Material)
    (g : GameType) (d : list (string * pyval)) (score : Z) :
  method request = "POST" ->
  user request = Some u ->
  assignments db !! assignment_id = Some a ->
  a_student a = u_id u ->
  a_status a <> GRADED ->
  a_material a = Some m ->
  game_type_of (default [] (structured_content m)) = Some g ->
  json_loads (body request) = Ok (PyDict d) ->
  Py.dict_lookup "score" d = Some (PyInt score) ->
  exists (completed : bool) (sub : Submission) (db' : DB),
    complete_game_ajax_view assignment_id request db
    = (Ok (JsonResponse200 [("status", PyStr "success"); ("score", PyInt score);
                            ("completed", PyBool completed)]), db')
    /\ submissions db' = (submissions db ++ [sub])%list
    /\ s_assignment sub = assignment_id
    /\ s_score sub = Some score
    /\ (completed = true <-> (g = quiz -> (80 <= score)%Z))
    /\ status_of db' assignment_id = Some (if completed then GRADED else a_status a)
    /\ (forall k : Z, k <> assignment_id -> assignments db' !! k = assignments db !! k).
Proof.
  intros Hm Hu Ha Hs Hst Hmat Hg Hj Hsc.
  rewrite (complete_game_reaches_score request assignment_id db u a m g d) by assumption.
  unfold Py.dict_get. rewrite Hsc. cbv zeta.
  apply Status_eqb_neq in Hst. rewrite Hst.
  rewrite (first_attempt_int assignment_id a u g score db Ha). cbv zeta.
  eexists _, _, _. split; [reflexivity|]. simpl.
  split; [reflexivity|]. split; [reflexivity|]. split; [reflexivity|].
  split; [|split].
  - destruct g; simpl.
    + rewrite Z.leb_le. tauto.
    + split; [discriminate | reflexivity].
    + split; [discriminate | reflexivity].
  - unfold status_of.
    destruct (match g with quiz => (80 <=? score)%Z | _ => true end); simpl.
    + rewrite lookup_insert_eq. reflexivity.
    + rewrite Ha. reflexivity.
  - intros k Hk.
    destruct (match g with quiz => (80 <=? score)%Z | _ => true end); simpl.
    + rewrite lookup_insert_ne by congruence. reflexivity.
    + reflexivity.
Qed.

(** [last_from] finds nothing exactly when the assignment has no submission. *)
Lemma last_from_None (k : nat) (assignment_id : Z) (l : list Submission) :
  last_from k assignment_id l = None
  <-> forall sub, In sub l -> s_assignment sub <> assignment_id.
Proof.
  revert k. induction l as [|s r IH]; intros k; simpl.
  - split; [intros _ sub [] | reflexivity].
  - destruct (last_from (S k) assignment_id r) as [found|] eqn:E.
    + split; [discriminate|]. intros Hall.
      assert (last_from (S k) assignment_id r = None) as E'
        by (apply IH; intros sub Hin; apply Hall; right; exact Hin).
      congruence.
    + destruct (Z.eqb_spec (s_assignment s) assignment_id) as [Heq|Hne].
      * split; [discriminate|]. intros Hall. exfalso. apply (Hall s); [left|]; auto.
      * split; [|reflexivity]. intros _ sub [<-|Hin]; [exact Hne|].
        apply (proj1 (IH (S k)) E). exact Hin.
Qed.

(** [last_from] finds the submission of the assignment that no later one
    follows: the latest one, with its place in the table. *)
Lemma last_from_Some (k : nat) (assignment_id : Z) (l : list Submission)
    (i : nat) (sub : Submission) :
  last_from k assignment_id l = Some (i, sub)
  <-> exists j : nat,
        i = (k + j)%nat /\ l !! j = Some sub /\ s_assignment sub = assignment_id
        /\ forall (j' : nat) (sub' : Submission),
             (j < j')%nat -> l !! j' = Some sub' -> s_assignment sub' <> assignment_id.
Proof.
  revert k i sub. induction l as [|s r IH]; intros k i sub; simpl.
  - split; [discriminate|]. intros (j & _ & Hl & _). destruct j; discriminate.
  - destruct (last_from (S k) assignment_id r) as [[i0 sub0]|] eqn:E.
    + apply IH in E as (j0 & -> & Hl0 & Ha0 & Hlater0).
      split.
      * intros Hf. injection Hf as <- <-. exists (S j0).
        repeat split; [lia | exact Hl0 | exact Ha0 |].
        intros [|j'] sub' Hlt Hl'; [lia|]. apply (Hlater0 j' sub'); [lia | exact Hl'].
      * intros ([|j] & -> & Hl & Ha & Hlater).
        -- exfalso. apply (Hlater (S j0) sub0); [lia | exact Hl0 | exact Ha0].
        -- simpl in Hl. destruct (lt_eq_lt_dec j j0) as [[Hlt|Heq]|Hgt].
           ++ exfalso. apply (Hlater (S j0) sub0); [lia | exact Hl0 | exact Ha0].
           ++ subst j0. rewrite Hl0 in Hl. injection Hl as ->.
              f_equal. f_equal. lia.
           ++ exfalso. apply (Hlater0 j sub); [lia | exact Hl | exact Ha].
    + pose proof (proj1 (last_from_None (S k) assignment_id r) E) as Hnone.
      assert (forall (j : nat) (sub' : Submission),
                 r !! j = Some sub' -> s_assignment sub' <> assignment_id) as Hr.
      { intros j sub' Hl'. apply Hnone.
        apply list_elem_of_In, list_elem_of_lookup. exists j. exact Hl'. }
      destruct (Z.eqb_spec (s_assignment s) assignment_id) as [Heq|Hne].
      * split.
        -- intros Hf. injection Hf as <- <-. exists 0%nat.
           repeat split; [lia | exact Heq |].
           intros [|j'] sub' Hlt Hl'; [lia|]. apply (Hr j' sub' Hl').
        -- intros ([|j] & -> & Hl & Ha & Hlater); simpl in Hl.
           ++ injection Hl as ->. f_equal. f_equal. lia.
           ++ exfalso. apply (Hr j sub Hl Ha).
      * split; [discriminate|].
        intros ([|j] & -> & Hl & Ha & Hlater); simpl in Hl.
        -- injection Hl as ->. contradiction.
        -- exfalso. apply (Hr j sub Hl Ha).
Qed.

Lemma last_from_lookup (assignment_id : Z) (l : list Submission)
    (i : nat) (sub : Submission) :
  last_from 0 assignment_id l = Some (i, sub) -> l !! i = Some sub.
Proof.
  intros Hf. apply last_from_Some in Hf as (j & -> & Hl & _). exact Hl.
Qed.

Lemma alter_found_list (f : Submission -> Submission) (l : list Submission)
    (i : nat) (sub : Submission) :
  l !! i = Some sub -> alter f i l = <[i := f sub]> l.
Proof.
  intros Hl. apply list_eq. intros j.
  destruct (decide (i = j)) as [->|Hne].
  - rewrite list_lookup_alter_eq, Hl.
    rewrite list_lookup_insert_eq by (eapply lookup_lt_Some; exact Hl). reflexivity.
  - rewrite list_lookup_alter_ne, list_lookup_insert_ne by assumption. reflexivity.
Qed.

Lemma dict_contains_has_key (k : string) (d : list (string * pyval)) :
  Py.dict_contains k d = true <-> has_key k d.
Proof.
  unfold Py.dict_contains, has_key. rewrite existsb_exists, in_map_iff.
  split.
  - intros (kv & Hin & E). apply String.eqb_eq in E. exists kv. split; assumption.
  - intros (kv & E & Hin). exists kv. split; [assumption|]. apply String.eqb_eq. exact E.
Qed.

Lemma dict_contains_no_key (k : string) (d : list (string * pyval)) :
  Py.dict_contains k d = false <-> ~ has_key k d.
Proof.
  rewrite <- dict_contains_has_key. destruct (Py.dict_contains k d); split; congruence.
Qed.

Lemma dict_lookup_no_key (k : string) (d : list (string * pyval)) :
  ~ has_key k d -> Py.dict_lookup k d = None.
Proof.
  unfold has_key. induction d as [|[k' v] r IH]; simpl; intros Hno; [reflexivity|].
  destruct (String.eqb_spec k' k) as [->|Hne].
  - exfalso. apply Hno. left. reflexivity.
  - apply IH. intros Hin. apply Hno. right. exact Hin.
Qed.

Lemma score_or_0_default (sub : Submission) : score_or_0 sub = default 0%Z (s_score sub).
Proof.
  unfold score_or_0. destruct (s_score sub) as [z|]; simpl; [|reflexivity].
  destruct (Z.eqb_spec z 0); congruence.
Qed.

(** C2. Once a quiz assignment is GRADED and its latest submission has a
    score of at least 80, a completion request answers already_completed
    with completed = true and the stored score, whatever the body submits
    as score, and leaves the database as it was: no submission is created
    or updated and no assignment is changed. *)
Theorem graded_quiz_passed_short_circuit `{Runtime} (request : HttpRequest)
    (assignment_id : Z) (db : DB) (u : User) (a : Assignment) (m : Material)
    (d : list (string * pyval)) (i : nat) (sub : Submission) (stored : Z) :
  method request = "POST" ->
  user request = Some u ->
  assignments db !! assignment_id = Some a ->
  a_student a = u_id u ->
  a_status a = GRADED ->
  a_material a = Some m ->
  game_type_of (default [] (structured_content m)) = Some quiz ->
  json_loads (body request) = Ok (PyDict d) ->
  last_from 0 assignment_id (submissions db) = Some (i, sub) ->
  s_score sub = Some stored ->
  (80 <= stored)%Z ->
  complete_game_ajax_view assignment_id request db
  = (Ok (JsonResponse200 [("status", PyStr "already_completed");
                          ("completed", PyBool true);
                          ("score", PyInt stored)]), db).
Proof.
  intros Hm Hu Ha Hs Hst Hmat Hg Hj Hlast Hsc Hge.
  rewrite (complete_game_reaches_score request assignment_id db u a m quiz d) by assumption.
  cbv zeta. rewrite Hst. simpl Status_eqb. cbv iota.
  unfold already_graded, submissions_last. unfold_monad.
  rewrite Hlast. unfold has_passing_score. rewrite Hsc.
  replace (stored =? 0)%Z with false by (symmetry; apply Z.eqb_neq; lia).
  replace (80 <=? stored)%Z with true by (symmetry; apply Z.leb_le; lia).
  reflexivity.
Qed.

(** C3. A completion request with an integer score on a GRADED quiz whose
    latest submission has a score below 80, or no score, or that has no
    submission: the answer is success with completed = true when the new
    score is at least 80 and retry with completed = false when it is below;
    the assignment stays as it is (GRADED).  When a submission exists, its
    score is overwritten in place if the new score exceeds the stored one
    (a missing score counts as 0) and nothing else changes, so the table
    keeps its length; a Submission is created only when there was none. *)
Theorem graded_quiz_retry_improves_in_place `{Runtime} (request : HttpRequest)
    (assignment_id : Z) (db : DB) (u : User) (a : Assignment) (m : Material)
    (d : list (string * pyval)) (existing : option (nat * Submission)) (score : Z) :
  method request = "POST" ->
  user request = Some u ->
  assignments db !! assignment_id = Some a ->
  a_student a = u_id u ->
  a_status a = GRADED ->
  a_material a = Some m ->
  game_type_of (default [] (structured_content m)) = Some quiz ->
  json_loads (body request) = Ok (PyDict d) ->
  Py.dict_lookup "score" d = Some (PyInt score) ->
  last_from 0 assignment_id (submissions db) = existing ->
  (forall i sub stored,
      existing = Some (i, sub) -> s_score sub = Some stored -> (stored < 80)%Z) ->
  exists db' : DB,
    complete_game_ajax_view assignment_id request db
    = (Ok (JsonResponse200
             [("status", PyStr (if (80 <=? score)%Z then "success" else "retry"));
              ("score", PyInt score);
              ("completed", PyBool (80 <=? score)%Z)]), db')
    /\ assignments db' = assignments db
    /\ status_of db' assignment_id = Some GRADED
    /\ match existing with
       | Some (i, sub) =>
           submissions db'
           = (if (default 0 (s_score sub) <? score)%Z
              then <[i := set_score (Some score) sub]> (submissions db)
              else submissions db)
           /\ length (submissions db') = length (submissions db)
       | None =>
           exists new : Submission,
             submissions db' = (submissions db ++ [new])%list
             /\ s_assignment new = assignment_id
             /\ s_score new = Some score
       end.
Proof.
  intros Hm Hu Ha Hs Hst Hmat Hg Hj Hsc Hlast Hlow.
  rewrite (complete_game_reaches_score request assignment_id db u a m quiz d) by assumption.
  unfold Py.dict_get. rewrite Hsc. cbv zeta. rewrite Hst. simpl Status_eqb. cbv iota.
  assert (alter (set_status GRADED) assignment_id (assignments db) = assignments db) as Hsame.
  { rewrite (alter_found _ _ _ _ Ha). apply insert_id.
    rewrite Ha, <- Hst, set_status_same. reflexivity. }
  assert (status_of db assignment_id = Some GRADED) as Hstatus.
  { unfold status_of. rewrite Ha, <- Hst. reflexivity. }
  unfold already_graded, submissions_last, save_score, Submission_create, save_status.
  unfold_monad. rewrite Hlast.
  destruct existing as [[i sub]|].
  - assert (has_passing_score (Some (i, sub)) = false) as ->.
    { unfold has_passing_score. destruct (s_score sub) as [stored|] eqn:E; [|reflexivity].
      specialize (Hlow i sub stored eq_refl E).
      replace (80 <=? stored)%Z with false by (symmetry; apply Z.leb_gt; lia).
      apply andb_false_r. }
    pose proof (last_from_lookup _ _ _ _ Hlast) as Hl.
    rewrite score_or_0_default. unfold Py.int_lt, Py.ge_int, Py.as_int.
    rewrite score_get_prep_value_int.
    destruct (default 0 (s_score sub) <? score)%Z; simpl;
      destruct (80 <=? score)%Z; simpl; rewrite ?Hsame;
      eexists; (split; [reflexivity|]); simpl;
      (split; [reflexivity|]); (split; [exact Hstatus|]);
      rewrite ?(alter_found_list _ _ _ _ Hl), ?length_insert; split; reflexivity.
  - simpl. rewrite score_get_prep_value_int.
    destruct (80 <=? score)%Z; simpl; rewrite ?Hsame;
      eexists; (split; [reflexivity|]); simpl;
      (split; [reflexivity|]); (split; [exact Hstatus|]);
      eexists; (split; [reflexivity|]); split; reflexivity.
Qed.

(** C4. A completion request on a GRADED hangman or memory assignment
    answers already_completed with completed = true and the score of the
    latest submission, 0 when the assignment has no submission, and leaves
    the whole database as it was, whatever score the body submits. *)
Theorem graded_other_game_already_completed `{Runtime} (request : HttpRequest)
    (assignment_id : Z) (db : DB) (u : User) (a : Assignment) (m : Material)
    (g : GameType) (d : list (string * pyval)) :
  method request = "POST" ->
  user request = Some u ->
  assignments db !! assignment_id = Some a ->
  a_student a = u_id u ->
  a_status a = GRADED ->
  a_material a = Some m ->
  game_type_of (default [] (structured_content m)) = Some g ->
  g <> quiz ->
  json_loads (body request) = Ok (PyDict d) ->
  complete_game_ajax_view assignment_id request db
  = (Ok (JsonResponse200
           [("status", PyStr "already_completed");
            ("completed", PyBool true);
            ("score", match last_from 0 assignment_id (submissions db) with
                      | Some (_, sub) => score_value (s_score sub)
                      | None => PyInt 0
                      end)]), db).
Proof.
  intros Hm Hu Ha Hs Hst Hmat Hg Hnq Hj.
  rewrite (complete_game_reaches_score request assignment_id db u a m g d) by assumption.
  cbv zeta. rewrite Hst. simpl Status_eqb. cbv iota.
  unfold already_graded, submissions_last. unfold_monad.
  destruct g; [contradiction | reflexivity | reflexivity].
Qed.

(** C5. When the structured content of the material has none of the keys
    levels, word, words and pairs, the completion endpoint answers 400 with
    the error message of the unknown game type ("Tuntematon pelityyppi") and
    leaves the database as it was; the body of the request is not read. *)
Theorem unknown_content_rejected `{Runtime} (request : HttpRequest)
    (assignment_id : Z) (db : DB) (u : User) (a : Assignment) (m : Material) :
  method request = "POST" ->
  user request = Some u ->
  assignments db !! assignment_id = Some a ->
  a_student a = u_id u ->
  a_material a = Some m ->
  ~ has_key "levels" (default [] (structured_content m)) ->
  ~ has_key "word" (default [] (structured_content m)) ->
  ~ has_key "words" (default [] (structured_content m)) ->
  ~ has_key "pairs" (default [] (structured_content m)) ->
  complete_game_ajax_view assignment_id request db
  = (Ok (JsonResponse [("status", PyStr "error");
                       ("message", PyStr "Tuntematon pelityyppi")] 400), db).
Proof.
  intros Hm Hu Ha Hs Hmat Hl Hw Hws Hp.
  unfold complete_game_ajax_view.
  destruct (decorators_pass None (complete_game assignment_id) request u Hm Hu) as [-> _].
  unfold complete_game, get_object_or_404. rewrite Hu. unfold_monad.
  rewrite Ha, Hs, Z.eqb_refl, Hmat. unfold game_type_of.
  apply dict_contains_no_key in Hl, Hw, Hws, Hp.
  rewrite Hl, Hw, Hws, Hp. reflexivity.
Qed.

(** C10 on the endpoint: a content with the keys of a memory game and of a
    quiz is scored as a quiz, a first attempt below 80 does not grade it. *)
Example sample_levels_and_pairs :
  @complete_game_ajax_view Sample.runtime 5
    (Sample.post Sample.student (Sample.score_body "79") []) Sample.db
  = (Ok (JsonResponse200 [("status", PyStr "success"); ("score", PyInt 79);
                          ("completed", PyBool false)]),
     with_submissions (submissions Sample.db ++
        [ {| s_assignment := 5; s_student := 7; s_status := "SUBMITTED";
             s_submitted_at := 1700000000; s_graded_at := 1700000001;
             s_score := Some 79%Z; s_feedback := "Peli suoritettu." |} ])
       Sample.db).
Proof. vm_compute. reflexivity. Qed.

(** C10. The game type is decided by the keys of the structured content in
    a fixed order: a content with the key levels is a quiz whatever other
    keys it has; without levels, one with word or words is a hangman game;
    without these, one with pairs is a memory game; with none of the four
    keys no game type is found. *)
Theorem dispatch_precedence (game_data : list (string * pyval)) :
  (has_key "levels" game_data -> game_type_of game_data = Some quiz)
  /\ (~ has_key "levels" game_data ->
      has_key "word" game_data \/ has_key "words" game_data ->
      game_type_of game_data = Some hangman)
  /\ (~ has_key "levels" game_data ->
      ~ has_key "word" game_data -> ~ has_key "words" game_data ->
      has_key "pairs" game_data ->
      game_type_of game_data = Some memory)
  /\ (~ has_key "levels" game_data ->
      ~ has_key "word" game_data -> ~ has_key "words" game_data ->
      ~ has_key "pairs" game_data ->
      game_type_of game_data = None).
Proof.
  unfold game_type_of. repeat split.
  - intros Hl. apply dict_contains_has_key in Hl. rewrite Hl. reflexivity.
  - intros Hl Hw. apply dict_contains_no_key in Hl. rewrite Hl.
    destruct Hw as [Hw|Hw]; apply dict_contains_has_key in Hw; rewrite Hw;
      [reflexivity | rewrite orb_true_r; reflexivity].
  - intros Hl Hw Hws Hp.
    apply dict_contains_no_key in Hl, Hw, Hws. apply dict_contains_has_key in Hp.
    rewrite Hl, Hw, Hws, Hp. reflexivity.
  - intros Hl Hw Hws Hp.
    apply dict_contains_no_key in Hl, Hw, Hws, Hp.
    rewrite Hl, Hw, Hws, Hp. reflexivity.
Qed.

(** C9 as amended.  When the body is a JSON object without the key score,
    the endpoint does not answer with an error: it goes on with the score 0.
    On a first attempt it creates a Submission with score 0 and answers
    success; a quiz is not completed and keeps its status, any other game
    is completed and becomes GRADED. *)
Theorem missing_score_counts_as_zero `{Runtime} (request : HttpRequest)
    (assignment_id : Z) (db : DB) (u : User) (a : Assignment) (m : Material)
    (g : GameType) (d : list (string * pyval)) :
  method request = "POST" ->
  user request = Some u ->
  assignments db !! assignment_id = Some a ->
  a_student a = u_id u ->
  a_status a <> GRADED ->
  a_material a = Some m ->
  game_type_of (default [] (structured_content m)) = Some g ->
  json_loads (body request) = Ok (PyDict d) ->
  ~ has_key "score" d ->
  exists (sub : Submission) (db' : DB),
    let completed := match g with quiz => false | _ => true end in
    complete_game_ajax_view assignment_id request db
    = (Ok (JsonResponse200 [("status", PyStr "success"); ("score", PyInt 0);
                            ("completed", PyBool completed)]), db')
    /\ submissions db' = (submissions db ++ [sub])%list
    /\ s_assignment sub = assignment_id
    /\ s_score sub = Some 0%Z
    /\ status_of db' assignment_id = Some (if completed then GRADED else a_status a).
Proof.
  intros Hm Hu Ha Hs Hst Hmat Hg Hj Hno.
  rewrite (complete_game_reaches_score request assignment_id db u a m g d) by assumption.
  unfold Py.dict_get. rewrite (dict_lookup_no_key _ _ Hno). cbv zeta.
  apply Status_eqb_neq in Hst. rewrite Hst.
  rewrite (first_attempt_int assignment_id a u g 0 db Ha). cbv zeta.
  destruct g; eexists _, _; (split; [reflexivity|]); simpl;
    (split; [reflexivity|]); (split; [reflexivity|]); (split; [reflexivity|]);
    unfold status_of; simpl.
  - rewrite Ha. reflexivity.
  - rewrite lookup_insert_eq. reflexivity.
  - rewrite lookup_insert_eq. reflexivity.
Qed.

(** C9 as stated fails: the body [[]] is valid JSON and has no field score,
    and the endpoint does not go on with the score 0.  Reading the score
    raises AttributeError, which the view does not catch, and no Submission
    is created. *)
Lemma missing_score_counterexample :
  ~ (forall (R : Runtime) (request : HttpRequest) (assignment_id : Z) (db : DB)
       (u : User) (a : Assignment) (m : Material) (g : GameType) (data : pyval),
        method request = "POST" ->
        user request = Some u ->
        assignments db !! assignment_id = Some a ->
        a_student a = u_id u ->
        a_status a <> GRADED ->
        a_material a = Some m ->
        game_type_of (default [] (structured_content m)) = Some g ->
        json_loads (body request) = Ok data ->
        (forall d, data = PyDict d -> ~ has_key "score" d) ->
        exists (completed : bool) (sub : Submission) (db' : DB),
          complete_game_ajax_view assignment_id request db
          = (Ok (JsonResponse200 [("status", PyStr "success"); ("score", PyInt 0);
                                  ("completed", PyBool completed)]), db')
          /\ submissions db' = (submissions db ++ [sub])%list
          /\ s_score sub = Some 0%Z).
Proof.
  intros claim.
  destruct (claim Sample.runtime (Sample.post Sample.student "[]" []) 1%Z Sample.db
              Sample.student (Sample.assignment ASSIGNED ["difficulty"; "levels"])
              (Sample.material ["difficulty"; "levels"]) quiz (PyList [])
              eq_refl eq_refl eq_refl eq_refl ltac:(discriminate) eq_refl eq_refl eq_refl
              ltac:(intros d E; discriminate E))
    as (completed & sub & db' & Hview & _).
  vm_compute in Hview. discriminate Hview.
Qed.

(** What the endpoint does with the body [[]]. *)
Example sample_not_an_object :
  @complete_game_ajax_view Sample.runtime 1
    (Sample.post Sample.student "[]" []) Sample.db
  = (Raise (AttributeError "'list' object has no attribute 'get'"), Sample.db).
Proof. vm_compute. reflexivity. Qed.

(** ** The autosave endpoint *)

(** C6. Autosave by the owner on an assignment that is SUBMITTED or GRADED
    answers 400 with ok = false and the error locked, and leaves the
    database, hence the draft and the status of the assignment, as it was. *)
Theorem autosave_locked `{Runtime} (request : HttpRequest) (assignment_id : Z)
    (db : DB) (u : User) (a : Assignment) :
  method request = "POST" ->
  user request = Some u ->
  assignments db !! assignment_id = Some a ->
  a_student a = u_id u ->
  a_status a = SUBMITTED \/ a_status a = GRADED ->
  assignment_autosave_view assignment_id request db
  = (Ok (JsonResponse [("ok", PyBool false); ("error", PyStr "locked")] 400), db).
Proof.
  intros Hm Hu Ha Hs Hst.
  unfold assignment_autosave_view.
  destruct (decorators_pass (Some "kirjaudu") (assignment_autosave assignment_id)
              request u Hm Hu) as [_ ->].
  unfold assignment_autosave, get_object_or_404. unfold_monad.
  rewrite Ha, Hu, Hs, Z.eqb_refl. simpl.
  destruct Hst as [-> | ->]; reflexivity.
Qed.

(** Whatever the request, autosave changes the status of no assignment,
    except from ASSIGNED to IN_PROGRESS for the assignment it is called on. *)
Lemma autosave_status_change `{Runtime} (request : HttpRequest) (assignment_id : Z)
    (db : DB) (k : Z) :
  let db' := snd (assignment_autosave_view assignment_id request db) in
  status_of db' k = status_of db k
  \/ (k = assignment_id
      /\ status_of db k = Some ASSIGNED /\ status_of db' k = Some IN_PROGRESS).
Proof.
  unfold assignment_autosave_view, login_required, require_POST.
  unfold assignment_autosave, get_object_or_404, save_draft_response_status.
  unfold_monad.
  destruct (user request) as [u|]; [|left; reflexivity].
  destruct (method request =? "POST"); [|left; reflexivity].
  destruct (assignments db !! assignment_id) as [a|] eqn:Ha; [|left; reflexivity].
  simpl.
  destruct (a_student a =? u_id u)%Z; [|left; reflexivity]. simpl.
  destruct (Status_eqb (a_status a) SUBMITTED || Status_eqb (a_status a) GRADED);
    [left; reflexivity|]. simpl.
  rewrite (alter_found _ _ _ _ Ha). unfold status_of. simpl.
  destruct (decide (k = assignment_id)) as [->|Hne].
  - rewrite lookup_insert_eq, Ha. simpl.
    destruct (negb (Py.strip _ =? EmptyString)); simpl; [|left; reflexivity].
    destruct (a_status a) eqn:Est; simpl; rewrite ?Est; auto.
  - rewrite lookup_insert_ne by congruence. left. reflexivity.
Qed.

(** What a successful autosave answers and writes. *)
Lemma autosave_run `{Runtime} (request : HttpRequest) (assignment_id : Z)
    (db : DB) (u : User) (a : Assignment) :
  method request = "POST" ->
  user request = Some u ->
  assignments db !! assignment_id = Some a ->
  a_student a = u_id u ->
  a_status a <> SUBMITTED ->
  a_status a <> GRADED ->
  let draft := Py.strip (default EmptyString (querydict_get "response" (POST request))) in
  assignment_autosave_view assignment_id request db
  = (Ok (JsonResponse200 [("ok", PyBool true);
                          ("saved_at", PyStr (isoformat (timezone_now 0)))]),
     with_assignments
       (<[assignment_id :=
            set_status (if negb (draft =? EmptyString) && Status_eqb (a_status a) ASSIGNED
                        then IN_PROGRESS else a_status a)
              (set_draft_response draft a)]> (assignments db)) db).
Proof.
  intros Hm Hu Ha Hs Hns Hng draft.
  unfold assignment_autosave_view.
  destruct (decorators_pass (Some "kirjaudu") (assignment_autosave assignment_id)
              request u Hm Hu) as [_ ->].
  unfold assignment_autosave, get_object_or_404, save_draft_response_status.
  unfold_monad.
  rewrite Ha, Hu, Hs, Z.eqb_refl. simpl.
  apply Status_eqb_neq in Hns, Hng. rewrite Hns, Hng. simpl.
  rewrite (alter_found _ _ _ _ Ha). fold draft.
  destruct (negb (draft =? EmptyString) && Status_eqb (a_status a) ASSIGNED); reflexivity.
Qed.

(** C7. Autosave by the owner on an assignment that is neither SUBMITTED nor
    GRADED answers ok = true with the time of the save, and stores the
    trimmed draft as draft_response.  If the trimmed draft is not empty and
    the status is ASSIGNED the status becomes IN_PROGRESS; otherwise it is
    left as it is, so autosave on an IN_PROGRESS assignment stores the new
    draft and keeps IN_PROGRESS.  Nothing else changes.  And this is the
    only change of a status autosave makes, on any request. *)
Theorem autosave_stores_draft `{Runtime} (request : HttpRequest) (assignment_id : Z)
    (db : DB) (u : User) (a : Assignment) :
  method request = "POST" ->
  user request = Some u ->
  assignments db !! assignment_id = Some a ->
  a_student a = u_id u ->
  a_status a <> SUBMITTED ->
  a_status a <> GRADED ->
  let draft := Py.strip (default EmptyString (querydict_get "response" (POST request))) in
  exists (a' : Assignment) (db' : DB),
    assignment_autosave_view assignment_id request db
    = (Ok (JsonResponse200 [("ok", PyBool true);
                            ("saved_at", PyStr (isoformat (timezone_now 0)))]), db')
    /\ assignments db' = <[assignment_id := a']> (assignments db)
    /\ submissions db' = submissions db
    /\ a_draft_response a' = draft
    /\ a_student a' = a_student a /\ a_material a' = a_material a
    /\ (draft <> EmptyString -> a_status a = ASSIGNED -> a_status a' = IN_PROGRESS)
    /\ (draft = EmptyString \/ a_status a = IN_PROGRESS -> a_status a' = a_status a)
    /\ (forall (request0 : HttpRequest) (id0 : Z) (db0 : DB) (k : Z),
          let db1 := snd (assignment_autosave_view id0 request0 db0) in
          status_of db1 k = status_of db0 k
          \/ (k = id0 /\ status_of db0 k = Some ASSIGNED
              /\ status_of db1 k = Some IN_PROGRESS)).
Proof.
  intros Hm Hu Ha Hs Hns Hng draft.
  rewrite (autosave_run request assignment_id db u a Hm Hu Ha Hs Hns Hng).
  cbv zeta. fold draft.
  eexists _, _. split; [reflexivity|]. simpl.
  split; [reflexivity|]. split; [reflexivity|]. split; [reflexivity|].
  split; [reflexivity|]. split; [reflexivity|].
  split; [|split].
  - intros Hd Hst. apply String.eqb_neq in Hd. rewrite Hd, Hst. reflexivity.
  - intros [Hd | Hst].
    + rewrite Hd. reflexivity.
    + rewrite Hst. rewrite andb_false_r. reflexivity.
  - intros request0 id0 db0 k. apply autosave_status_change.
Qed.

(** ** The generation endpoint *)

Lemma content_needs_known_game_type `{Runtime} (topic game_type difficulty payload : pyval) :
  generate_game_content topic game_type difficulty = Ok payload ->
  exists s : string, game_type = PyStr s.
Proof.
  unfold generate_game_content, and_then.
  destruct game_type; simpl; try discriminate.
  intros _. eexists. reflexivity.
Qed.

(** For a topic and a game type that are strings, [generate_game_metadata]
    always returns: its [except] branch cannot raise. *)
Lemma metadata_returns `{Runtime} (t s : string) :
  exists metadata : pyval, generate_game_metadata (PyStr t) (PyStr s) = Ok metadata.
Proof.
  unfold generate_game_metadata.
  destruct (ask_metadata (PyStr t) (PyStr s)) as [metadata|e].
  - exists metadata. reflexivity.
  - simpl. eexists. reflexivity.
Qed.

(** C8 as amended.  The generation endpoint does not look at the payload.
    For a teacher's request with a topic and a game type, whenever the
    content generator returns a payload, of a recognized shape or not, the
    endpoint answers success = true with that payload as game_data; it
    answers with an error (500 and the text of the exception) only when the
    generator raises: unknown game type, error of the client, content that
    does not decode. *)
Theorem generation_returns_payload_unchecked `{Runtime} (request : HttpRequest)
    (db : DB) (u : User) (d : list (string * pyval)) (t : string) :
  method request = "POST" ->
  user request = Some u ->
  role u = Some "TEACHER" ->
  json_loads (body request) = Ok (PyDict d) ->
  Py.dict_get "topic" d PyNone = PyStr t ->
  t <> EmptyString ->
  Py.truthy (Py.dict_get "game_type" d PyNone) = true ->
  match generate_game_content (PyStr t) (Py.dict_get "game_type" d PyNone)
          (Py.dict_get "difficulty" d (PyStr "medium")) with
  | Ok payload =>
      exists metadata : pyval,
        generate_game_ajax_view request db
        = (Ok (JsonResponse200 [("success", PyBool true);
                                ("game_data", payload);
                                ("metadata", metadata)]), db)
  | Raise e =>
      generate_game_ajax_view request db
      = (Ok (JsonResponse [("error", PyStr (exn_str e))] 500), db)
  end.
Proof.
  intros Hm Hu Hr Hj Ht Hne Hg.
  unfold generate_game_ajax_view.
  destruct (decorators_pass None generate_game request u Hm Hu) as [-> _].
  unfold generate_game, generate. rewrite Hu, Hr, Hj. simpl.
  rewrite Ht, Hg. simpl.
  apply String.eqb_neq in Hne. rewrite Hne. simpl.
  destruct (generate_game_content (PyStr t) (Py.dict_get "game_type" d PyNone)
              (Py.dict_get "difficulty" d (PyStr "medium"))) as [payload|e] eqn:Hc.
  - destruct (content_needs_known_game_type _ _ _ _ Hc) as [s Hs].
    rewrite Hs. destruct (metadata_returns t s) as [metadata Hmd].
    exists metadata. simpl. rewrite Hmd. reflexivity.
  - reflexivity.
Qed.

(** C8 as stated fails: the content generator returns the JSON object [{}],
    which has none of the keys levels, word, words and pairs, and the
    endpoint answers success = true with it as game_data. *)
Lemma unrecognized_payload_counterexample :
  ~ (forall (R : Runtime) (request : HttpRequest) (db : DB) (u : User)
       (d : list (string * pyval)) (payload : pyval),
        method request = "POST" ->
        user request = Some u ->
        role u = Some "TEACHER" ->
        json_loads (body request) = Ok (PyDict d) ->
        generate_game_content (Py.dict_get "topic" d PyNone)
          (Py.dict_get "game_type" d PyNone)
          (Py.dict_get "difficulty" d (PyStr "medium")) = Ok payload ->
        recognized_shape payload = false ->
        is_success (fst (generate_game_ajax_view request db)) = false).
Proof.
  intros claim.
  specialize (claim Sample.runtime (Sample.post Sample.teacher Sample.memory_body [])
                Sample.db Sample.teacher
                [("topic", PyStr "linnut"); ("game_type", PyStr "memory")] (PyDict [])
                eq_refl eq_refl eq_refl eq_refl eq_refl eq_refl).
  vm_compute in claim. discriminate claim.
Qed.

(** What the endpoint answers when the generator returns [{}]. *)
Example sample_unrecognized_payload :
  @generate_game_ajax_view Sample.runtime
    (Sample.post Sample.teacher Sample.memory_body []) Sample.db
  = (Ok (JsonResponse200
           [("success", PyBool true);
            ("game_data", PyDict []);
            ("metadata", PyDict [("title", PyStr "Linnut: memory");
                                 ("subject", PyStr "Ympäristöoppi")])]),
     Sample.db).
Proof. vm_compute. reflexivity. Qed.

(** ** The theorems at concrete requests *)

Lemma first_attempt_grades_by_threshold_witness :
  exists (completed : bool) (sub : Submission) (db' : DB),
    @complete_game_ajax_view Sample.runtime 1
      (Sample.post Sample.student (Sample.score_body "80") []) Sample.db
    = (Ok (JsonResponse200 [("status", PyStr "success"); ("score", PyInt 80);
                            ("completed", PyBool completed)]), db')
    /\ submissions db' = (submissions Sample.db ++ [sub])%list
    /\ s_assignment sub = 1%Z
    /\ s_score sub = Some 80%Z
    /\ (completed = true <-> (quiz = quiz -> (80 <= 80)%Z))
    /\ status_of db' 1 = Some (if completed then GRADED else ASSIGNED)
    /\ (forall k : Z, k <> 1%Z -> assignments db' !! k = assignments Sample.db !! k).
Proof.
  apply (@first_attempt_grades_by_threshold Sample.runtime
           (Sample.post Sample.student (Sample.score_body "80") []) 1 Sample.db
           Sample.student (Sample.assignment ASSIGNED ["difficulty"; "levels"])
           (Sample.material ["difficulty"; "levels"]) quiz [("score", PyInt 80)] 80);
    by_computation.
Defined.

Lemma graded_quiz_passed_short_circuit_witness :
  @complete_game_ajax_view Sample.runtime 11
    (Sample.post Sample.student (Sample.score_body "70") []) Sample.db
  = (Ok (JsonResponse200 [("status", PyStr "already_completed");
                          ("completed", PyBool true);
                          ("score", PyInt 90)]), Sample.db).
Proof.
  apply (@graded_quiz_passed_short_circuit Sample.runtime
           (Sample.post Sample.student (Sample.score_body "70") []) 11 Sample.db
           Sample.student (Sample.assignment GRADED ["levels"])
           (Sample.material ["levels"]) [("score", PyInt 70)]
           0%nat (Sample.submission 11 (Some 90%Z)) 90);
    by_computation.
Defined.

Lemma graded_quiz_retry_improves_in_place_witness :
  exists db' : DB,
    @complete_game_ajax_view Sample.runtime 12
      (Sample.post Sample.student (Sample.score_body "70") []) Sample.db
    = (Ok (JsonResponse200
             [("status", PyStr (if (80 <=? 70)%Z then "success" else "retry"));
              ("score", PyInt 70);
              ("completed", PyBool (80 <=? 70)%Z)]), db')
    /\ assignments db' = assignments Sample.db
    /\ status_of db' 12 = Some GRADED
    /\ (submissions db'
        = (if (default 0 (Some 60) <? 70)%Z
           then <[3%nat := set_score (Some 70%Z) (Sample.submission 12 (Some 60%Z))]>
                  (submissions Sample.db)
           else submissions Sample.db)
        /\ length (submissions db') = length (submissions Sample.db)).
Proof.
  apply (@graded_quiz_retry_improves_in_place Sample.runtime
           (Sample.post Sample.student (Sample.score_body "70") []) 12 Sample.db
           Sample.student (Sample.assignment GRADED ["levels"])
           (Sample.material ["levels"]) [("score", PyInt 70)]
           (Some (3%nat, Sample.submission 12 (Some 60%Z))) 70);
    try by_computation.
  intros i sub stored E Hs. injection E as <- <-. injection Hs as <-. lia.
Defined.

Lemma graded_other_game_already_completed_witness :
  @complete_game_ajax_view Sample.runtime 13
    (Sample.post Sample.student (Sample.score_body "85") []) Sample.db
  = (Ok (JsonResponse200
           [("status", PyStr "already_completed");
            ("completed", PyBool true);
            ("score", match last_from 0 13 (submissions Sample.db) with
                      | Some (_, sub) => score_value (s_score sub)
                      | None => PyInt 0
                      end)]), Sample.db).
Proof.
  apply (@graded_other_game_already_completed Sample.runtime
           (Sample.post Sample.student (Sample.score_body "85") []) 13 Sample.db
           Sample.student (Sample.assignment GRADED ["pairs"])
           (Sample.material ["pairs"]) memory [("score", PyInt 85)]);
    by_computation.
Defined.

Lemma unknown_content_rejected_witness :
  @complete_game_ajax_view Sample.runtime 4
    (Sample.post Sample.student (Sample.score_body "85") []) Sample.db
  = (Ok (JsonResponse [("status", PyStr "error");
                       ("message", PyStr "Tuntematon pelityyppi")] 400), Sample.db).
Proof.
  apply (@unknown_content_rejected Sample.runtime
           (Sample.post Sample.student (Sample.score_body "85") []) 4 Sample.db
           Sample.student (Sample.assignment ASSIGNED ["cards"])
           (Sample.material ["cards"]));
    try by_computation; intros [E|[]]; discriminate E.
Defined.

Lemma autosave_locked_witness :
  @assignment_autosave_view Sample.runtime 14
    (Sample.post Sample.student EmptyString [("response", "uusi vastaus")]) Sample.db
  = (Ok (JsonResponse [("ok", PyBool false); ("error", PyStr "locked")] 400), Sample.db).
Proof.
  apply (@autosave_locked Sample.runtime
           (Sample.post Sample.student EmptyString [("response", "uusi vastaus")]) 14 Sample.db
           Sample.student (Sample.assignment SUBMITTED ["levels"]));
    try by_computation.
  left. reflexivity.
Defined.

Lemma autosave_stores_draft_witness :
  exists (a' : Assignment) (db' : DB),
    @assignment_autosave_view Sample.runtime 3
      (Sample.post Sample.student EmptyString [("response", "  uusi vastaus ")]) Sample.db
    = (Ok (JsonResponse200 [("ok", PyBool true);
                            ("saved_at", PyStr "2023-11-14T22:13:20+00:00")]), db')
    /\ assignments db' !! 3%Z = Some a'
    /\ a_draft_response a' = "uusi vastaus"
    /\ a_status a' = IN_PROGRESS.
Proof.
  destruct (@autosave_stores_draft Sample.runtime
              (Sample.post Sample.student EmptyString [("response", "  uusi vastaus ")])
              3 Sample.db Sample.student (Sample.assignment ASSIGNED ["pairs"])
              eq_refl eq_refl eq_refl eq_refl ltac:(discriminate) ltac:(discriminate))
    as (a' & db' & Hview & Hassignments & _ & Hdraft & _ & _ & Hprogress & _).
  exists a', db'. split; [exact Hview|]. split; [|split].
  - rewrite Hassignments. apply lookup_insert_eq.
  - exact Hdraft.
  - apply Hprogress; [discriminate | reflexivity].
Defined.

Lemma generation_returns_payload_unchecked_witness :
  exists metadata : pyval,
    @generate_game_ajax_view Sample.runtime
      (Sample.post Sample.teacher Sample.memory_body []) Sample.db
    = (Ok (JsonResponse200 [("success", PyBool true);
                            ("game_data", PyDict []);
                            ("metadata", metadata)]), Sample.db).
Proof.
  apply (@generation_returns_payload_unchecked Sample.runtime
           (Sample.post Sample.teacher Sample.memory_body []) Sample.db Sample.teacher
           [("topic", PyStr "linnut"); ("game_type", PyStr "memory")] "linnut");
    by_computation.
Defined.

Lemma missing_score_counts_as_zero_witness :
  exists (sub : Submission) (db' : DB),
    let completed := true in
    @complete_game_ajax_view Sample.runtime 2 (Sample.post Sample.student "{}" []) Sample.db
    = (Ok (JsonResponse200 [("status", PyStr "success"); ("score", PyInt 0);
                            ("completed", PyBool completed)]), db')
    /\ submissions db' = (submissions Sample.db ++ [sub])%list
    /\ s_assignment sub = 2%Z
    /\ s_score sub = Some 0%Z
    /\ status_of db' 2 = Some (if completed then GRADED else IN_PROGRESS).
Proof.
  apply (@missing_score_counts_as_zero Sample.runtime
           (Sample.post Sample.student "{}" []) 2 Sample.db
           Sample.student (Sample.assignment IN_PROGRESS ["topic"; "words"])
           (Sample.material ["topic"; "words"]) hangman []);
    first [by_computation | intros []].
Defined.

Lemma dispatch_precedence_witness :
  game_type_of [("pairs", PyList []); ("levels", PyList [])] = Some quiz.
Proof.
  apply (proj1 (dispatch_precedence [("pairs", PyList []); ("levels", PyList [])])).
  right. left. reflexivity.
Defined.

(** The improvement path of the specification: on a GRADED quiz whose
    latest score is 60, submitting 70 overwrites that score and answers
    retry; submitting 85 afterwards overwrites it again and answers success.
    No submission is added on the way. *)
Example sample_improvement_path :
  let view := @complete_game_ajax_view Sample.runtime 12 in
  let first := view (Sample.post Sample.student (Sample.score_body "70") []) Sample.db in
  let second := view (Sample.post Sample.student (Sample.score_body "85") []) (snd first) in
  fst first = Ok (JsonResponse200 [("status", PyStr "retry"); ("score", PyInt 70);
                                   ("completed", PyBool false)])
  /\ map s_score (submissions (snd first)) = [Some 90; Some 40; Some 55; Some 70]%Z
  /\ fst second = Ok (JsonResponse200 [("status", PyStr "success"); ("score", PyInt 85);
                                       ("completed", PyBool true)])
  /\ map s_score (submissions (snd second)) = [Some 90; Some 40; Some 55; Some 85]%Z
  /\ status_of (snd second) 12 = Some GRADED.
Proof. vm_compute. repeat split; reflexivity. Qed.

(** The threshold of a quiz on a first attempt: 79 does not grade it. *)
Example sample_first_attempt_79 :
  let out := @complete_game_ajax_view Sample.runtime 1
               (Sample.post Sample.student (Sample.score_body "79") []) Sample.db in
  response_field "completed" (fst out) = Some (PyBool false)
  /\ status_of (snd out) 1 = Some ASSIGNED
  /\ length (submissions (snd out)) = S (length (submissions Sample.db)).
Proof. vm_compute. repeat split; reflexivity. Qed.

(** * Further properties of the endpoints *)

(** ** What a completion request can write *)

Lemma first_attempt_effect `{Runtime} (assignment_id : Z) (a : Assignment) (u : User)
    (g : GameType) (score : pyval) (db : DB) :
  exists (grade : bool) (w : SubmissionWrite),
    snd (first_attempt assignment_id a u g score db)
    = apply_effect assignment_id grade w db
    /\ write_of assignment_id db w.
Proof.
  destruct db as [asg subs].
  unfold first_attempt, Submission_create, save_status. unfold_monad.
  destruct g; simpl.
  - destruct (Py.ge_int score 80) as [[|]|e]; simpl.
    + destruct (score_get_prep_value score) as [c|e]; simpl.
      * eexists true, (CreateRow _). split; reflexivity.
      * exists true, NoWrite. split; [reflexivity | exact I].
    + destruct (score_get_prep_value score) as [c|e]; simpl.
      * eexists false, (CreateRow _). split; reflexivity.
      * exists false, NoWrite. split; [reflexivity | exact I].
    + exists false, NoWrite. split; [reflexivity | exact I].
  - destruct (score_get_prep_value score) as [c|e]; simpl.
    + eexists true, (CreateRow _). split; reflexivity.
    + exists true, NoWrite. split; [reflexivity | exact I].
  - destruct (score_get_prep_value score) as [c|e]; simpl.
    + eexists true, (CreateRow _). split; reflexivity.
    + exists true, NoWrite. split; [reflexivity | exact I].
Qed.

Lemma already_graded_effect `{Runtime} (assignment_id : Z) (a : Assignment) (u : User)
    (g : GameType) (score : pyval) (db : DB) :
  exists (grade : bool) (w : SubmissionWrite),
    snd (already_graded assignment_id a u g score db)
    = apply_effect assignment_id grade w db
    /\ write_of assignment_id db w.
Proof.
  destruct db as [asg subs].
  unfold already_graded, submissions_last, save_score, Submission_create, save_status.
  unfold_monad. simpl.
  destruct g; simpl; try (exists false, NoWrite; split; [reflexivity | exact I]).
  destruct (last_from 0 assignment_id subs) as [[i sub]|] eqn:Hlast.
  - destruct (has_passing_score (Some (i, sub)));
      [exists false, NoWrite; split; [reflexivity | exact I]|].
    destruct (Py.int_lt (score_or_0 sub) score) as [[|]|e]; simpl;
      try (exists false, NoWrite; split; [reflexivity | exact I]).
    + destruct (score_get_prep_value score) as [c|e]; simpl;
        [|exists false, NoWrite; split; [reflexivity | exact I]].
      destruct (Py.ge_int score 80) as [[|]|e]; simpl.
      * exists true, (UpdateScore i c). split; [reflexivity|]. exists sub. exact Hlast.
      * exists false, (UpdateScore i c). split; [reflexivity|]. exists sub. exact Hlast.
      * exists false, (UpdateScore i c). split; [reflexivity|]. exists sub. exact Hlast.
    + destruct (Py.ge_int score 80) as [[|]|e]; simpl.
      * exists true, NoWrite. split; [reflexivity | exact I].
      * exists false, NoWrite. split; [reflexivity | exact I].
      * exists false, NoWrite. split; [reflexivity | exact I].
  - simpl. destruct (score_get_prep_value score) as [c|e]; simpl;
      [|exists false, NoWrite; split; [reflexivity | exact I]].
    destruct (Py.ge_int score 80) as [[|]|e]; simpl.
    + eexists true, (CreateRow _). split; reflexivity.
    + eexists false, (CreateRow _). split; reflexivity.
    + eexists false, (CreateRow _). split; reflexivity.
Qed.

(** Whatever the request, a completion call grades the assignment or not,
    and makes at most one write in the table of submissions. *)
Lemma complete_game_effect `{Runtime} (assignment_id : Z) (request : HttpRequest)
    (db : DB) :
  exists (grade : bool) (w : SubmissionWrite),
    snd (complete_game_ajax_view assignment_id request db)
    = apply_effect assignment_id grade w db
    /\ write_of assignment_id db w.
Proof.
  assert (exists (grade : bool) (w : SubmissionWrite),
             db = apply_effect assignment_id grade w db
             /\ write_of assignment_id db w) as Hnone.
  { exists false, NoWrite. destruct db. split; [reflexivity | exact I]. }
  unfold complete_game_ajax_view, require_POST, login_required, complete_game.
  destruct (method request =? "POST"); [|exact Hnone].
  destruct (user request) as [u|]; [|exact Hnone].
  unfold get_object_or_404. unfold_monad.
  destruct (assignments db !! assignment_id) as [a|]; [|exact Hnone].
  destruct (a_student a =? u_id u)%Z; [|exact Hnone].
  destruct (a_material a) as [m|]; [|exact Hnone].
  destruct (game_type_of (default [] (structured_content m))) as [g|]; [|exact Hnone].
  destruct (json_loads (body request)) as [data|[]]; try exact Hnone.
  destruct (Py.get data "score" (PyInt 0)) as [score|e]; [|exact Hnone].
  simpl. destruct (Status_eqb (a_status a) GRADED).
  - apply already_graded_effect.
  - apply first_attempt_effect.
Qed.

(** X1. Whatever the request, a completion call keeps the table of
    submissions in order: no row is removed, at most one row is added and it
    belongs to the assignment of the call, a row of another assignment is
    left as it is, and a row of the assignment changes in its score only. *)
Theorem completion_keeps_submissions `{Runtime} (assignment_id : Z)
    (request : HttpRequest) (db : DB) :
  let db' := snd (complete_game_ajax_view assignment_id request db) in
  (length (submissions db) <= length (submissions db') <= S (length (submissions db)))%nat
  /\ (forall (j : nat) (row : Submission),
        submissions db !! j = Some row ->
        exists row' : Submission,
          submissions db' !! j = Some row'
          /\ set_score None row' = set_score None row
          /\ (s_assignment row <> assignment_id -> row' = row))
  /\ (forall (j : nat) (row' : Submission),
        (length (submissions db) <= j)%nat ->
        submissions db' !! j = Some row' ->
        s_assignment row' = assignment_id).
Proof.
  intros db'. subst db'.
  destruct (complete_game_effect assignment_id request db) as (grade & w & -> & Hw).
  unfold apply_effect. simpl. destruct w as [|i c|new]; simpl in *.
  - split; [lia|]. split.
    + intros j row Hj. exists row. auto.
    + intros j row' Hlen Hj. apply lookup_lt_Some in Hj. lia.
  - destruct Hw as [sub Hlast].
    apply last_from_Some in Hlast as (i0 & -> & Hi & Hsub & _). simpl.
    rewrite length_alter. split; [lia|]. split.
    + intros j row Hj. destruct (decide (i0 = j)) as [->|Hne].
      * rewrite list_lookup_alter_eq, Hj. simpl. eexists. split; [reflexivity|].
        split; [destruct row; reflexivity|].
        intros Hother. rewrite Hi in Hj. injection Hj as <-. contradiction.
      * rewrite list_lookup_alter_ne by assumption. exists row. auto.
    + intros j row' Hlen Hj. apply lookup_lt_Some in Hj.
      rewrite length_alter in Hj. lia.
  - rewrite length_app. simpl. split; [lia|]. split.
    + intros j row Hj. exists row. split; [|auto].
      apply lookup_app_l_Some. exact Hj.
    + intros j row' Hlen Hj.
      rewrite lookup_app_r in Hj by assumption.
      destruct (j - length (submissions db))%nat; simpl in Hj; [|discriminate].
      injection Hj as <-. exact Hw.
Qed.

(** A completion call and one assignment of the database. *)
Lemma completion_row `{Runtime} (assignment_id : Z) (request : HttpRequest)
    (db : DB) (k : Z) :
  match assignments db !! k with
  | None =>
      assignments (snd (complete_game_ajax_view assignment_id request db)) !! k = None
  | Some a =>
      assignments (snd (complete_game_ajax_view assignment_id request db)) !! k = Some a
      \/ (k = assignment_id
          /\ assignments (snd (complete_game_ajax_view assignment_id request db)) !! k
             = Some (set_status GRADED a))
  end.
Proof.
  destruct (complete_game_effect assignment_id request db) as (grade & w & -> & _).
  unfold apply_effect. simpl. destruct grade.
  - destruct (decide (assignment_id = k)) as [->|Hne].
    + rewrite lookup_alter_eq. destruct (assignments db !! k); simpl; auto.
    + rewrite lookup_alter_ne by assumption. destruct (assignments db !! k); auto.
  - destruct (assignments db !! k); auto.
Qed.

(** X2. Whatever the request, a completion call creates and deletes no
    assignment and changes none but the one it is called on; of that one it
    can only set the status to GRADED: the student, the draft and the
    material stay as they are. *)
Theorem completion_changes_status_only `{Runtime} (assignment_id : Z)
    (request : HttpRequest) (db : DB) (k : Z) :
  let db' := snd (complete_game_ajax_view assignment_id request db) in
  match assignments db !! k with
  | None => assignments db' !! k = None
  | Some a =>
      assignments db' !! k = Some a
      \/ (k = assignment_id /\ assignments db' !! k = Some (set_status GRADED a))
  end.
Proof.
  intros db'. subst db'. apply completion_row.
Qed.

(** ** What the other endpoints can write *)

(** An autosave call leaves the database as it is, or stores the stripped
    draft in an assignment that is neither SUBMITTED nor GRADED. *)
Lemma autosave_effect `{Runtime} (assignment_id : Z) (request : HttpRequest) (db : DB) :
  let draft :=
    Py.strip (default EmptyString (querydict_get "response" (POST request))) in
  snd (assignment_autosave_view assignment_id request db) = db
  \/ exists a : Assignment,
       assignments db !! assignment_id = Some a
       /\ a_status a <> SUBMITTED /\ a_status a <> GRADED
       /\ snd (assignment_autosave_view assignment_id request db)
          = with_assignments
              (<[assignment_id :=
                   set_status
                     (if negb (draft =? EmptyString) && Status_eqb (a_status a) ASSIGNED
                      then IN_PROGRESS else a_status a)
                     (set_draft_response draft a)]> (assignments db)) db.
Proof.
  intros draft.
  destruct (user request) as [u|] eqn:Hu;
    [|left; unfold assignment_autosave_view, login_required; rewrite Hu; reflexivity].
  destruct (String.eqb_spec (method request) "POST") as [Hm|Hm];
    [|left; unfold assignment_autosave_view, login_required, require_POST;
      rewrite Hu; apply String.eqb_neq in Hm; rewrite Hm; reflexivity].
  destruct (assignments db !! assignment_id) as [a|] eqn:Ha.
  - destruct (Z.eqb_spec (a_student a) (u_id u)) as [Hs|Hs].
    + destruct (Status_eqb (a_status a) SUBMITTED || Status_eqb (a_status a) GRADED)
        eqn:Hlocked.
      { left. unfold assignment_autosave_view.
        destruct (decorators_pass (Some "kirjaudu") (assignment_autosave assignment_id)
                    request u Hm Hu) as [_ ->].
        unfold assignment_autosave, get_object_or_404. unfold_monad.
        rewrite Ha, Hu, Hs, Z.eqb_refl. simpl. rewrite Hlocked. reflexivity. }
      apply orb_false_elim in Hlocked as [Hns Hng].
      apply Status_eqb_neq in Hns, Hng.
      right. exists a. repeat split; try assumption.
      rewrite (autosave_run request assignment_id db u a Hm Hu Ha Hs Hns Hng).
      reflexivity.
    + left. unfold assignment_autosave_view.
      destruct (decorators_pass (Some "kirjaudu") (assignment_autosave assignment_id)
                  request u Hm Hu) as [_ ->].
      unfold assignment_autosave, get_object_or_404. unfold_monad.
      rewrite Ha, Hu. apply Z.eqb_neq in Hs. rewrite Hs. reflexivity.
  - left. unfold assignment_autosave_view.
    destruct (decorators_pass (Some "kirjaudu") (assignment_autosave assignment_id)
                request u Hm Hu) as [_ ->].
    unfold assignment_autosave, get_object_or_404. unfold_monad.
    rewrite Ha. reflexivity.
Qed.

(** The generation endpoint never writes in the database and never lets an
    exception out. *)
Lemma generate_game_returns `{Runtime} (request : HttpRequest) (db : DB) :
  exists response : HttpResponse,
    generate_game_ajax_view request db = (Ok response, db).
Proof.
  unfold generate_game_ajax_view, require_POST, login_required, generate_game.
  unfold_monad.
  destruct (method request =? "POST"); [|eexists; reflexivity].
  destruct (user request) as [u|]; [|eexists; reflexivity].
  destruct (negb _); [eexists; reflexivity|].
  destruct (generate request); eexists; reflexivity.
Qed.

(** What one call does to an assignment: it stays, with its student and
    its material, its status does not go back, and a GRADED assignment is
    left as it is. *)
Lemma call_keeps_assignment `{Runtime} (c : Call) (db : DB) (k : Z) (a : Assignment) :
  assignments db !! k = Some a ->
  exists a' : Assignment,
    assignments (snd (call c db)) !! k = Some a'
    /\ a_student a' = a_student a
    /\ a_material a' = a_material a
    /\ (status_rank (a_status a) <= status_rank (a_status a'))%nat
    /\ (a_status a = GRADED -> a' = a).
Proof.
  intros Ha. destruct c as [id request | id request | request]; simpl.
  - pose proof (completion_row id request db k) as Hk.
    rewrite Ha in Hk. destruct Hk as [Hk | [_ Hk]]; rewrite Hk.
    + exists a. repeat split; auto.
    + exists (set_status GRADED a). repeat split; simpl.
      * destruct (a_status a); simpl; lia.
      * intros Hg. rewrite <- Hg. apply set_status_same.
  - destruct (autosave_effect id request db) as [-> | (a0 & Ha0 & Hns & Hng & ->)].
    + exists a. repeat split; auto.
    + simpl. destruct (decide (id = k)) as [->|Hne].
      * rewrite lookup_insert_eq. rewrite Ha in Ha0. injection Ha0 as <-.
        eexists. split; [reflexivity|]. repeat split; simpl.
        -- destruct (negb _ && _) eqn:Hb; [|lia].
           apply andb_prop in Hb as [_ Hb]. apply Status_eqb_eq in Hb.
           rewrite Hb. simpl. lia.
        -- intros Hg. contradiction.
      * rewrite lookup_insert_ne by assumption. exists a. repeat split; auto.
  - destruct (generate_game_returns request db) as [response ->]. simpl.
    exists a. repeat split; auto.
Qed.

(** ** Sequences of calls *)

(** X3. Along any sequence of calls of the three endpoints the status of an
    assignment never goes back in the order ASSIGNED, IN_PROGRESS,
    SUBMITTED, GRADED; the assignment is never deleted and keeps its student
    and its material. *)
Theorem status_never_goes_back `{Runtime} (calls : list Call) (db : DB) (k : Z)
    (a : Assignment) :
  assignments db !! k = Some a ->
  exists a' : Assignment,
    assignments (serve calls db) !! k = Some a'
    /\ a_student a' = a_student a
    /\ a_material a' = a_material a
    /\ (status_rank (a_status a) <= status_rank (a_status a'))%nat.
Proof.
  revert db a. induction calls as [|c rest IH]; intros db a Ha; simpl.
  - exists a. repeat split; auto.
  - destruct (call_keeps_assignment c db k a Ha) as (a1 & Ha1 & Hs1 & Hm1 & Hr1 & _).
    destruct (IH _ a1 Ha1) as (a' & Ha' & Hs' & Hm' & Hr').
    exists a'. repeat split; [exact Ha' | congruence | congruence | lia].
Qed.

(** X4. A GRADED assignment is final: after any sequence of calls of the
    three endpoints its row is what it was, draft included. *)
Theorem graded_assignment_is_final `{Runtime} (calls : list Call) (db : DB) (k : Z)
    (a : Assignment) :
  assignments db !! k = Some a ->
  a_status a = GRADED ->
  assignments (serve calls db) !! k = Some a.
Proof.
  revert db. induction calls as [|c rest IH]; intros db Ha Hg; simpl.
  - exact Ha.
  - destruct (call_keeps_assignment c db k a Ha) as (a1 & Ha1 & _ & _ & _ & Hsame).
    rewrite (Hsame Hg) in Ha1. apply IH; assumption.
Qed.

(** ** Errors of the completion endpoint *)

Lemma first_attempt_answers_200 `{Runtime} (assignment_id : Z) (a : Assignment)
    (u : User) (g : GameType) (score : pyval) (db db' : DB)
    (response : HttpResponse) :
  first_attempt assignment_id a u g score db = (Ok response, db') ->
  exists data, response = JsonResponse data 200.
Proof.
  unfold first_attempt, Submission_create, save_status. unfold_monad.
  destruct g; simpl.
  - destruct (Py.ge_int score 80) as [[|]|e]; simpl;
      try destruct (score_get_prep_value score) as [c|e']; simpl;
      intros E; inversion E; eexists; reflexivity.
  - destruct (score_get_prep_value score) as [c|e']; simpl;
      intros E; inversion E; eexists; reflexivity.
  - destruct (score_get_prep_value score) as [c|e']; simpl;
      intros E; inversion E; eexists; reflexivity.
Qed.

Lemma already_graded_answers_200 `{Runtime} (assignment_id : Z) (a : Assignment)
    (u : User) (g : GameType) (score : pyval) (db db' : DB)
    (response : HttpResponse) :
  already_graded assignment_id a u g score db = (Ok response, db') ->
  exists data, response = JsonResponse data 200.
Proof.
  unfold already_graded, submissions_last, save_score, Submission_create, save_status.
  unfold_monad.
  destruct g; simpl; try (intros E; inversion E; eexists; reflexivity).
  destruct (has_passing_score _); [intros E; inversion E; eexists; reflexivity|].
  destruct (last_from 0 assignment_id (submissions db)) as [[i sub]|]; simpl.
  - destruct (Py.int_lt (score_or_0 sub) score) as [[|]|e]; simpl;
      try destruct (score_get_prep_value score) as [c|e']; simpl;
      try destruct (Py.ge_int score 80) as [[|]|e'']; simpl;
      intros E; inversion E; eexists; reflexivity.
  - destruct (score_get_prep_value score) as [c|e']; simpl;
      try destruct (Py.ge_int score 80) as [[|]|e'']; simpl;
      intros E; inversion E; eexists; reflexivity.
Qed.

(** X5. When the completion endpoint answers with anything but a 200 (an
    error 400, a 405, a redirect to the login page), it has written nothing:
    the database is as it was. *)
Theorem completion_error_writes_nothing `{Runtime} (assignment_id : Z)
    (request : HttpRequest) (db db' : DB) (response : HttpResponse) :
  complete_game_ajax_view assignment_id request db = (Ok response, db') ->
  (forall data, response <> JsonResponse data 200) ->
  db' = db.
Proof.
  unfold complete_game_ajax_view, require_POST, login_required, complete_game.
  destruct (method request =? "POST"); [|intros E _; inversion E; reflexivity].
  destruct (user request) as [u|]; [|intros E _; inversion E; reflexivity].
  unfold get_object_or_404. unfold_monad.
  destruct (assignments db !! assignment_id) as [a|]; [|intros E _; inversion E].
  destruct (a_student a =? u_id u)%Z; [|intros E _; inversion E].
  destruct (a_material a) as [m|]; [|intros E _; inversion E; reflexivity].
  destruct (game_type_of (default [] (structured_content m))) as [g|];
    [|intros E _; inversion E; reflexivity].
  destruct (json_loads (body request)) as [data|[]];
    try (intros E _; inversion E; reflexivity).
  destruct (Py.get data "score" (PyInt 0)) as [score|e]; [|intros E _; inversion E].
  simpl. destruct (Status_eqb (a_status a) GRADED); intros E Hnot.
  - apply already_graded_answers_200 in E as [data' ->]. destruct (Hnot data' eq_refl).
  - apply first_attempt_answers_200 in E as [data' ->]. destruct (Hnot data' eq_refl).
Qed.

(** X6. A completion request for an assignment that does not exist, or that
    belongs to another student, raises Http404 in both cases alike, and the
    database is as it was. *)
Theorem completion_of_foreign_assignment_is_404 `{Runtime} (assignment_id : Z)
    (request : HttpRequest) (db : DB) (u : User) :
  method request = "POST" ->
  user request = Some u ->
  (forall a, assignments db !! assignment_id = Some a -> a_student a <> u_id u) ->
  complete_game_ajax_view assignment_id request db = (Raise Http404, db).
Proof.
  intros Hm Hu Hforeign.
  unfold complete_game_ajax_view.
  destruct (decorators_pass None (complete_game assignment_id) request u Hm Hu) as [-> _].
  unfold complete_game, get_object_or_404. rewrite Hu. unfold_monad.
  destruct (assignments db !! assignment_id) as [a|]; [|reflexivity].
  specialize (Hforeign a eq_refl). apply Z.eqb_neq in Hforeign.
  rewrite Hforeign. reflexivity.
Qed.

(** X7. When the content of the material is that of a game and the body
    does not decode as JSON, the completion endpoint answers 400 with
    "Virheellinen JSON" and writes nothing, whatever the status of the
    assignment; an assignment without a material is answered 400 with
    "Virheellinen pelisisältö" before the body is read. *)
Theorem completion_rejects_bad_input `{Runtime} (assignment_id : Z)
    (request : HttpRequest) (db : DB) (u : User) (a : Assignment) :
  method request = "POST" ->
  user request = Some u ->
  assignments db !! assignment_id = Some a ->
  a_student a = u_id u ->
  match a_material a with
  | None =>
      complete_game_ajax_view assignment_id request db
      = (Ok (JsonResponse [("status", PyStr "error");
                           ("message", PyStr "Virheellinen pelisisältö")] 400), db)
  | Some m =>
      forall (g : GameType) (msg : string),
        game_type_of (default [] (structured_content m)) = Some g ->
        json_loads (body request) = Raise (JSONDecodeError msg) ->
        complete_game_ajax_view assignment_id request db
        = (Ok (JsonResponse [("status", PyStr "error");
                             ("message", PyStr "Virheellinen JSON")] 400), db)
  end.
Proof.
  intros Hm Hu Ha Hs.
  unfold complete_game_ajax_view.
  destruct (decorators_pass None (complete_game assignment_id) request u Hm Hu) as [-> _].
  unfold complete_game, get_object_or_404. rewrite Hu. unfold_monad.
  rewrite Ha, Hs, Z.eqb_refl.
  destruct (a_material a) as [m|]; [|reflexivity].
  intros g msg Hg Hj. rewrite Hg, Hj. reflexivity.
Qed.

(** X8. On a first attempt at a quiz, a score that is no number (a string,
    null, a list, an object) makes the comparison with 80 raise TypeError:
    the exception leaves the view, no Submission is created and the
    assignment is not graded. *)
Theorem quiz_score_must_be_a_number `{Runtime} (request : HttpRequest)
    (assignment_id : Z) (db : DB) (u : User) (a : Assignment) (m : Material)
    (d : list (string * pyval)) (score : pyval) :
  method request = "POST" ->
  user request = Some u ->
  assignments db !! assignment_id = Some a ->
  a_student a = u_id u ->
  a_status a <> GRADED ->
  a_material a = Some m ->
  game_type_of (default [] (structured_content m)) = Some quiz ->
  json_loads (body request) = Ok (PyDict d) ->
  Py.dict_lookup "score" d = Some score ->
  Py.as_int score = None ->
  exists msg : string,
    complete_game_ajax_view assignment_id request db = (Raise (TypeError msg), db).
Proof.
  intros Hm Hu Ha Hs Hst Hmat Hg Hj Hsc Hnum.
  rewrite (complete_game_reaches_score request assignment_id db u a m quiz d) by assumption.
  unfold Py.dict_get. rewrite Hsc. cbv zeta.
  apply Status_eqb_neq in Hst. rewrite Hst.
  unfold first_attempt, Py.ge_int. unfold_monad. rewrite Hnum.
  eexists. reflexivity.
Qed.

(** X9. A completion request with an integer score never lowers a stored
    score: every row of the table of submissions is still there afterwards,
    with a score at least as high (a missing score counting as 0). *)
Theorem completion_never_lowers_a_score `{Runtime} (request : HttpRequest)
    (assignment_id : Z) (db : DB) (u : User) (a : Assignment) (m : Material)
    (g : GameType) (d : list (string * pyval)) (score : Z) :
  method request = "POST" ->
  user request = Some u ->
  assignments db !! assignment_id = Some a ->
  a_student a = u_id u ->
  a_material a = Some m ->
  game_type_of (default [] (structured_content m)) = Some g ->
  json_loads (body request) = Ok (PyDict d) ->
  Py.dict_get "score" d (PyInt 0) = PyInt score ->
  forall (j : nat) (row : Submission),
    submissions db !! j = Some row ->
    exists row' : Submission,
      submissions (snd (complete_game_ajax_view assignment_id request db)) !! j
      = Some row'
      /\ (default 0 (s_score row) <= default 0 (s_score row'))%Z.
Proof.
  intros Hm Hu Ha Hs Hmat Hg Hj Hsc j row Hrow.
  rewrite (complete_game_reaches_score request assignment_id db u a m g d) by assumption.
  rewrite Hsc. cbv zeta.
  destruct (Status_eqb (a_status a) GRADED).
  - unfold already_graded, submissions_last, save_score, Submission_create, save_status.
    unfold_monad. rewrite score_get_prep_value_int.
    unfold Py.int_lt, Py.ge_int, Py.as_int.
    destruct g; simpl; try (exists row; split; [exact Hrow | lia]).
    destruct (last_from 0 assignment_id (submissions db)) as [[i sub]|] eqn:Hlast.
    + destruct (has_passing_score (Some (i, sub))); simpl;
        [exists row; split; [exact Hrow | lia]|].
      pose proof (last_from_lookup _ _ _ _ Hlast) as Hi.
      rewrite score_or_0_default.
      destruct (Z.ltb_spec (default 0%Z (s_score sub)) score) as [Hlt|Hge]; simpl.
      * assert (exists row' : Submission,
                   alter (set_score (Some score)) i (submissions db) !! j = Some row'
                   /\ (default 0 (s_score row) <= default 0 (s_score row'))%Z) as Hgoal.
        { destruct (decide (i = j)) as [->|Hne].
          - rewrite list_lookup_alter_eq, Hrow. simpl. eexists. split; [reflexivity|].
            rewrite Hi in Hrow. injection Hrow as <-. simpl. lia.
          - rewrite list_lookup_alter_ne by assumption.
            exists row. split; [exact Hrow | lia]. }
        destruct (80 <=? score)%Z; simpl; exact Hgoal.
      * destruct (80 <=? score)%Z; simpl; exists row; split; try exact Hrow; lia.
    + simpl. destruct (80 <=? score)%Z; simpl; exists row;
        (split; [apply lookup_app_l_Some; exact Hrow | lia]).
  - rewrite (first_attempt_int assignment_id a u g score db Ha). simpl.
    exists row. split; [apply lookup_app_l_Some; exact Hrow | lia].
Qed.

(** ** Whitespace *)

Lemma append_String (c : ascii) (l t : string) :
  (String c l ++ t)%string = String c (l ++ t).
Proof. reflexivity. Qed.

Lemma append_EmptyString (t : string) : (EmptyString ++ t)%string = t.
Proof. reflexivity. Qed.

Lemma append_nil_r (s : string) : (s ++ EmptyString)%string = s.
Proof.
  induction s as [|c s IH]; [reflexivity|]. rewrite append_String, IH. reflexivity.
Qed.

Lemma length_append (a b : string) :
  String.length (a ++ b) = (String.length a + String.length b)%nat.
Proof.
  induction a as [|c a IH]; [reflexivity|].
  rewrite append_String. simpl. rewrite IH. reflexivity.
Qed.

Lemma append_assoc (a b c : string) : ((a ++ b) ++ c)%string = (a ++ (b ++ c))%string.
Proof.
  induction a as [|x a IH]; [reflexivity|].
  rewrite !append_String, IH. reflexivity.
Qed.

(** A whitespace character is there whatever follows it. *)
Lemma space_width_app (p t : string) (n : nat) :
  Py.space_width p = S n -> Py.space_width (p ++ t) = S n.
Proof.
  destruct p as [|c [|d [|e p']]]; rewrite ?append_String, ?append_EmptyString;
    unfold Py.space_width; try discriminate.
  - destruct (Py.isspace_ascii c); [trivial | discriminate].
  - destruct (Py.isspace_ascii c); [trivial|].
    destruct (Py.isspace_2 _ _); [trivial | discriminate].
  - trivial.
Qed.

(** It is read from the bytes it is made of. *)
Lemma space_width_prefix (p t : string) (n : nat) :
  Py.space_width (p ++ t) = n -> (n <= String.length p)%nat -> Py.space_width p = n.
Proof.
  destruct p as [|c [|d [|e p']]]; rewrite ?append_String, ?append_EmptyString;
    simpl String.length; unfold Py.space_width.
  - intros _ Hn. lia.
  - destruct (Py.isspace_ascii c); [trivial|].
    destruct t as [|d [|e t']]; [trivial| |].
    + destruct (Py.isspace_2 _ _); intros <- Hn; lia.
    + destruct (Py.isspace_2 _ _); [intros <- Hn; lia|].
      destruct (Py.isspace_3 _ _ _); intros <- Hn; lia.
  - destruct (Py.isspace_ascii c); [trivial|].
    destruct (Py.isspace_2 _ _); [trivial|].
    destruct t as [|e t']; [trivial|].
    destruct (Py.isspace_3 _ _ _); intros <- Hn; lia.
  - trivial.
Qed.

Lemma space_width_le (s : string) : (Py.space_width s <= String.length s)%nat.
Proof.
  destruct s as [|c [|d [|e s']]]; unfold Py.space_width; simpl String.length;
    repeat match goal with
           | |- context [if ?b then _ else _] => destruct b
           end; lia.
Qed.

Lemma lstrip_nonspace (s : string) :
  Py.space_width s = O -> Py.lstrip_from 0 s = s.
Proof.
  intros Hw. destruct s as [|c r]; [reflexivity|].
  cbn [Py.lstrip_from]. rewrite Hw. reflexivity.
Qed.

(** [lstrip] drops the whitespace a string starts with, whole. *)
Lemma lstrip_app_spaces (k : nat) (w rest : string) :
  all_space_from k w = true ->
  Py.space_width rest = O ->
  Py.lstrip_from k (w ++ rest) = rest.
Proof.
  revert k. induction w as [|c w IH]; intros k Hall Hrest.
  - rewrite append_EmptyString. simpl in Hall. apply Nat.eqb_eq in Hall. subst k.
    apply lstrip_nonspace. exact Hrest.
  - rewrite append_String. destruct k as [|k].
    + cbn [all_space_from] in Hall. cbn [Py.lstrip_from].
      destruct (Py.space_width (String c w)) as [|k'] eqn:Hw; [discriminate|].
      rewrite <- append_String, (space_width_app _ rest _ Hw).
      apply IH; assumption.
    + cbn [all_space_from] in Hall. cbn [Py.lstrip_from]. apply IH; assumption.
Qed.

Lemma lstrip_split_from (k : nat) (s : string) :
  (k <= String.length s)%nat ->
  exists l : string,
    s = l ++ Py.lstrip_from k s /\ all_space_from k l = true
    /\ Py.space_width (Py.lstrip_from k s) = O
    /\ (k <= String.length l)%nat.
Proof.
  revert k. induction s as [|c r IH]; intros k Hk.
  - simpl in Hk. assert (k = O) as -> by lia. exists EmptyString. repeat split. lia.
  - destruct k as [|k].
    + cbn [Py.lstrip_from].
      destruct (Py.space_width (String c r)) as [|k'] eqn:Hw.
      * exists EmptyString. repeat split; [exact Hw | lia].
      * pose proof (space_width_le (String c r)) as Hle. rewrite Hw in Hle.
        simpl in Hle. destruct (IH k' ltac:(lia)) as (l & Hl & Hall & Hrest & Hlen).
        exists (String c l). rewrite append_String. split; [f_equal; exact Hl|].
        split; [|split; [exact Hrest | simpl; lia]].
        cbn [all_space_from].
        rewrite (space_width_prefix (String c l) (Py.lstrip_from k' r) (S k'));
          [exact Hall | rewrite append_String, <- Hl; exact Hw | simpl; lia].
    + simpl in Hk. destruct (IH k ltac:(lia)) as (l & Hl & Hall & Hrest & Hlen).
      exists (String c l). rewrite append_String. cbn [Py.lstrip_from all_space_from].
      split; [f_equal; exact Hl|]. split; [exact Hall|].
      split; [exact Hrest | simpl; lia].
Qed.

Lemma lstrip_split (s : string) :
  exists l : string,
    s = l ++ Py.lstrip s /\ all_space l = true /\ starts_with_space (Py.lstrip s) = false.
Proof.
  destruct (lstrip_split_from 0 s ltac:(lia)) as (l & Hl & Hall & Hrest & _).
  exists l. split; [exact Hl|]. split; [exact Hall|].
  unfold starts_with_space, Py.lstrip. rewrite Hrest. reflexivity.
Qed.

Lemma all_space_from_skip (p t : string) :
  all_space_from (String.length p) (p ++ t) = all_space_from 0 t.
Proof.
  induction p as [|c p IH]; [reflexivity|]. rewrite append_String. exact IH.
Qed.

Lemma all_space_character (c t : string) :
  Py.isspace c = true -> all_space t = true -> all_space (c ++ t) = true.
Proof.
  unfold Py.isspace, all_space. intros Hc Ht.
  destruct (Py.space_width c) as [|n] eqn:Hw; [discriminate|].
  apply Nat.eqb_eq in Hc.
  destruct c as [|x c']; [discriminate|].
  rewrite append_String. cbn [all_space_from].
  rewrite <- append_String, (space_width_app _ t _ Hw).
  simpl in Hc. injection Hc as ->. rewrite all_space_from_skip. exact Ht.
Qed.

(** [rstrip] drops whitespace only, and all there is at the end. *)
Lemma rstrip_split (s : string) :
  exists t : string,
    s = Py.rstrip s ++ t /\ all_space t = true
    /\ ends_with_space (Py.rstrip s) = false.
Proof.
  induction s as [|c r (t & Ht & Hall & Hend)].
  - exists EmptyString. repeat split.
  - cbn [Py.rstrip]. cbv zeta.
    destruct (Py.isspace (String c (Py.rstrip r))) eqn:Hc.
    + exists (String c (Py.rstrip r) ++ t). rewrite append_EmptyString.
      split; [rewrite append_String, <- Ht; reflexivity|].
      split; [apply all_space_character; assumption | reflexivity].
    + exists t. rewrite append_String. split; [f_equal; exact Ht|].
      split; [exact Hall|]. cbn [ends_with_space]. rewrite Hc, Hend. reflexivity.
Qed.

Lemma strip_all_space (s : string) : all_space s = true -> Py.strip s = EmptyString.
Proof.
  intros Hall. unfold Py.strip, Py.lstrip.
  rewrite <- (append_nil_r s), (lstrip_app_spaces 0 s EmptyString Hall eq_refl).
  reflexivity.
Qed.

(** What [strip] keeps neither starts nor ends with whitespace, and what
    it drops is whitespace. *)
Lemma strip_split (s : string) :
  exists before after : string,
    s = before ++ Py.strip s ++ after
    /\ all_space before = true /\ all_space after = true
    /\ starts_with_space (Py.strip s) = false
    /\ ends_with_space (Py.strip s) = false.
Proof.
  destruct (lstrip_split s) as (before & Hb & Hbs & Hstart).
  destruct (rstrip_split (Py.lstrip s)) as (after & Ha & Has & Hend).
  exists before, after. unfold Py.strip.
  split; [rewrite <- Ha; exact Hb|]. split; [exact Hbs|]. split; [exact Has|].
  split; [|exact Hend].
  unfold starts_with_space in *.
  destruct (Py.space_width (Py.rstrip (Py.lstrip s))) as [|n] eqn:Hw; [reflexivity|].
  rewrite Ha, (space_width_app _ after _ Hw) in Hstart. discriminate Hstart.
Qed.

(** The whitespace characters are those of Python's table, in UTF-8. *)
Lemma space_width_utf8 (cp : N) (rest : string) :
  In cp unicode_whitespace ->
  Py.space_width (utf8 cp ++ rest) = String.length (utf8 cp)
  /\ Py.isspace (utf8 cp) = true.
Proof.
  unfold unicode_whitespace. intros Hin. simpl in Hin.
  repeat (destruct Hin as [<-|Hin]; [split; reflexivity|]).
  destruct Hin.
Qed.

Lemma byte_of_code (c : ascii) (n : nat) : nat_of_ascii c = n -> c = ascii_of_nat n.
Proof. intros <-. symmetry. apply ascii_nat_embedding. Qed.

Ltac found_whitespace cp rest :=
  exists cp, rest; split; [simpl; tauto | split; reflexivity].

Lemma space_width_inv (s : string) (n : nat) :
  Py.space_width s = S n ->
  exists (cp : N) (rest : string),
    In cp unicode_whitespace /\ s = utf8 cp ++ rest
    /\ String.length (utf8 cp) = S n.
Proof.
  destruct s as [|c r]; [discriminate|]. unfold Py.space_width.
  destruct (Py.isspace_ascii c) eqn:H1.
  { intros E. injection E as <-. unfold Py.isspace_ascii in H1.
    remember (nat_of_ascii c) as b0 eqn:Hb0. symmetry in Hb0.
    apply byte_of_code in Hb0.
    apply orb_prop in H1.
    rewrite !andb_true_iff, !Nat.leb_le in H1.
    assert (b0 = 9 \/ b0 = 10 \/ b0 = 11 \/ b0 = 12 \/ b0 = 13 \/ b0 = 28
            \/ b0 = 29 \/ b0 = 30 \/ b0 = 31 \/ b0 = 32)%nat as Hcases by lia.
    clear H1.
    destruct Hcases as [->|[->|[->|[->|[->|[->|[->|[->|[->| ->]]]]]]]]]; subst c.
    - found_whitespace 9%N r.
    - found_whitespace 10%N r.
    - found_whitespace 11%N r.
    - found_whitespace 12%N r.
    - found_whitespace 13%N r.
    - found_whitespace 28%N r.
    - found_whitespace 29%N r.
    - found_whitespace 30%N r.
    - found_whitespace 31%N r.
    - found_whitespace 32%N r. }
  destruct r as [|d r']; [discriminate|].
  remember (nat_of_ascii c) as b0 eqn:Hb0. symmetry in Hb0. apply byte_of_code in Hb0.
  remember (nat_of_ascii d) as b1 eqn:Hb1. symmetry in Hb1. apply byte_of_code in Hb1.
  destruct (Py.isspace_2 b0 b1) eqn:H2.
  { intros E. injection E as <-. unfold Py.isspace_2 in H2.
    rewrite andb_true_iff, orb_true_iff, !Nat.eqb_eq in H2.
    destruct H2 as [-> [-> | ->]]; subst c d.
    - found_whitespace 133%N r'.
    - found_whitespace 160%N r'. }
  destruct r' as [|e r'']; [discriminate|].
  remember (nat_of_ascii e) as b2 eqn:Hb2. symmetry in Hb2. apply byte_of_code in Hb2.
  destruct (Py.isspace_3 b0 b1 b2) eqn:H3; [|discriminate].
  intros E. injection E as <-. unfold Py.isspace_3 in H3.
  repeat first [rewrite orb_true_iff in H3 | rewrite andb_true_iff in H3].
  rewrite ?Nat.eqb_eq, ?Nat.leb_le in H3.
  destruct H3 as [[[[[-> ->] ->] | [[-> ->] H3]] | [[-> ->] ->]] | [[-> ->] ->]];
    subst c d.
  - subst e. found_whitespace 5760%N r''.
  - assert (b2 = 128 \/ b2 = 129 \/ b2 = 130 \/ b2 = 131 \/ b2 = 132 \/ b2 = 133
            \/ b2 = 134 \/ b2 = 135 \/ b2 = 136 \/ b2 = 137 \/ b2 = 138
            \/ b2 = 168 \/ b2 = 169 \/ b2 = 175)%nat as Hcases by lia.
    clear H3.
    destruct Hcases
      as [->|[->|[->|[->|[->|[->|[->|[->|[->|[->|[->|[->|[->| ->]]]]]]]]]]]]];
      subst e.
    + found_whitespace 8192%N r''.
    + found_whitespace 8193%N r''.
    + found_whitespace 8194%N r''.
    + found_whitespace 8195%N r''.
    + found_whitespace 8196%N r''.
    + found_whitespace 8197%N r''.
    + found_whitespace 8198%N r''.
    + found_whitespace 8199%N r''.
    + found_whitespace 8200%N r''.
    + found_whitespace 8201%N r''.
    + found_whitespace 8202%N r''.
    + found_whitespace 8232%N r''.
    + found_whitespace 8233%N r''.
    + found_whitespace 8239%N r''.
  - subst e. found_whitespace 8287%N r''.
  - subst e. found_whitespace 12288%N r''.
Qed.

Lemma all_space_whitespace_upto (n : nat) (s : string) :
  (String.length s <= n)%nat ->
  all_space s = true ->
  exists cps : list N, whitespace cps /\ s = utf8_string cps.
Proof.
  revert s. induction n as [|n IH]; intros s Hlen Hall.
  - destruct s; [|simpl in Hlen; lia]. exists []. split; [constructor | reflexivity].
  - destruct s as [|c r]; [exists []; split; [constructor | reflexivity]|].
    unfold all_space in Hall. cbn [all_space_from] in Hall.
    destruct (Py.space_width (String c r)) as [|k] eqn:Hw; [discriminate|].
    destruct (space_width_inv _ _ Hw) as (cp & rest & Hin & Hs & Hl).
    destruct (utf8 cp) as [|c' tail] eqn:Hu; [discriminate Hl|].
    rewrite append_String in Hs. injection Hs as -> ->.
    simpl in Hl. injection Hl as <-.
    rewrite all_space_from_skip in Hall.
    simpl in Hlen. rewrite length_append in Hlen.
    destruct (IH rest ltac:(lia) Hall) as (cps & Hws & ->).
    exists (cp :: cps). split; [constructor; assumption|].
    simpl. rewrite Hu. reflexivity.
Qed.

(** A string is all whitespace for the model exactly when it is made of
    whitespace characters of Python's table. *)
Lemma all_space_whitespace (s : string) :
  all_space s = true <-> exists cps : list N, whitespace cps /\ s = utf8_string cps.
Proof.
  split.
  - apply (all_space_whitespace_upto (String.length s)). lia.
  - intros (cps & Hws & ->). induction Hws as [|cp cps Hin _ IH]; [reflexivity|].
    simpl. apply all_space_character; [|exact IH].
    apply (space_width_utf8 cp EmptyString Hin).
Qed.

Lemma ends_with_space_character (front c : string) :
  Py.isspace c = true -> ends_with_space (front ++ c) = true.
Proof.
  intros Hc. induction front as [|x front IH].
  - rewrite append_EmptyString. destruct c as [|y c']; [discriminate Hc|].
    cbn [ends_with_space]. rewrite Hc. reflexivity.
  - rewrite append_String. cbn [ends_with_space]. rewrite IH. apply orb_true_r.
Qed.

(** [strip] in the words of Python: the string is what is kept between
    two runs of whitespace characters, and what is kept neither starts nor
    ends with a whitespace character. *)
Lemma strip_unicode (s : string) :
  exists before after : list N,
    whitespace before /\ whitespace after
    /\ s = utf8_string before ++ Py.strip s ++ utf8_string after
    /\ (forall cp rest, In cp unicode_whitespace -> Py.strip s <> utf8 cp ++ rest)
    /\ (forall cp front, In cp unicode_whitespace -> Py.strip s <> front ++ utf8 cp).
Proof.
  destruct (strip_split s) as (b & a & Hs & Hb & Ha & Hstart & Hend).
  apply all_space_whitespace in Hb as (before & Hbw & ->).
  apply all_space_whitespace in Ha as (after & Haw & ->).
  exists before, after. split; [exact Hbw|]. split; [exact Haw|]. split; [exact Hs|].
  split.
  - intros cp rest Hin E. unfold starts_with_space in Hstart.
    destruct (space_width_utf8 cp rest Hin) as [Hw Hsp].
    rewrite E, Hw in Hstart.
    destruct (utf8 cp) as [|x u]; [discriminate Hsp|]. simpl in Hstart. discriminate Hstart.
  - intros cp front Hin E.
    rewrite E, (ends_with_space_character front _ (proj2 (space_width_utf8 cp EmptyString Hin)))
      in Hend.
    discriminate Hend.
Qed.

(** ** Further properties of the autosave endpoint *)

(** X10. Autosave is idempotent on the database: serving the same request a
    second time leaves the database as the first time left it. *)
Theorem autosave_is_idempotent `{Runtime} (assignment_id : Z) (request : HttpRequest)
    (db : DB) :
  let once := snd (assignment_autosave_view assignment_id request db) in
  snd (assignment_autosave_view assignment_id request once) = once.
Proof.
  intros once. subst once.
  destruct (autosave_effect assignment_id request db)
    as [Hsame | (a & Ha & Hns & Hng & Hfirst)].
  - rewrite Hsame. exact Hsame.
  - rewrite Hfirst.
    match goal with
    | |- snd (_ _ _ ?db1) = _ =>
        destruct (autosave_effect assignment_id request db1)
          as [Hsame | (a1 & Ha1 & _ & _ & Hsecond)]
    end; [exact Hsame|].
    rewrite Hsecond. simpl in Ha1 |- *.
    rewrite lookup_insert_eq in Ha1. injection Ha1 as <-.
    unfold with_assignments. simpl. f_equal.
    rewrite insert_insert_eq. f_equal.
    destruct (negb (Py.strip _ =? EmptyString)) eqn:Hd; simpl; [|destruct a; reflexivity].
    destruct (a_status a) eqn:Hst; simpl; reflexivity.
Qed.

(** X11. Whatever the request, autosave writes no submission and changes no
    assignment but the one it is called on; of that one it keeps the student
    and the material. *)
Theorem autosave_touches_one_assignment `{Runtime} (assignment_id : Z)
    (request : HttpRequest) (db : DB) :
  let db' := snd (assignment_autosave_view assignment_id request db) in
  submissions db' = submissions db
  /\ (forall k : Z, k <> assignment_id -> assignments db' !! k = assignments db !! k)
  /\ match assignments db !! assignment_id with
     | None => assignments db' !! assignment_id = None
     | Some a =>
         exists a' : Assignment,
           assignments db' !! assignment_id = Some a'
           /\ a_student a' = a_student a /\ a_material a' = a_material a
     end.
Proof.
  intros db'. subst db'.
  destruct (autosave_effect assignment_id request db)
    as [-> | (a & Ha & _ & _ & ->)].
  - repeat split. destruct (assignments db !! assignment_id) as [a|]; [|reflexivity].
    exists a. repeat split.
  - simpl. split; [reflexivity|]. split.
    + intros k Hk. rewrite lookup_insert_ne by congruence. reflexivity.
    + rewrite Ha, lookup_insert_eq. eexists. split; [reflexivity|]. split; reflexivity.
Qed.

(** X12. An autosave request without the field response, or whose response
    is all whitespace, erases the stored draft of an assignment that is not
    locked and leaves its status as it is, ASSIGNED included. *)
Theorem autosave_blank_erases_draft `{Runtime} (request : HttpRequest)
    (assignment_id : Z) (db : DB) (u : User) (a : Assignment) :
  method request = "POST" ->
  user request = Some u ->
  assignments db !! assignment_id = Some a ->
  a_student a = u_id u ->
  a_status a <> SUBMITTED ->
  a_status a <> GRADED ->
  (forall r, querydict_get "response" (POST request) = Some r -> all_space r = true) ->
  snd (assignment_autosave_view assignment_id request db)
  = with_assignments
      (<[assignment_id := set_draft_response EmptyString a]> (assignments db)) db.
Proof.
  intros Hm Hu Ha Hs Hns Hng Hblank.
  rewrite (autosave_run request assignment_id db u a Hm Hu Ha Hs Hns Hng).
  cbv zeta. simpl.
  assert (Py.strip (default EmptyString (querydict_get "response" (POST request)))
          = EmptyString) as ->.
  { destruct (querydict_get "response" (POST request)) as [r|]; simpl.
    - apply strip_all_space. apply Hblank. reflexivity.
    - reflexivity. }
  simpl. destruct a; reflexivity.
Qed.

(** X13. The draft a successful autosave stores is the response without
    the whitespace around it, whitespace being the characters of Python's
    [str.isspace] (the ASCII ones, NO-BREAK SPACE, the Unicode spaces): the
    response is the stored draft between two runs of such characters, and
    the stored draft neither starts nor ends with one. *)
Theorem autosave_draft_is_stripped `{Runtime} (request : HttpRequest)
    (assignment_id : Z) (db : DB) (u : User) (a : Assignment) (r : string) :
  method request = "POST" ->
  user request = Some u ->
  assignments db !! assignment_id = Some a ->
  a_student a = u_id u ->
  a_status a <> SUBMITTED ->
  a_status a <> GRADED ->
  querydict_get "response" (POST request) = Some r ->
  exists (a' : Assignment) (before after : list N),
    assignments (snd (assignment_autosave_view assignment_id request db))
      !! assignment_id = Some a'
    /\ whitespace before /\ whitespace after
    /\ r = utf8_string before ++ a_draft_response a' ++ utf8_string after
    /\ (forall cp rest, In cp unicode_whitespace ->
                        a_draft_response a' <> utf8 cp ++ rest)
    /\ (forall cp front, In cp unicode_whitespace ->
                         a_draft_response a' <> front ++ utf8 cp).
Proof.
  intros Hm Hu Ha Hs Hns Hng Hr.
  rewrite (autosave_run request assignment_id db u a Hm Hu Ha Hs Hns Hng).
  cbv zeta. simpl. rewrite lookup_insert_eq, Hr. simpl.
  destruct (strip_unicode r) as (before & after & Hb & Haf & Hsplit & Hstart & Hend).
  eexists _, before, after. split; [reflexivity|]. simpl.
  split; [exact Hb|]. split; [exact Haf|]. split; [exact Hsplit|].
  split; [exact Hstart | exact Hend].
Qed.

(** X14. Autosave checks that the assignment exists before it checks whose
    it is: for an assignment that does not exist it raises Http404, for the
    assignment of another student it answers 403 with the error forbidden,
    locked or not; in both cases nothing is written. *)
Theorem autosave_of_foreign_assignment `{Runtime} (request : HttpRequest)
    (assignment_id : Z) (db : DB) (u : User) :
  method request = "POST" ->
  user request = Some u ->
  (forall a, assignments db !! assignment_id = Some a -> a_student a <> u_id u) ->
  assignment_autosave_view assignment_id request db
  = match assignments db !! assignment_id with
    | None => (Raise Http404, db)
    | Some _ =>
        (Ok (JsonResponse [("ok", PyBool false); ("error", PyStr "forbidden")] 403), db)
    end.
Proof.
  intros Hm Hu Hforeign.
  unfold assignment_autosave_view.
  destruct (decorators_pass (Some "kirjaudu") (assignment_autosave assignment_id)
              request u Hm Hu) as [_ ->].
  unfold assignment_autosave, get_object_or_404. unfold_monad.
  destruct (assignments db !! assignment_id) as [a|]; [|reflexivity].
  specialize (Hforeign a eq_refl). apply Z.eqb_neq in Hforeign.
  rewrite Hu, Hforeign. reflexivity.
Qed.

(** ** Further properties of the generation endpoint *)

(** X15. The generation endpoint lets no exception out and never writes in
    the database: every request is answered, with a 405, a redirect to the
    login page, or a JSON body with status 200, 400, 403 or 500. *)
Theorem generation_always_answers `{Runtime} (request : HttpRequest) (db : DB) :
  exists response : HttpResponse,
    generate_game_ajax_view request db = (Ok response, db)
    /\ match response with
       | JsonResponse _ status =>
           status = 200%Z \/ status = 400%Z \/ status = 403%Z \/ status = 500%Z
       | _ => True
       end.
Proof.
  unfold generate_game_ajax_view, require_POST, login_required, generate_game.
  unfold_monad.
  destruct (method request =? "POST"); [|eexists; split; [reflexivity | exact I]].
  destruct (user request) as [u|]; [|eexists; split; [reflexivity | exact I]].
  destruct (negb _); [eexists; split; [reflexivity | simpl; tauto]|].
  destruct (generate request) as [response|e] eqn:Hgen;
    [|eexists; split; [reflexivity | simpl; tauto]].
  exists response. split; [reflexivity|].
  unfold generate in Hgen. unfold_monad.
  destruct (json_loads (body request)) as [data|]; [|discriminate].
  destruct (Py.get data "topic" PyNone) as [topic|]; [|discriminate].
  destruct (Py.get data "game_type" PyNone) as [game_type|]; [|discriminate].
  destruct (Py.get data "difficulty" (PyStr "medium")) as [difficulty|]; [|discriminate].
  destruct (negb (Py.truthy topic) || negb (Py.truthy game_type)).
  - injection Hgen as <-. tauto.
  - destruct (generate_game_content topic game_type difficulty); [|discriminate].
    destruct (generate_game_metadata topic game_type); [|discriminate].
    injection Hgen as <-. left. reflexivity.
Qed.

(** X16. A user whose role is not TEACHER, or who has no role, is answered
    403 by the generation endpoint, whatever the body. *)
Theorem generation_is_for_teachers `{Runtime} (request : HttpRequest) (db : DB)
    (u : User) :
  method request = "POST" ->
  user request = Some u ->
  role u <> Some "TEACHER" ->
  generate_game_ajax_view request db
  = (Ok (JsonResponse [("error", PyStr "Vain opettajat voivat luoda pelejä.")] 403), db).
Proof.
  intros Hm Hu Hr.
  unfold generate_game_ajax_view.
  destruct (decorators_pass None generate_game request u Hm Hu) as [-> _].
  unfold generate_game. rewrite Hu.
  destruct (role u) as [r|]; [|reflexivity].
  destruct (String.eqb_spec r "TEACHER") as [->|Hne]; [contradiction | reflexivity].
Qed.

(** X17. A teacher's request whose JSON object lacks the topic or the game
    type, or has an empty or null one, is answered 400; the content
    generator's answer plays no part. *)
Theorem generation_needs_topic_and_game_type `{Runtime} (request : HttpRequest)
    (db : DB) (u : User) (d : list (string * pyval)) :
  method request = "POST" ->
  user request = Some u ->
  role u = Some "TEACHER" ->
  json_loads (body request) = Ok (PyDict d) ->
  Py.truthy (Py.dict_get "topic" d PyNone) = false
  \/ Py.truthy (Py.dict_get "game_type" d PyNone) = false ->
  generate_game_ajax_view request db
  = (Ok (JsonResponse [("error", PyStr "Aihe ja pelityyppi ovat pakollisia.")] 400), db).
Proof.
  intros Hm Hu Hr Hj Hmissing.
  unfold generate_game_ajax_view.
  destruct (decorators_pass None generate_game request u Hm Hu) as [-> _].
  unfold generate_game, generate. rewrite Hu, Hr, Hj. simpl.
  destruct Hmissing as [-> | ->]; simpl; [|rewrite orb_true_r]; reflexivity.
Qed.

(** X18. A game type other than the strings quiz, hangman and memory makes
    [generate_game_content] raise ValueError, and the endpoint answers 500
    (not 400) with the text "Tuntematon pelityyppi". *)
Theorem generation_of_unknown_game_type `{Runtime} (request : HttpRequest)
    (db : DB) (u : User) (d : list (string * pyval)) :
  method request = "POST" ->
  user request = Some u ->
  role u = Some "TEACHER" ->
  json_loads (body request) = Ok (PyDict d) ->
  Py.truthy (Py.dict_get "topic" d PyNone) = true ->
  Py.truthy (Py.dict_get "game_type" d PyNone) = true ->
  (forall s, In s ["quiz"; "hangman"; "memory"] ->
             Py.dict_get "game_type" d PyNone <> PyStr s) ->
  generate_game_ajax_view request db
  = (Ok (JsonResponse [("error", PyStr "Tuntematon pelityyppi")] 500), db).
Proof.
  intros Hm Hu Hr Hj Ht Hg Hunknown.
  unfold generate_game_ajax_view.
  destruct (decorators_pass None generate_game request u Hm Hu) as [-> _].
  unfold generate_game, generate. rewrite Hu, Hr, Hj. simpl.
  rewrite Ht, Hg. simpl.
  assert (forall s, In s ["quiz"; "hangman"; "memory"] ->
                    Py.eq_str (Py.dict_get "game_type" d PyNone) s = false) as Hno.
  { intros s Hin. specialize (Hunknown s Hin).
    destruct (Py.dict_get "game_type" d PyNone); simpl; try reflexivity.
    apply String.eqb_neq. congruence. }
  unfold generate_game_content.
  rewrite (Hno "quiz"), (Hno "hangman"), (Hno "memory") by (simpl; auto).
  reflexivity.
Qed.

Lemma eq_str_true (v : pyval) (s : string) : Py.eq_str v s = true -> v = PyStr s.
Proof.
  destruct v; simpl; try discriminate. intros E. apply String.eqb_eq in E. congruence.
Qed.

Lemma default_subject_is_valid : In "Ympäristöoppi" VALID_SUBJECTS.
Proof. unfold VALID_SUBJECTS. simpl. auto 20. Qed.

(** X19. Whatever the model answers, the metadata [generate_game_metadata]
    returns is an object with a title and a subject, and the subject is one
    of the school subjects of [VALID_SUBJECTS]. *)
Theorem metadata_subject_is_valid `{Runtime} (game_name topic metadata : pyval) :
  generate_game_metadata game_name topic = Ok metadata ->
  exists (title : pyval) (subject : string),
    metadata = PyDict [("title", title); ("subject", PyStr subject)]
    /\ In subject VALID_SUBJECTS.
Proof.
  unfold generate_game_metadata.
  destruct (ask_metadata game_name topic) as [asked|e] eqn:Hask.
  - intros E. injection E as <-.
    unfold ask_metadata in Hask. unfold_monad.
    destruct (chat_completion _) as [content|]; [|discriminate].
    destruct (loads_content content) as [result|]; [|discriminate].
    destruct (Py.get result "subject" _) as [returned|]; [|discriminate].
    destruct (existsb (Py.eq_str returned) VALID_SUBJECTS) eqn:Hvalid;
      destruct (default_title game_name topic) as [fallback|]; try discriminate;
      destruct (Py.get result "title" _) as [title|]; try discriminate;
      injection Hask as <-.
    + apply existsb_exists in Hvalid as (s & Hin & Hs).
      apply eq_str_true in Hs. subst returned.
      exists title, s. split; [reflexivity | exact Hin].
    + exists title, "Ympäristöoppi". split; [reflexivity | apply default_subject_is_valid].
  - unfold_monad. destruct (default_title game_name topic) as [fallback|]; [|discriminate].
    intros E. injection E as <-.
    exists (PyStr fallback), "Ympäristöoppi".
    split; [reflexivity | apply default_subject_is_valid].
Qed.

(** When the model gives no JSON object for the metadata, the fallback is
    returned. *)
Lemma metadata_fallback `{Runtime} (g t : string) :
  (forall content d,
      chat_completion (MetadataPrompt (PyStr g) (PyStr t)) = Ok content ->
      loads_content content <> Ok (PyDict d)) ->
  generate_game_metadata (PyStr g) (PyStr t)
  = Ok (PyDict [("title", PyStr (capitalize g ++ ": " ++ Py.take_chars 40 t));
                ("subject", PyStr "Ympäristöoppi")]).
Proof.
  intros Hno. unfold generate_game_metadata, ask_metadata. unfold_monad.
  destruct (chat_completion _) as [content|]; [|reflexivity].
  specialize (Hno content).
  destruct (loads_content content) as [[| | | | |d]|]; try reflexivity.
  destruct (Hno d eq_refl eq_refl).
Qed.

(** X20. The endpoint hands the topic to [generate_game_metadata] as the
    name of the game and the game type as its topic.  So when the model
    gives no JSON object for the metadata, the title in the answer is the
    capitalized topic, a colon and the game type, and the subject is
    "Ympäristöoppi"; the payload is still answered as a success. *)
Theorem generation_metadata_fallback `{Runtime} (request : HttpRequest)
    (db : DB) (u : User) (d : list (string * pyval)) (t gt : string)
    (payload : pyval) :
  method request = "POST" ->
  user request = Some u ->
  role u = Some "TEACHER" ->
  json_loads (body request) = Ok (PyDict d) ->
  Py.dict_get "topic" d PyNone = PyStr t ->
  t <> EmptyString ->
  Py.dict_get "game_type" d PyNone = PyStr gt ->
  generate_game_content (PyStr t) (PyStr gt)
    (Py.dict_get "difficulty" d (PyStr "medium")) = Ok payload ->
  (forall content d',
      chat_completion (MetadataPrompt (PyStr t) (PyStr gt)) = Ok content ->
      loads_content content <> Ok (PyDict d')) ->
  generate_game_ajax_view request db
  = (Ok (JsonResponse200
           [("success", PyBool true);
            ("game_data", payload);
            ("metadata",
             PyDict [("title", PyStr (capitalize t ++ ": " ++ gt));
                     ("subject", PyStr "Ympäristöoppi")])]), db).
Proof.
  intros Hm Hu Hr Hj Ht Hne Hg Hc Hno.
  unfold generate_game_ajax_view.
  destruct (decorators_pass None generate_game request u Hm Hu) as [-> _].
  unfold generate_game, generate. rewrite Hu, Hr, Hj. simpl.
  rewrite Ht, Hg. simpl.
  apply String.eqb_neq in Hne. rewrite Hne. simpl.
  assert (Py.take_chars 40 gt = gt /\ (gt =? EmptyString) = false) as [Hsub Hgt].
  { unfold generate_game_content in Hc. simpl in Hc.
    destruct (String.eqb_spec gt "quiz") as [->|_]; [split; reflexivity|].
    destruct (String.eqb_spec gt "hangman") as [->|_]; [split; reflexivity|].
    destruct (String.eqb_spec gt "memory") as [->|_]; [split; reflexivity|].
    discriminate Hc. }
  rewrite Hgt. simpl. rewrite Hc. simpl.
  rewrite (metadata_fallback t gt Hno), Hsub. reflexivity.
Qed.

(** X21. The difficulty only matters for a quiz: two requests of a teacher
    for a hangman or a memory game with the same topic are answered alike,
    whatever difficulty each carries, be it one that cannot be a dictionary
    key. *)
Theorem difficulty_only_matters_for_quiz `{Runtime} (request1 request2 : HttpRequest)
    (db : DB) (u : User) (d1 d2 : list (string * pyval)) (game_type : string) :
  method request1 = "POST" -> method request2 = "POST" ->
  user request1 = Some u -> user request2 = Some u ->
  json_loads (body request1) = Ok (PyDict d1) ->
  json_loads (body request2) = Ok (PyDict d2) ->
  Py.dict_get "topic" d1 PyNone = Py.dict_get "topic" d2 PyNone ->
  Py.dict_get "game_type" d1 PyNone = PyStr game_type ->
  Py.dict_get "game_type" d2 PyNone = PyStr game_type ->
  game_type = "hangman" \/ game_type = "memory" ->
  generate_game_ajax_view request1 db = generate_game_ajax_view request2 db.
Proof.
  intros Hm1 Hm2 Hu1 Hu2 Hj1 Hj2 Ht Hg1 Hg2 Hgame.
  unfold generate_game_ajax_view.
  destruct (decorators_pass None generate_game request1 u Hm1 Hu1) as [-> _].
  destruct (decorators_pass None generate_game request2 u Hm2 Hu2) as [-> _].
  unfold generate_game, generate. rewrite Hu1, Hu2, Hj1, Hj2. simpl.
  rewrite Ht, Hg1, Hg2.
  destruct Hgame as [-> | ->]; reflexivity.
Qed.

(** ** The speech endpoint: removing the images *)

Example sample_remove_images :
  remove_images "Lue teksti. ![kuva](a.png) Vastaa sitten. ![auki](b.png"
  = "Lue teksti. Vastaa sitten. ![auki](b.png".
Proof. vm_compute. reflexivity. Qed.

(** Removing a match may bring the two sides together into a new match,
    which [re.sub] does not look at again. *)
Example sample_remove_images_once :
  remove_images "!![a](b)[c](d)" = "![c](d)".
Proof. vm_compute. reflexivity. Qed.

Lemma up_to_found (stop : ascii) (a rest : string) :
  has_char stop a = false ->
  up_to stop (a ++ String stop rest) = Some (S (String.length a), rest).
Proof.
  induction a as [|c a IH]; intros Hno.
  - rewrite append_EmptyString. simpl. rewrite Ascii.eqb_refl. reflexivity.
  - rewrite append_String. simpl in *. apply orb_false_elim in Hno as [Hc Hno].
    rewrite Hc, (IH Hno). reflexivity.
Qed.

Lemma starts_with_space_false (s : string) :
  starts_with_space s = false <-> Py.space_width s = O.
Proof.
  unfold starts_with_space. destruct (Py.space_width s); simpl; split; congruence.
Qed.

Lemma leading_space_all (w rest : string) :
  all_space w = true ->
  starts_with_space rest = false ->
  leading_space (w ++ rest) = String.length w.
Proof.
  intros Hall Hrest. apply starts_with_space_false in Hrest.
  unfold leading_space, Py.lstrip.
  rewrite (lstrip_app_spaces 0 w rest Hall Hrest), length_append. lia.
Qed.

Ltac decide_bytes :=
  repeat match goal with
         | |- context [Nat.eqb ?a ?b] => destruct (Nat.eqb_spec a b)
         | |- context [Nat.leb ?a ?b] => destruct (Nat.leb_spec a b)
         end;
  simpl; first [reflexivity | lia].

Lemma isspace_2_continues (b0 b1 : nat) :
  (b1 < 128)%nat -> Py.isspace_2 b0 b1 = false.
Proof. intros Hb. unfold Py.isspace_2. decide_bytes. Qed.

Lemma isspace_3_continues (b0 b1 b2 : nat) :
  (b1 < 128)%nat \/ (b2 < 128)%nat -> Py.isspace_3 b0 b1 b2 = false.
Proof. intros Hb. unfold Py.isspace_3. decide_bytes. Qed.

Lemma isspace_3_starts (b0 b1 b2 : nat) :
  (b0 < 128)%nat -> Py.isspace_3 b0 b1 b2 = false.
Proof. intros Hb. unfold Py.isspace_3. decide_bytes. Qed.

Lemma isspace_2_starts (b0 b1 : nat) :
  (b0 < 128)%nat -> Py.isspace_2 b0 b1 = false.
Proof. intros Hb. unfold Py.isspace_2. decide_bytes. Qed.

(** An ASCII character is no part of another character: a text that does
    not start with whitespace does not start with whitespace either when an
    ASCII character other than whitespace follows it. *)
Lemma space_width_before_ascii (t : string) (x : ascii) (r : string) :
  (nat_of_ascii x < 128)%nat ->
  Py.isspace_ascii x = false ->
  Py.space_width t = O ->
  Py.space_width (t ++ String x r) = O.
Proof.
  intros Hx Hns Ht.
  destruct t as [|a [|b [|c t']]];
    rewrite ?append_String, ?append_EmptyString; unfold Py.space_width in *.
  - rewrite Hns. destruct r as [|d [|e r']]; [reflexivity| |].
    + rewrite (isspace_2_starts _ _ Hx). reflexivity.
    + rewrite (isspace_2_starts _ _ Hx), (isspace_3_starts _ _ _ Hx). reflexivity.
  - destruct (Py.isspace_ascii a); [discriminate Ht|].
    rewrite (isspace_2_continues _ _ Hx).
    destruct r as [|e r']; [reflexivity|].
    rewrite (isspace_3_continues _ _ _ (or_introl Hx)). reflexivity.
  - destruct (Py.isspace_ascii a); [discriminate Ht|].
    destruct (Py.isspace_2 _ _); [discriminate Ht|].
    rewrite (isspace_3_continues _ _ _ (or_intror Hx)). reflexivity.
  - exact Ht.
Qed.

(** The pattern matches a well formed image, whole, with its whitespace. *)
Lemma image_length_image (i : Image) (rest : string) :
  well_formed i = true ->
  starts_with_space rest = false ->
  image_length (image_text i ++ rest) = Some (String.length (image_text i)).
Proof.
  unfold well_formed, image_text. intros Hwf Hrest.
  apply andb_prop in Hwf as [Hwf Hsp]. apply andb_prop in Hwf as [Halt Haddr].
  apply negb_true_iff in Halt, Haddr.
  change ("![" ++ alt i ++ "](" ++ address i ++ ")" ++ space_after i)%string
    with (String "!" (String "[" (alt i ++ String "]" (String "("
            (address i ++ String ")" (space_after i)))))).
  rewrite !append_String. unfold image_length.
  rewrite append_assoc, append_String.
  rewrite (up_to_found "]" (alt i) _ Halt).
  rewrite append_String, append_assoc, append_String.
  rewrite (up_to_found ")" (address i) _ Haddr).
  rewrite (leading_space_all _ _ Hsp Hrest).
  f_equal. simpl. rewrite !length_append. simpl. rewrite length_append. simpl. lia.
Qed.

Lemma remove_images_from_skip (p rest : string) :
  remove_images_from (String.length p) (p ++ rest) = remove_images_from 0 rest.
Proof.
  induction p as [|c p IH]; [reflexivity|].
  rewrite append_String. simpl. exact IH.
Qed.

Lemma image_length_plain (c : ascii) (r : string) :
  Ascii.eqb c "!" = false -> image_length (String c r) = None.
Proof.
  intros Hc. unfold image_length.
  destruct (Ascii.eqb_spec c "!") as [->|Hne]; [discriminate|].
  destruct c as [[] [] [] [] [] [] [] []]; try reflexivity. contradiction.
Qed.

Lemma remove_images_plain (t rest : string) :
  plain t = true ->
  remove_images_from 0 (t ++ rest) = t ++ remove_images_from 0 rest.
Proof.
  unfold plain. induction t as [|c t IH]; intros Hp; [reflexivity|].
  rewrite !append_String. simpl in Hp. apply negb_true_iff in Hp.
  apply orb_false_elim in Hp as [Hc Hp].
  change (remove_images_from 0 (String c (t ++ rest)))
    with (match image_length (String c (t ++ rest)) with
          | Some (S n) => remove_images_from n (t ++ rest)
          | _ => String c (remove_images_from 0 (t ++ rest))
          end).
  rewrite (image_length_plain c _ Hc). f_equal. apply IH.
  apply negb_true_iff. exact Hp.
Qed.

Lemma remove_images_image (i : Image) (rest : string) :
  well_formed i = true ->
  starts_with_space rest = false ->
  remove_images_from 0 (image_text i ++ rest) = remove_images_from 0 rest.
Proof.
  intros Hwf Hrest.
  pose proof (image_length_image i rest Hwf Hrest) as Hlen.
  pose proof (remove_images_from_skip (image_text i) rest) as Hskip.
  assert (exists p, image_text i = String "!" p) as [p Hi] by (eexists; reflexivity).
  rewrite Hi in *. rewrite append_String in *.
  change (remove_images_from 0 (String "!" (p ++ rest)))
    with (match image_length (String "!" (p ++ rest)) with
          | Some (S n) => remove_images_from n (p ++ rest)
          | _ => String "!" (remove_images_from 0 (p ++ rest))
          end).
  rewrite Hlen. simpl String.length. simpl in Hskip. exact Hskip.
Qed.

(** The cleaning on a text with images. *)
Lemma remove_images_with_images (before : string) (parts : list (Image * string)) :
  plain before = true ->
  well_separated parts = true ->
  remove_images (with_images before parts) = before ++ concat_strings (map snd parts).
Proof.
  unfold remove_images, with_images. intros Hb Hparts.
  rewrite (remove_images_plain before _ Hb). f_equal.
  induction parts as [|[i t] parts IH]; [reflexivity|].
  simpl in Hparts. apply andb_prop in Hparts as [Hp Hparts].
  apply andb_prop in Hp as [Hp Hstart]. apply andb_prop in Hp as [Hwf Hplain].
  apply negb_true_iff in Hstart.
  cbn [map concat_strings fst snd]. rewrite append_assoc.
  rewrite remove_images_image; [|exact Hwf|].
  - rewrite (remove_images_plain t _ Hplain). f_equal. apply IH. exact Hparts.
  - apply starts_with_space_false. apply starts_with_space_false in Hstart.
    destruct parts as [|[i' t'] parts'].
    + cbn [map concat_strings]. rewrite append_nil_r. exact Hstart.
    + cbn [map concat_strings fst snd]. unfold image_text.
      change ("![" ++ alt i' ++ "](" ++ address i' ++ ")" ++ space_after i')%string
        with (String "!" (String "[" (alt i' ++ "](" ++ address i' ++ ")"
                                        ++ space_after i'))).
      rewrite append_String.
      apply space_width_before_ascii; [|reflexivity | exact Hstart].
      change (33 < 128)%nat. lia.
Qed.

(** X22. The cleaning of the speech endpoint removes the images and the
    whitespace after them, and nothing else: of a text made of plain texts
    (without exclamation mark) and well formed Markdown images it keeps the
    plain texts, in order. *)
Theorem remove_images_keeps_the_text (before : string) (parts : list (Image * string)) :
  plain before = true ->
  well_separated parts = true ->
  remove_images (with_images before parts) = before ++ concat_strings (map snd parts).
Proof.
  apply remove_images_with_images.
Qed.

(** ** The speech endpoint *)

Lemma media_decorators_pass `{Media} (view : MediaView) (request : HttpRequest)
    (u : User) :
  method request = "POST" ->
  user request = Some u ->
  login_required_media "kirjaudu" (require_POST_media view) request = view request.
Proof.
  intros Hm Hu. unfold login_required_media, require_POST_media.
  rewrite Hu, Hm. reflexivity.
Qed.

(** X23. When the content of the material is made of Markdown images only,
    nothing is left to read after the cleaning: the speech endpoint answers
    400 and the database is as it was. *)
Theorem speech_of_images_only `{Media} (contents : Z -> option string)
    (request : HttpRequest) (assignment_id : Z) (db : DB) (u : User)
    (a : Assignment) (m : Material) (i : Image) (images : list Image) :
  method request = "POST" ->
  user request = Some u ->
  assignments db !! assignment_id = Some a ->
  a_student a = u_id u ->
  a_material a = Some m ->
  forallb well_formed (i :: images) = true ->
  contents assignment_id
  = Some (with_images EmptyString (map (fun x => (x, EmptyString)) (i :: images))) ->
  assignment_tts_view contents assignment_id request db
  = (Ok (Plain (JsonResponse
                  [("Virhe", PyStr "Ei luettavaa tekstiä löytynyt siivouksen jälkeen.")]
                  400)), db).
Proof.
  intros Hm Hu Ha Hs Hmat Hwf Hc.
  unfold assignment_tts_view. rewrite (media_decorators_pass _ request u Hm Hu).
  unfold assignment_tts, get_object_or_404. unfold_monad.
  rewrite Ha, Hu, Hs, Z.eqb_refl, Hmat, Hc. simpl negb. cbv iota.
  assert (well_separated (map (fun x => (x, EmptyString)) (i :: images)) = true) as Hsep.
  { unfold well_separated. clear - Hwf. induction (i :: images) as [|x l IH]; [reflexivity|].
    simpl in *. apply andb_prop in Hwf as [Hx Hl]. rewrite Hx, (IH Hl). reflexivity. }
  assert (concat_strings (map snd (map (fun x : Image => (x, EmptyString)) (i :: images)))
          = EmptyString) as Htexts.
  { clear. induction (i :: images) as [|x l IH]; [reflexivity|]. simpl. exact IH. }
  cbv zeta. unfold default. cbn [from_option id].
  rewrite (remove_images_with_images EmptyString _ eq_refl Hsep), Htexts.
  reflexivity.
Qed.

(** X24. The speech endpoint gives audio to the owner of the assignment
    only: an audio answer is the non-empty speech of the cleaned content of
    the material, as audio/mpeg, and the database is as it was. *)
Theorem speech_only_for_the_owner `{Media} (contents : Z -> option string)
    (request : HttpRequest) (assignment_id : Z) (db db' : DB)
    (audio type : string) :
  assignment_tts_view contents assignment_id request db
  = (Ok (HttpResponseOf audio type), db') ->
  db' = db /\ type = "audio/mpeg" /\ audio <> EmptyString
  /\ exists (u : User) (a : Assignment) (raw_text : string),
       user request = Some u
       /\ assignments db !! assignment_id = Some a
       /\ a_student a = u_id u
       /\ contents assignment_id = Some raw_text
       /\ generate_speech (remove_images raw_text) = Ok (Some audio).
Proof.
  unfold assignment_tts_view, login_required_media, require_POST_media.
  destruct (user request) as [u|] eqn:Hu; [|discriminate].
  destruct (method request =? "POST"); [|discriminate].
  unfold assignment_tts, get_object_or_404. unfold_monad. rewrite Hu.
  destruct (assignments db !! assignment_id) as [a|] eqn:Ha; [|discriminate].
  destruct (Z.eqb_spec (a_student a) (u_id u)) as [Hs|Hs]; [|discriminate].
  simpl negb. cbv iota.
  destruct (a_material a) as [m|]; [|discriminate].
  destruct (contents assignment_id) as [raw_text|] eqn:Hc; simpl; [|discriminate].
  destruct (raw_text =? EmptyString); [discriminate|].
  destruct (Py.strip (remove_images raw_text) =? EmptyString); [discriminate|].
  destruct (generate_speech (remove_images raw_text)) as [[[|c r]|]|e] eqn:Hsp;
    try discriminate.
  intros E. injection E as <- <- <-.
  repeat split; [discriminate|].
  exists u, a, raw_text. repeat split; assumption.
Qed.

(** X25. For an assignment without a material the speech endpoint does not
    answer: reading the content raises AttributeError, which leaves the
    view.  (The completion endpoint answers 400 in this case.) *)
Theorem speech_without_material_raises `{Media} (contents : Z -> option string)
    (request : HttpRequest) (assignment_id : Z) (db : DB) (u : User)
    (a : Assignment) :
  method request = "POST" ->
  user request = Some u ->
  assignments db !! assignment_id = Some a ->
  a_student a = u_id u ->
  a_material a = None ->
  assignment_tts_view contents assignment_id request db
  = (Raise (AttributeError "'NoneType' object has no attribute 'content'"), db).
Proof.
  intros Hm Hu Ha Hs Hmat.
  unfold assignment_tts_view. rewrite (media_decorators_pass _ request u Hm Hu).
  unfold assignment_tts, get_object_or_404. unfold_monad.
  rewrite Ha, Hu, Hs, Z.eqb_refl, Hmat. reflexivity.
Qed.

(** ** The image endpoint *)

(** X26. The image endpoint stores a file only when it answers 201: then
    the storage has one file more, the non-empty image under the name the
    storage gave for ai_images/<uuid>.png, and the answer carries the URL of
    that name.  With any other outcome the storage is as it was. *)
Theorem image_is_stored_only_with_201 `{Runtime} `{Media} (request : TypedRequest)
    (storage storage' : Storage) (r : result HttpResponse) :
  generate_image_view request storage = (r, storage') ->
  storage' = storage /\ (forall data, r <> Ok (JsonResponse data 201))
  \/ exists image : string,
       let name := get_available_name ("ai_images/" ++ uuid4_hex ++ ".png")
                     (map fst storage) in
       r = Ok (JsonResponse [("image_url", PyStr (storage_url name))] 201)
       /\ storage' = (storage ++ [(name, image)])%list
       /\ image <> EmptyString.
Proof.
  unfold generate_image_view, generate_image, storage_save.
  destruct (method (http request) =? "POST");
    [|intros E; injection E as <- <-; left; split; [reflexivity | discriminate]].
  destruct (and_then _ _) as [prompt|e];
    [|intros E; injection E as <- <-; left; split; [reflexivity | discriminate]].
  destruct (prompt =? EmptyString);
    [intros E; injection E as <- <-; left; split; [reflexivity | discriminate]|].
  destruct (generate_image_bytes prompt) as [[[|c i]|]|e];
    try (intros E; injection E as <- <-; left; split; [reflexivity | discriminate]).
  intros E. injection E as <- <-. right. exists (String c i).
  repeat split. discriminate.
Qed.

(** X27. With a JSON media type, a body that does not decode as JSON is
    taken for an empty object: the image endpoint answers 400 with the
    error of the empty prompt, not an error of the body, and stores
    nothing.  The same holds for an empty body. *)
Theorem image_of_undecodable_body `{Runtime} `{Media} (request : TypedRequest)
    (storage : Storage) (text : string) :
  method (http request) = "POST" ->
  contains "application/json" (content_type request) = true ->
  (if body (http request) =? EmptyString then Ok EmptyString
   else decode_utf8 (body (http request))) = Ok text ->
  (text = EmptyString /\ json_loads "{}" = Ok (PyDict [])
   \/ text <> EmptyString /\ exists msg, json_loads text = Raise (JSONDecodeError msg)) ->
  generate_image_view request storage
  = (Ok (JsonResponse [("error", PyStr "Tyhjä prompt")] 400), storage).
Proof.
  intros Hm Hct Hdec Hbad.
  unfold generate_image_view, generate_image, read_payload. rewrite Hm, Hct. simpl.
  assert ((content_type request =? EmptyString) = false) as ->.
  { destruct (content_type request); [discriminate Hct | reflexivity]. }
  simpl. rewrite Hdec. simpl.
  destruct Hbad as [[-> Hj] | [Hne [msg Hj]]].
  - simpl. rewrite Hj. reflexivity.
  - apply String.eqb_neq in Hne. rewrite Hne, Hj. reflexivity.
Qed.

(** X28. A form request with a prompt is served whoever sends it, logged in
    or not: the prompt is stripped and handed to the image generator; a
    non-empty image is stored under ai_images/ and answered with 201 and its
    URL, an exception of the generator is answered with 502 and its text,
    an empty result with 502, and then nothing is stored. *)
Theorem image_from_form `{Runtime} `{Media} (request : TypedRequest)
    (storage : Storage) (prompt : string) :
  method (http request) = "POST" ->
  contains "application/json" (content_type request) = false ->
  querydict_get "prompt" (POST (http request)) = Some prompt ->
  Py.strip prompt <> EmptyString ->
  generate_image_view request storage
  = match generate_image_bytes (Py.strip prompt) with
    | Raise e => (Ok (JsonResponse [("error", PyStr (exn_str e))] 502), storage)
    | Ok (Some (String c r)) =>
        let name := get_available_name ("ai_images/" ++ uuid4_hex ++ ".png")
                      (map fst storage) in
        (Ok (JsonResponse [("image_url", PyStr (storage_url name))] 201),
         (storage ++ [(name, String c r)])%list)
    | Ok _ =>
        (Ok (JsonResponse [("error", PyStr "Generointi palautti tyhjän tuloksen.")] 502),
         storage)
    end.
Proof.
  intros Hm Hct Hp Hne.
  unfold generate_image_view, generate_image, read_payload, storage_save.
  rewrite Hm, Hct, andb_false_r. unfold and_then, payload_get_prompt. rewrite Hp.
  destruct prompt as [|c0 r0]; [contradiction Hne; reflexivity|].
  unfold or_empty_strip. cbn [Py.truthy String.eqb negb].
  apply String.eqb_neq in Hne. rewrite Hne.
  destruct (generate_image_bytes (Py.strip (String c0 r0))) as [[[|c r]|]|e];
    reflexivity.
Qed.

(** ** Who is served *)

(** X29. An anonymous user is served by none of the three endpoints of the
    games, and nothing is written.  Autosave checks the login first and
    sends to the login page "kirjaudu" whatever the method; completion and
    generation check the method first: they answer 405 to a request that is
    not a POST and send a POST to the login page of the settings. *)
Theorem anonymous_is_not_served `{Runtime} (request : HttpRequest)
    (assignment_id : Z) (db : DB) :
  user request = None ->
  let gate := if method request =? "POST" then HttpResponseRedirect LOGIN_URL
              else HttpResponseNotAllowed ["POST"] in
  assignment_autosave_view assignment_id request db
  = (Ok (HttpResponseRedirect "kirjaudu"), db)
  /\ complete_game_ajax_view assignment_id request db = (Ok gate, db)
  /\ generate_game_ajax_view request db = (Ok gate, db).
Proof.
  intros Hu gate. subst gate.
  unfold assignment_autosave_view, complete_game_ajax_view, generate_game_ajax_view.
  unfold login_required, require_POST. rewrite Hu.
  destruct (method request =? "POST"); repeat split.
Qed.

(** ** The further properties at concrete requests *)

Lemma status_never_goes_back_witness :
  exists a' : Assignment,
    assignments (@serve Sample.runtime (SampleMore.two_calls 3) Sample.db) !! 3%Z = Some a'
    /\ a_student a' = a_student (Sample.assignment ASSIGNED ["pairs"])
    /\ a_material a' = a_material (Sample.assignment ASSIGNED ["pairs"])
    /\ (status_rank (a_status (Sample.assignment ASSIGNED ["pairs"]))
        <= status_rank (a_status a'))%nat.
Proof.
  apply (@status_never_goes_back Sample.runtime (SampleMore.two_calls 3) Sample.db 3
           (Sample.assignment ASSIGNED ["pairs"])).
  by_computation.
Defined.

Lemma graded_assignment_is_final_witness :
  assignments (@serve Sample.runtime (SampleMore.two_calls 11) Sample.db) !! 11%Z
  = Some (Sample.assignment GRADED ["levels"]).
Proof.
  apply (@graded_assignment_is_final Sample.runtime (SampleMore.two_calls 11) Sample.db 11
           (Sample.assignment GRADED ["levels"])); by_computation.
Defined.

Lemma completion_error_writes_nothing_witness :
  snd (@complete_game_ajax_view Sample.runtime 4
         (Sample.post Sample.student "ei json" []) Sample.db) = Sample.db.
Proof.
  apply (@completion_error_writes_nothing Sample.runtime 4
           (Sample.post Sample.student "ei json" []) Sample.db _
           (JsonResponse [("status", PyStr "error");
                          ("message", PyStr "Tuntematon pelityyppi")] 400)).
  - by_computation.
  - intros data E. discriminate E.
Defined.

Lemma completion_of_foreign_assignment_is_404_witness :
  @complete_game_ajax_view Sample.runtime 3
    (Sample.post Sample.teacher (Sample.score_body "85") []) Sample.db
  = (Raise Http404, Sample.db).
Proof.
  apply (@completion_of_foreign_assignment_is_404 Sample.runtime 3
           (Sample.post Sample.teacher (Sample.score_body "85") []) Sample.db
           Sample.teacher);
    first [by_computation
          | intros a E; vm_compute in E; injection E as <-; by_computation].
Defined.

Lemma completion_rejects_bad_input_witness :
  @complete_game_ajax_view Sample.runtime 1
    (Sample.post Sample.student "ei json" []) Sample.db
  = (Ok (JsonResponse [("status", PyStr "error");
                       ("message", PyStr "Virheellinen JSON")] 400), Sample.db).
Proof.
  apply (@completion_rejects_bad_input Sample.runtime 1
           (Sample.post Sample.student "ei json" []) Sample.db Sample.student
           (Sample.assignment ASSIGNED ["difficulty"; "levels"])
           eq_refl eq_refl eq_refl eq_refl quiz
           "Expecting value: line 1 column 1 (char 0)"); by_computation.
Defined.

Lemma quiz_score_must_be_a_number_witness :
  exists msg : string,
    @complete_game_ajax_view SampleMore.runtime 1
      (Sample.post Sample.student SampleMore.string_score_body []) Sample.db
    = (Raise (TypeError msg), Sample.db).
Proof.
  apply (@quiz_score_must_be_a_number SampleMore.runtime
           (Sample.post Sample.student SampleMore.string_score_body []) 1 Sample.db
           Sample.student (Sample.assignment ASSIGNED ["difficulty"; "levels"])
           (Sample.material ["difficulty"; "levels"])
           [("score", PyStr "paljon")] (PyStr "paljon")); by_computation.
Defined.

Lemma completion_never_lowers_a_score_witness :
  exists row' : Submission,
    submissions (snd (@complete_game_ajax_view Sample.runtime 12
                        (Sample.post Sample.student (Sample.score_body "70") [])
                        Sample.db)) !! 3%nat = Some row'
    /\ (default 0 (s_score (Sample.submission 12 (Some 60%Z)))
        <= default 0 (s_score row'))%Z.
Proof.
  apply (@completion_never_lowers_a_score Sample.runtime
           (Sample.post Sample.student (Sample.score_body "70") []) 12 Sample.db
           Sample.student (Sample.assignment GRADED ["levels"])
           (Sample.material ["levels"]) quiz [("score", PyInt 70)] 70);
    by_computation.
Defined.

Lemma autosave_blank_erases_draft_witness :
  snd (@assignment_autosave_view Sample.runtime 2
         (Sample.post Sample.student EmptyString []) Sample.db)
  = with_assignments
      (<[2%Z := set_draft_response EmptyString
                  (Sample.assignment IN_PROGRESS ["topic"; "words"])]>
         (assignments Sample.db)) Sample.db.
Proof.
  apply (@autosave_blank_erases_draft Sample.runtime
           (Sample.post Sample.student EmptyString []) 2 Sample.db Sample.student
           (Sample.assignment IN_PROGRESS ["topic"; "words"])); by_computation.
Defined.

Lemma autosave_draft_is_stripped_witness :
  exists (a' : Assignment) (before after : list N),
    assignments (snd (@assignment_autosave_view Sample.runtime 3
                        (Sample.post Sample.student EmptyString
                           [("response", SampleMore.padded_response)]) Sample.db))
      !! 3%Z = Some a'
    /\ whitespace before /\ whitespace after
    /\ SampleMore.padded_response
       = utf8_string before ++ a_draft_response a' ++ utf8_string after
    /\ (forall cp rest, In cp unicode_whitespace ->
                        a_draft_response a' <> utf8 cp ++ rest)
    /\ (forall cp front, In cp unicode_whitespace ->
                         a_draft_response a' <> front ++ utf8 cp).
Proof.
  apply (@autosave_draft_is_stripped Sample.runtime
           (Sample.post Sample.student EmptyString
              [("response", SampleMore.padded_response)])
           3 Sample.db Sample.student (Sample.assignment ASSIGNED ["pairs"]));
    by_computation.
Defined.

(** The draft stored for the response above. *)
Example sample_autosave_unicode :
  a_draft_response
  <$> assignments (snd (@assignment_autosave_view Sample.runtime 3
                          (Sample.post Sample.student EmptyString
                             [("response", SampleMore.padded_response)]) Sample.db))
      !! 3%Z
  = Some "uusi vastaus".
Proof. vm_compute. reflexivity. Qed.

(** A response of one NO-BREAK SPACE is an empty draft: nothing is kept
    and the assignment stays ASSIGNED. *)
Example sample_autosave_nbsp :
  (fun a => (a_draft_response a, a_status a))
  <$> assignments (snd (@assignment_autosave_view Sample.runtime 3
                          (Sample.post Sample.student EmptyString
                             [("response", SampleMore.nbsp)]) Sample.db))
      !! 3%Z
  = Some (EmptyString, ASSIGNED).
Proof. vm_compute. reflexivity. Qed.

(** [s[:n]] counts characters, not bytes. *)
Example sample_take_chars :
  Py.take_chars 2 (utf8 228 ++ utf8 228 ++ "ni") = utf8 228 ++ utf8 228.
Proof. vm_compute. reflexivity. Qed.

Lemma autosave_of_foreign_assignment_witness :
  @assignment_autosave_view Sample.runtime 3
    (Sample.post Sample.teacher EmptyString [("response", "luonnos")]) Sample.db
  = match assignments Sample.db !! 3%Z with
    | None => (Raise Http404, Sample.db)
    | Some _ =>
        (Ok (JsonResponse [("ok", PyBool false); ("error", PyStr "forbidden")] 403),
         Sample.db)
    end.
Proof.
  apply (@autosave_of_foreign_assignment Sample.runtime
           (Sample.post Sample.teacher EmptyString [("response", "luonnos")])
           3 Sample.db Sample.teacher);
    first [by_computation
          | intros a E; vm_compute in E; injection E as <-; by_computation].
Defined.

Lemma generation_is_for_teachers_witness :
  @generate_game_ajax_view Sample.runtime
    (Sample.post Sample.student Sample.memory_body []) Sample.db
  = (Ok (JsonResponse [("error", PyStr "Vain opettajat voivat luoda pelejä.")] 403),
     Sample.db).
Proof.
  apply (@generation_is_for_teachers Sample.runtime
           (Sample.post Sample.student Sample.memory_body []) Sample.db Sample.student);
    by_computation.
Defined.

Lemma generation_needs_topic_and_game_type_witness :
  @generate_game_ajax_view Sample.runtime (Sample.post Sample.teacher "{}" []) Sample.db
  = (Ok (JsonResponse [("error", PyStr "Aihe ja pelityyppi ovat pakollisia.")] 400),
     Sample.db).
Proof.
  apply (@generation_needs_topic_and_game_type Sample.runtime
           (Sample.post Sample.teacher "{}" []) Sample.db Sample.teacher []);
    first [by_computation | left; reflexivity].
Defined.

Lemma generation_of_unknown_game_type_witness :
  @generate_game_ajax_view SampleMore.runtime
    (Sample.post Sample.teacher SampleMore.bingo_body []) Sample.db
  = (Ok (JsonResponse [("error", PyStr "Tuntematon pelityyppi")] 500), Sample.db).
Proof.
  apply (@generation_of_unknown_game_type SampleMore.runtime
           (Sample.post Sample.teacher SampleMore.bingo_body []) Sample.db Sample.teacher
           [("topic", PyStr "linnut"); ("game_type", PyStr "bingo")]);
    first [by_computation | intros s [<-|[<-|[<-|[]]]]; discriminate].
Defined.

Lemma metadata_subject_is_valid_witness :
  exists (title : pyval) (subject : string),
    PyDict [("title", PyStr "Linnut: memory"); ("subject", PyStr "Ympäristöoppi")]
    = PyDict [("title", title); ("subject", PyStr subject)]
    /\ In subject VALID_SUBJECTS.
Proof.
  apply (@metadata_subject_is_valid Sample.runtime (PyStr "linnut") (PyStr "memory")).
  by_computation.
Defined.

Lemma generation_metadata_fallback_witness :
  @generate_game_ajax_view SampleMore.runtime
    (Sample.post Sample.teacher Sample.memory_body []) Sample.db
  = (Ok (JsonResponse200
           [("success", PyBool true);
            ("game_data", PyDict []);
            ("metadata",
             PyDict [("title", PyStr (Sample.ascii_capitalize "linnut" ++ ": " ++ "memory"));
                     ("subject", PyStr "Ympäristöoppi")])]), Sample.db).
Proof.
  apply (@generation_metadata_fallback SampleMore.runtime
           (Sample.post Sample.teacher Sample.memory_body []) Sample.db Sample.teacher
           [("topic", PyStr "linnut"); ("game_type", PyStr "memory")]
           "linnut" "memory" (PyDict []));
    first [by_computation | intros content d' E; discriminate E].
Defined.

Lemma anonymous_is_not_served_witness :
  let request := {| method := "GET"; user := None; body := EmptyString; POST := [] |} in
  let gate := if method request =? "POST"
              then HttpResponseRedirect (@LOGIN_URL Sample.runtime)
              else HttpResponseNotAllowed ["POST"] in
  @assignment_autosave_view Sample.runtime 1 request Sample.db
  = (Ok (HttpResponseRedirect "kirjaudu"), Sample.db)
  /\ @complete_game_ajax_view Sample.runtime 1 request Sample.db = (Ok gate, Sample.db)
  /\ @generate_game_ajax_view Sample.runtime request Sample.db = (Ok gate, Sample.db).
Proof.
  intros request.
  apply (@anonymous_is_not_served Sample.runtime request 1 Sample.db). reflexivity.
Defined.

Lemma remove_images_keeps_the_text_witness :
  remove_images (with_images "Lue. " [(SampleMore.first_image, "Vastaa sitten. ");
                                      (SampleMore.third_image, "Loppu.")])
  = "Lue. " ++ concat_strings (map snd [(SampleMore.first_image, "Vastaa sitten. ");
                                        (SampleMore.third_image, "Loppu.")]).
Proof.
  apply remove_images_keeps_the_text; by_computation.
Defined.

(** The whitespace after an image goes with it, a NO-BREAK SPACE too. *)
Example sample_remove_images_nbsp :
  remove_images ("![kuva](a.png)" ++ SampleMore.nbsp ++ "Vastaa.") = "Vastaa.".
Proof. vm_compute. reflexivity. Qed.

Lemma speech_of_images_only_witness :
  @assignment_tts_view SampleMedia.media SampleMedia.contents 3
    (Sample.post Sample.student EmptyString []) Sample.db
  = (Ok (Plain (JsonResponse
                  [("Virhe", PyStr "Ei luettavaa tekstiä löytynyt siivouksen jälkeen.")]
                  400)), Sample.db).
Proof.
  apply (@speech_of_images_only SampleMedia.media SampleMedia.contents
           (Sample.post Sample.student EmptyString []) 3 Sample.db Sample.student
           (Sample.assignment ASSIGNED ["pairs"]) (Sample.material ["pairs"])
           SampleMore.first_image [SampleMore.second_image]); by_computation.
Defined.

Lemma speech_only_for_the_owner_witness :
  Sample.db = Sample.db /\ "audio/mpeg" = "audio/mpeg" /\ "ID3-audio" <> EmptyString
  /\ exists (u : User) (a : Assignment) (raw_text : string),
       user (Sample.post Sample.student EmptyString []) = Some u
       /\ assignments Sample.db !! 2%Z = Some a
       /\ a_student a = u_id u
       /\ SampleMedia.contents 2 = Some raw_text
       /\ @generate_speech SampleMedia.media (remove_images raw_text)
          = Ok (Some "ID3-audio").
Proof.
  apply (@speech_only_for_the_owner SampleMedia.media SampleMedia.contents
           (Sample.post Sample.student EmptyString []) 2 Sample.db Sample.db
           "ID3-audio" "audio/mpeg").
  by_computation.
Defined.

Lemma speech_without_material_raises_witness :
  @assignment_tts_view SampleMedia.media SampleMedia.contents 20
    (Sample.post Sample.student EmptyString []) SampleMore.db
  = (Raise (AttributeError "'NoneType' object has no attribute 'content'"),
     SampleMore.db).
Proof.
  apply (@speech_without_material_raises SampleMedia.media SampleMedia.contents
           (Sample.post Sample.student EmptyString []) 20 SampleMore.db Sample.student
           SampleMore.bare_assignment); by_computation.
Defined.

Lemma image_is_stored_only_with_201_witness :
  let request := SampleMedia.form_request [("prompt", " kissa ")] in
  let out := @generate_image_view Sample.runtime SampleMedia.media request [] in
  snd out = [] /\ (forall data, fst out <> Ok (JsonResponse data 201))
  \/ exists image : string,
       let name := @get_available_name SampleMedia.media
                     ("ai_images/" ++ @uuid4_hex SampleMedia.media ++ ".png")
                     (map fst ([] : Storage)) in
       fst out
       = Ok (JsonResponse [("image_url", PyStr (@storage_url SampleMedia.media name))] 201)
       /\ snd out = ([] ++ [(name, image)])%list
       /\ image <> EmptyString.
Proof.
  intros request out.
  apply (@image_is_stored_only_with_201 Sample.runtime SampleMedia.media request []).
  by_computation.
Defined.

Lemma image_of_undecodable_body_witness :
  @generate_image_view Sample.runtime SampleMedia.media
    (SampleMedia.json_request "ei json") []
  = (Ok (JsonResponse [("error", PyStr "Tyhjä prompt")] 400), []).
Proof.
  apply (@image_of_undecodable_body Sample.runtime SampleMedia.media
           (SampleMedia.json_request "ei json") [] "ei json");
    first [by_computation | right; split; [discriminate|]; eexists; by_computation].
Defined.

Lemma image_from_form_witness :
  @generate_image_view Sample.runtime SampleMedia.media
    (SampleMedia.form_request [("prompt", " kissa ")]) []
  = match @generate_image_bytes SampleMedia.media (Py.strip " kissa ") with
    | Raise e => (Ok (JsonResponse [("error", PyStr (exn_str e))] 502), [])
    | Ok (Some (String c r)) =>
        let name := @get_available_name SampleMedia.media
                      ("ai_images/" ++ @uuid4_hex SampleMedia.media ++ ".png")
                      (map fst ([] : Storage)) in
        (Ok (JsonResponse [("image_url", PyStr (@storage_url SampleMedia.media name))] 201),
         ([] ++ [(name, String c r)])%list)
    | Ok _ =>
        (Ok (JsonResponse [("error", PyStr "Generointi palautti tyhjän tuloksen.")] 502),
         [])
    end.
Proof.
  apply (@image_from_form Sample.runtime SampleMedia.media
           (SampleMedia.form_request [("prompt", " kissa ")]) [] " kissa ");
    by_computation.
Defined.

(** What the image endpoint answers to the form request above. *)
Example sample_image :
  @generate_image_view Sample.runtime SampleMedia.media
    (SampleMedia.form_request [("prompt", " kissa ")]) []
  = (Ok (JsonResponse
           [("image_url",
             PyStr "https://cdn.example/ai_images/3f2b8c1e9d4a4c6f8e7a1b2c3d4e5f60.png")]
           201),
     [("ai_images/3f2b8c1e9d4a4c6f8e7a1b2c3d4e5f60.png", "PNG-image")]).
Proof. vm_compute. reflexivity. Qed.

(** A prompt of one NO-BREAK SPACE is an empty prompt. *)
Example sample_image_nbsp :
  @generate_image_view Sample.runtime SampleMedia.media
    (SampleMedia.form_request [("prompt", SampleMore.nbsp)]) []
  = (Ok (JsonResponse [("error", PyStr "Tyhjä prompt")] 400), []).
Proof. vm_compute. reflexivity. Qed.

(** What the speech endpoint answers for a content with a text. *)
Example sample_speech :
  @assignment_tts_view SampleMedia.media SampleMedia.contents 2
    (Sample.post Sample.student EmptyString []) Sample.db
  = (Ok (HttpResponseOf "ID3-audio" "audio/mpeg"), Sample.db).
Proof. vm_compute. reflexivity. Qed.

Lemma difficulty_only_matters_for_quiz_witness :
  @generate_game_ajax_view SampleMore.runtime
    (Sample.post Sample.teacher Sample.memory_body []) Sample.db
  = @generate_game_ajax_view SampleMore.runtime
      (Sample.post Sample.teacher SampleMore.hard_memory_body []) Sample.db.
Proof.
  apply (@difficulty_only_matters_for_quiz SampleMore.runtime
           (Sample.post Sample.teacher Sample.memory_body [])
           (Sample.post Sample.teacher SampleMore.hard_memory_body [])
           Sample.db Sample.teacher
           [("topic", PyStr "linnut"); ("game_type", PyStr "memory")]
           [("topic", PyStr "linnut"); ("game_type", PyStr "memory");
            ("difficulty", PyList [])]
           "memory");
    first [by_computation | right; reflexivity].
Defined.
